(** * stock-monitor: the data layer of [app.py]

    A shallow embedding of the fetch / normalisation / metrics layer and of
    the persisted threshold-and-journal store of [src/app.py], followed by
    the properties of the specification that concern them.

    Conventions of the embedding.
    - A Python [str] is a [string] holding its UTF-8 bytes.  Equality,
      [startswith] and [replace] with ASCII patterns, and the code-point
      order used by [sort] coincide on code points and on UTF-8 bytes.
    - A pandas [DataFrame] is a header (column labels) and a list of rows,
      each an index label and its cells, in row order.
    - A function that can raise returns a [result]; [try ... except
      Exception] turns a raised exception into a value.
    - Module-level state ([TushareClient._instance]) and the calls made to
      the upstream providers are threaded through a small state monad.
    - What pandas computes on a column ([pd.to_datetime], [pd.to_numeric],
      the order of [sort_values]) and what Python's Unicode tables compute
      on a label ([str.lower], [str.strip]) is taken as an interface
      ([Pandas], [PyStr]); every theorem holds for all its implementations.
    - The clock is read once per fetch.

    The file has three parts: the embedding of the source, the vocabulary
    in which the properties are stated (with sample data), and the
    properties with their proofs. *)

From stdpp Require Import base option list gmap strings sorting.
From Stdlib Require Import ZArith Lia String Ascii.

#[local] Open Scope string_scope.
#[local] Open Scope list_scope.
#[local] Open Scope Z_scope.
#[local] Set Warnings "-register-all".

(** ** Exceptions *)

Inductive exn : Type :=
| KeyError (what : string)
| ValueError (what : string)
| TypeError (what : string)
| AttributeError (what : string)
| IOError (what : string).

Inductive result (A : Type) : Type :=
| Ok (a : A)
| Raise (e : exn).
Arguments Ok {A} a.
Arguments Raise {A} e.

#[global] Instance result_bind : MBind result := fun A B k r =>
  match r with
  | Ok a => k a
  | Raise e => Raise e
  end.

#[global] Instance result_ret : MRet result := fun A a => Ok a.

(** ** Python strings *)

Module Py.

(** [str.lower] and [str.strip] consult Unicode tables. *)
Class PyStr : Type := {
  lower : string -> string;
  strip : string -> string
}.

Definition startswith (s p : string) : bool := String.prefix p s.

(** [s.replace(old, new)] for a non-empty [old]: occurrences are found left
    to right and do not overlap.  [skip] counts the bytes of an occurrence
    that are still to be dropped. *)
Fixpoint replace_from (old new : string) (skip : nat) (s : string) : string :=
  match s with
  | EmptyString => EmptyString
  | String c s' =>
      match skip with
      | S k => replace_from old new k s'
      | O =>
          if String.prefix old s
          then new +:+ replace_from old new (Nat.pred (String.length old)) s'
          else String c (replace_from old new O s')
      end
  end.

(** For an empty [old] Python puts [new] before every character and at the
    end. *)
Fixpoint intersperse (new s : string) : string :=
  match s with
  | EmptyString => new
  | String c s' => new +:+ String c (intersperse new s')
  end.

Definition replace (s old new : string) : string :=
  match old with
  | EmptyString => intersperse new s
  | _ => replace_from old new O s
  end.

(** A string with its first [n] bytes removed ([s[n:]]). *)
Fixpoint drop_prefix (n : nat) (s : string) : string :=
  match n, s with
  | O, _ => s
  | S k, EmptyString => EmptyString
  | S k, String _ s' => drop_prefix k s'
  end.

(** [old in s] on strings. *)
Fixpoint contains (old s : string) : bool :=
  String.prefix old s ||
  match s with
  | EmptyString => false
  | String _ s' => contains old s'
  end.

Definition occurs (old s : string) : Prop := contains old s = true.

(** Decimal digits, zero-padded to a fixed width ([%02d], [%04d]). *)
Definition digit (n : Z) : ascii := ascii_of_nat (48 + Z.to_nat (n mod 10))%nat.

Fixpoint zfill (width : nat) (n : Z) : string :=
  match width with
  | O => EmptyString
  | S w => zfill w (n / 10) +:+ String (digit n) EmptyString
  end.

End Py.

(** ** Timestamps and floats *)

(** A naive [pd.Timestamp]: a calendar date and the nanoseconds since
    midnight. *)
Record Timestamp : Type := mkTimestamp {
  year : Z;
  month : Z;
  day : Z;
  nanos : Z
}.

Definition ts_compare (a b : Timestamp) : comparison :=
  match year a ?= year b with
  | Eq =>
      match month a ?= month b with
      | Eq =>
          match day a ?= day b with
          | Eq => nanos a ?= nanos b
          | c => c
          end
      | c => c
      end
  | c => c
  end.

Definition ts_leb (a b : Timestamp) : bool :=
  match ts_compare a b with
  | Gt => false
  | _ => true
  end.

Definition ts_le (a b : Timestamp) : Prop := ts_leb a b = true.

#[global] Instance ts_le_dec (a b : Timestamp) : Decision (ts_le a b) :=
  bool_eq_dec (ts_leb a b) true.

Definition is_leap (y : Z) : bool :=
  ((y mod 4 =? 0) && negb (y mod 100 =? 0)) || (y mod 400 =? 0).

Definition days_in_month (y m : Z) : Z :=
  if m =? 2 then (if is_leap y then 29 else 28)
  else if (m =? 4) || (m =? 6) || (m =? 9) || (m =? 11) then 30
  else 31.

(** [t - pd.DateOffset(years=n)]: the same month, day and time of day [n]
    years earlier, the day clamped to the length of the month. *)
Definition sub_years (t : Timestamp) (n : Z) : Timestamp :=
  let y := year t - n in
  {| year := y;
     month := month t;
     day := Z.min (day t) (days_in_month y (month t));
     nanos := nanos t |}.

(** [t.strftime('%Y-%m-%d')] and [t.strftime('%Y%m%d')], for the four-digit
    years a [pd.Timestamp] can hold. *)
Definition strftime_iso (t : Timestamp) : string :=
  Py.zfill 4 (year t) +:+ "-" +:+ Py.zfill 2 (month t) +:+ "-" +:+ Py.zfill 2 (day t).

Definition strftime_compact (t : Timestamp) : string :=
  Py.zfill 4 (year t) +:+ Py.zfill 2 (month t) +:+ Py.zfill 2 (day t).

(** A finite binary64 value is an integer multiple of 2^-1074 and is
    represented by that integer: order and equality are those of the
    floats.  NaN (pandas' null) is [None]. *)
Definition float : Type := Z.

(** ** Configuration *)

Module Config.

Definition DATA_FILE : string := "stock_strategy_data.json".
Definition CACHE_TTL : Z := 600.
Definition LOOKBACK_YEARS : Z := 5.

Definition INDEX_GROUPS : list (string * list (string * string)) :=
  [ ("🏛 核心宽基",
      [ ("上证指数", "sh000001"); ("创业板指", "sz399006");
        ("沪深300", "sh000300"); ("中证500", "sh000905");
        ("上证50", "sh000016"); ("中证1000", "sh000852") ]);
    ("💊 行业板块",
      [ ("中证红利", "sh000922"); ("中证医疗", "sz399989");
        ("全指医药", "sh000991"); ("全指消费", "sh000990");
        ("中证消费", "sh000932"); ("全指信息", "sh000993");
        ("中证传媒", "sz399971"); ("食品饮料", "sz399396");
        ("中证军工", "sz399967"); ("中概互联", "H30533") ]);
    ("🌍 全球市场",
      [ ("恒生指数", "hkHSI"); ("恒生科技", "hkHSTECH");
        ("恒生医疗", "hkHSHCI"); ("标普500", "gb.INX");
        ("纳指100", "gb.NDX") ]) ].

End Config.

(** ** Frames *)

(** A [DataFrame]: its column labels and its rows in order, each row the
    index label and the cells under the columns. *)
Record DataFrame (cell : Type) : Type := mkDataFrame {
  columns : list string;
  rows : list (Z * list cell)
}.
Arguments mkDataFrame {cell} columns rows.
Arguments columns {cell} d.
Arguments rows {cell} d.

(** What pandas computes on a column.  [to_datetime] and [to_numeric] are
    the conversions with [errors='coerce'] ([None] is NaT, resp. NaN);
    [to_datetime_format] is the conversion with an explicit format, which
    raises on a value that does not match; [argsort] is the order in which
    [sort_values] lists the rows, as positions in the column. *)
Class Pandas (cell : Type) : Type := {
  nan : cell;
  to_datetime : list cell -> list (option Timestamp);
  to_datetime_format : string -> list cell -> result (list (option Timestamp));
  to_numeric : list cell -> list (option float);
  argsort : list cell -> list nat
}.

(** A row of a cleaned frame, reduced to the columns that are read
    afterwards. *)
Record Row : Type := mkRow {
  label : Z;
  date : option Timestamp;
  close : option float;
  high : option float;
  low : option float
}.

(** The dictionary returned by the fetchers.  The values are Python
    floats ([None] for NaN); ["source"] is set on the cross-border index
    only. *)
Record Metrics : Type := mkMetrics {
  cur : option float;
  hv : option float;
  hd : string;
  lv : option float;
  ld : string;
  source : option string
}.

Definition set_source (m : Metrics) (s : string) : Metrics :=
  {| cur := cur m; hv := hv m; hd := hd m; lv := lv m; ld := ld m;
     source := Some s |}.

Module Frame.
Section Frame.
Context {cell : Type} `{!Pandas cell}.

(** [df.empty]: some axis has length zero. *)
Definition empty (df : DataFrame cell) : bool :=
  match columns df, rows df with
  | [], _ | _, [] => true
  | _, _ => false
  end.

(** [df.rename(columns=m)]: every label that is a key of [m] is replaced. *)
Fixpoint renamed (m : list (string * string)) (c : string) : string :=
  match m with
  | [] => c
  | (k, v) :: m' => if decide (c = k) then v else renamed m' c
  end.

Definition rename (m : list (string * string)) (df : DataFrame cell)
  : DataFrame cell :=
  mkDataFrame (renamed m <$> columns df) (rows df).

Definition set_columns (cols : list string) (df : DataFrame cell)
  : DataFrame cell :=
  mkDataFrame cols (rows df).

(** The positions of the columns labelled [c]. *)
Fixpoint positions_from (i : nat) (c : string) (cols : list string) : list nat :=
  match cols with
  | [] => []
  | c' :: cols' =>
      if decide (c' = c) then i :: positions_from (S i) c cols'
      else positions_from (S i) c cols'
  end.

Definition positions (c : string) (cols : list string) : list nat :=
  positions_from 0 c cols.

(** [c in df.columns]. *)
Definition has_column (c : string) (df : DataFrame cell) : bool :=
  bool_decide (c ∈ columns df).

(** [df[c]] where a Series is needed: a missing label raises [KeyError];
    with a repeated label [df[c]] is a frame, on which the conversions and
    [sort_values] raise. *)
Definition getitem (c : string) (df : DataFrame cell) : result nat :=
  match positions c (columns df) with
  | [] => Raise (KeyError c)
  | [i] => Ok i
  | _ => Raise (TypeError c)
  end.

(** The cells of the column at position [i], in row order. *)
Definition column (i : nat) (rs : list (Z * list cell)) : list cell :=
  (fun r => default nan (r.2 !! i)) <$> rs.

(** [df.sort_values(c)] for the column at position [i]. *)
Definition sort_values (i : nat) (df : DataFrame cell) : DataFrame cell :=
  mkDataFrame (columns df) (omap (fun k => rows df !! k) (argsort (column i (rows df)))).

End Frame.
End Frame.

(** ** The world outside the process, and the state inside it *)

(** A [tushare] client object, built from a token. *)
Record pro_api : Type := mk_pro_api { token : string }.

(** The calls the fetchers make to the data providers. *)
Inductive call : Type :=
| ts_pro_api (tok : string)
| pro_index_daily (ts_code start_date end_date : string)
| ak_fund_etf_hist_em (symbol period start_date end_date adjust : string)
| ak_stock_hk_index_daily_em (symbol : string)
| ak_index_us_stock_sina (symbol : string)
| ak_stock_zh_index_daily_em (symbol : string).

(** What the environment answers during one fetch: the clock
    ([pd.Timestamp.now()], read as one instant), the configured token, and
    for each provider call either the table it returns or the exception it
    raises. *)
Record World (cell : Type) : Type := mkWorld {
  now : Timestamp;
  TUSHARE_TOKEN : string;
  new_pro_api : string -> result pro_api;
  index_daily : pro_api -> string -> string -> string -> result (DataFrame cell);
  fund_etf_hist_em :
    string -> string -> string -> string -> string -> result (DataFrame cell);
  stock_hk_index_daily_em : string -> result (DataFrame cell);
  index_us_stock_sina : string -> result (DataFrame cell);
  stock_zh_index_daily_em : string -> result (DataFrame cell)
}.
Arguments now {cell} w.
Arguments TUSHARE_TOKEN {cell} w.
Arguments new_pro_api {cell} w _.
Arguments index_daily {cell} w _ _ _ _.
Arguments fund_etf_hist_em {cell} w _ _ _ _ _.
Arguments stock_hk_index_daily_em {cell} w _.
Arguments index_us_stock_sina {cell} w _.
Arguments stock_zh_index_daily_em {cell} w _.

(** The module-level state: the client singleton, and the provider calls
    made so far, oldest first. *)
Record State : Type := mkState {
  _instance : option pro_api;
  calls : list call
}.

(** Computations that read and change the state and may raise; the state
    reached when an exception is raised is kept. *)
Definition M (A : Type) : Type := State -> result A * State.

#[global] Instance M_ret : MRet M := fun A a s => (Ok a, s).

#[global] Instance M_bind : MBind M := fun A B k m s =>
  match m s with
  | (Ok a, s') => k a s'
  | (Raise e, s') => (Raise e, s')
  end.

(** [try: m except Exception as e: handler e]. *)
Definition try_except {A : Type} (m : M A) (handler : exn -> M A) : M A :=
  fun s =>
    match m s with
    | (Ok a, s') => (Ok a, s')
    | (Raise e, s') => handler e s'
    end.

Definition lift {A : Type} (r : result A) : M A := fun s => (r, s).

(** A provider call: it is recorded, and answers what the world says. *)
Definition record_call (c : call) (s : State) : State :=
  {| _instance := _instance s; calls := calls s ++ [c] |}.

Definition request {A : Type} (c : call) (answer : result A) : M A :=
  fun s => (answer, record_call c s).

Definition get_singleton : M (option pro_api) := fun s => (Ok (_instance s), s).

Definition set_singleton (p : pro_api) : M unit :=
  fun s => (Ok tt, {| _instance := Some p; calls := calls s |}).

(** ** [TushareClient] *)

Module TushareClient.
Section TushareClient.
Context {cell : Type} (w : World cell).

(** The client singleton: built on first use when a token is configured;
    a failure to build it is logged and leaves the singleton unset. *)
Definition get_instance : M (option pro_api) :=
  inst ← get_singleton;
  (if bool_decide (inst = None) && negb (bool_decide (TUSHARE_TOKEN w = ""))
   then try_except
          (p ← request (ts_pro_api (TUSHARE_TOKEN w)) (new_pro_api w (TUSHARE_TOKEN w));
           set_singleton p)
          (fun _ => mret tt)
   else mret tt);;
  get_singleton.

End TushareClient.
End TushareClient.

(** ** [DataFetcher] *)

Module DataFetcher.
Section DataFetcher.
Context `{!Py.PyStr} {cell : Type} `{!Pandas cell} (w : World cell).

(** The labels recognised as the date column. *)
Definition date_labels : list string := ["date"; "time"; "日期"].

(** The numeric column labelled [c] of the rows [rs]; when the frame has no
    such column it is first set to the (already numeric) close column, on
    which [to_numeric] changes nothing. *)
Definition numeric_column (c : string) (df : DataFrame cell)
    (closes : list (option float)) : result (list (option float)) :=
  match Frame.positions c (columns df) with
  | [] => Ok closes
  | [i] => Ok (to_numeric (Frame.column i (rows df)))
  | _ => Raise (TypeError c)
  end.

(** The first lines of [_clean_dataframe]: the labels are lower-cased and
    the first label among [date_labels] is renamed to ["date"]. *)
Definition standardize (df : DataFrame cell) : DataFrame cell :=
  (* df.columns = [c.lower() for c in df.columns] *)
  let df := Frame.set_columns (Py.lower <$> columns df) df in
  (* date_col = next((c for c in df.columns if c in [...]), None) *)
  let date_col := head (filter (fun c => c ∈ date_labels) (columns df)) in
  match date_col with
  | Some c => Frame.rename [(c, "date")] df
  | None => df
  end.

(** [pd.to_datetime(df['date'], errors='coerce')]. *)
Definition date_column (df : DataFrame cell) : result (list (option Timestamp)) :=
  i_date ← Frame.getitem "date" df;
  Ok (to_datetime (Frame.column i_date (rows df))).

(** [_clean_dataframe(df)]. *)
Definition _clean_dataframe (now : Timestamp) (df : DataFrame cell)
  : result (list Row) :=
  let df := standardize df in
  (* df['date'] = pd.to_datetime(df['date'], errors='coerce') *)
  dates ← date_column df;
  (* df.dropna(subset=['date'], inplace=True) *)
  let dated := omap (fun rd => t ← rd.2; Some (rd.1, t)) (zip (rows df) dates) in
  (* df = df[df['date'] >= cutoff_date] *)
  let cutoff_date := sub_years now Config.LOOKBACK_YEARS in
  let recent := filter (fun rt => ts_le cutoff_date rt.2) dated in
  let df := mkDataFrame (columns df) recent.*1 in
  (* for col in ['close', 'high', 'low']: ... pd.to_numeric(df[col], errors='coerce') *)
  i_close ← Frame.getitem "close" df;
  let closes := to_numeric (Frame.column i_close (rows df)) in
  highs ← numeric_column "high" df closes;
  lows ← numeric_column "low" df closes;
  let cleaned :=
    imap (fun k rt =>
            {| label := rt.1.1;
               date := Some rt.2;
               close := mjoin (closes !! k);
               high := mjoin (highs !! k);
               low := mjoin (lows !! k) |}) recent in
  (* df.dropna(subset=['close'], inplace=True) *)
  Ok (filter (fun r => is_Some (close r)) cleaned).

(** [Series.idxmax] / [Series.idxmin] on the column [f]: NaN is skipped and
    the label of the first row holding the extreme value is returned; a
    column without a number has no such label. *)
Fixpoint arg_first (better : float -> float -> bool) (f : Row -> option float)
    (best : option (Z * float)) (S : list Row) : option (Z * float) :=
  match S with
  | [] => best
  | r :: S' =>
      match f r, best with
      | None, _ => arg_first better f best S'
      | Some v, None => arg_first better f (Some (label r, v)) S'
      | Some v, Some (_, b) =>
          if better v b then arg_first better f (Some (label r, v)) S'
          else arg_first better f best S'
      end
  end.

Definition idxmax (f : Row -> option float) (S : list Row) : result Z :=
  match arg_first Z.gtb f None S with
  | Some (l, _) => Ok l
  | None => Raise (ValueError "idxmax")
  end.

Definition idxmin (f : Row -> option float) (S : list Row) : result Z :=
  match arg_first Z.ltb f None S with
  | Some (l, _) => Ok l
  | None => Raise (ValueError "idxmin")
  end.

(** [df.loc[l, col]] used as a scalar: the rows labelled [l]; with a
    repeated label the selection is a Series, on which [float] and
    [.strftime] raise. *)
Definition loc (l : Z) (S : list Row) : result Row :=
  match filter (fun r => label r = l) S with
  | [r] => Ok r
  | [] => Raise (KeyError "loc")
  | _ => Raise (TypeError "loc")
  end.

(** [ts.strftime('%Y-%m-%d')]; NaT has no [strftime]. *)
Definition strftime (d : option Timestamp) : result string :=
  match d with
  | Some t => Ok (strftime_iso t)
  | None => Raise (ValueError "NaT")
  end.

(** [_extract_metrics(df)]. *)
Definition _extract_metrics (S : list Row) : result (option Metrics) :=
  match last S with
  | None => Ok None
  | Some r_last =>
      let current_value := close r_last in
      high_idx ← idxmax high S;
      low_idx ← idxmin low S;
      r_high ← loc high_idx S;
      hd_ ← strftime (date r_high);
      r_low ← loc low_idx S;
      ld_ ← strftime (date r_low);
      Ok (Some {| cur := current_value;
                  hv := high r_high; hd := hd_;
                  lv := low r_low; ld := ld_;
                  source := None |})
  end.

(** [if metrics: metrics["source"] = s]. *)
Definition tag_source (s : string) (metrics : option Metrics) : option Metrics :=
  match metrics with
  | Some m => Some (set_source m s)
  | None => None
  end.

(** The body of [fetch_zhonggai_tushare] after the provider has answered
    with the table [df]. *)
Definition tushare_metrics (df : DataFrame cell) : result (option Metrics) :=
  if Frame.empty df then Ok None else
  (* df = df.sort_values('trade_date') *)
  i_sort ← Frame.getitem "trade_date" df;
  let df := Frame.sort_values i_sort df in
  let df :=
    Frame.rename [("trade_date", "date"); ("open", "open"); ("high", "high");
                  ("low", "low"); ("close", "close")] df in
  (* df['date'] = pd.to_datetime(df['date'], format='%Y%m%d') *)
  i_date ← Frame.getitem "date" df;
  dates ← to_datetime_format "%Y%m%d" (Frame.column i_date (rows df));
  (* for col in ['close', 'high', 'low']: pd.to_numeric(df[col], errors='coerce') *)
  i_close ← Frame.getitem "close" df;
  let closes := to_numeric (Frame.column i_close (rows df)) in
  i_high ← Frame.getitem "high" df;
  let highs := to_numeric (Frame.column i_high (rows df)) in
  i_low ← Frame.getitem "low" df;
  let lows := to_numeric (Frame.column i_low (rows df)) in
  let typed :=
    imap (fun k r =>
            {| label := r.1;
               date := mjoin (dates !! k);
               close := mjoin (closes !! k);
               high := mjoin (highs !! k);
               low := mjoin (lows !! k) |}) (rows df) in
  (* df.dropna(subset=['close'], inplace=True) *)
  let S := filter (fun r => is_Some (close r)) typed in
  if bool_decide (S = []) then Ok None else
  metrics ← _extract_metrics S;
  Ok (tag_source "Tushare" metrics).

(** [fetch_zhonggai_tushare(pro)]. *)
Definition fetch_zhonggai_tushare (pro : pro_api) : M (option Metrics) :=
  try_except
    (let end_date := strftime_compact (now w) in
     let start_date :=
       strftime_compact (sub_years (now w) Config.LOOKBACK_YEARS) in
     df ← request (pro_index_daily "H30533.CSI" start_date end_date)
                  (index_daily w pro "H30533.CSI" start_date end_date);
     lift (tushare_metrics df))
    (fun _ => mret None).

(** The column labels as [fetch_zhonggai_etf] prepares them. *)
Definition etf_columns (df : DataFrame cell) : DataFrame cell :=
  (* df.columns = [str(c).strip() for c in df.columns] *)
  let df := Frame.set_columns (Py.strip <$> columns df) df in
  Frame.rename [("日期", "date"); ("开盘", "open"); ("收盘", "close");
                ("最高", "high"); ("最低", "low")] df.

(** [fetch_zhonggai_etf()]. *)
Definition fetch_zhonggai_etf : M (option Metrics) :=
  try_except
    (df ← request (ak_fund_etf_hist_em "513050" "daily" "20190101" "20261231" "qfq")
                  (fund_etf_hist_em w "513050" "daily" "20190101" "20261231" "qfq");
     if Frame.empty df then mret None else
     let df := etf_columns df in
     S ← lift (_clean_dataframe (now w) df);
     if bool_decide (S = []) then mret None else
     metrics ← lift (_extract_metrics S);
     mret (tag_source "ETF" metrics))
    (fun _ => mret None).

(** The column labels as [fetch_hongkong_index] prepares them. *)
Definition hk_columns (df : DataFrame cell) : DataFrame cell :=
  (* df.columns = [c.lower().strip() for c in df.columns] *)
  let df := Frame.set_columns ((fun c => Py.strip (Py.lower c)) <$> columns df) df in
  let df :=
    if Frame.has_column "time" df then Frame.rename [("time", "date")] df
    else df in
  if Frame.has_column "latest" df then Frame.rename [("latest", "close")] df
  else df.

(** [fetch_hongkong_index(code)]. *)
Definition fetch_hongkong_index (code : string) : M (option Metrics) :=
  try_except
    (let hk_code := Py.replace code "hk" "" in
     df ← request (ak_stock_hk_index_daily_em hk_code)
                  (stock_hk_index_daily_em w hk_code);
     if Frame.empty df then mret None else
     let df := hk_columns df in
     S ← lift (_clean_dataframe (now w) df);
     lift (_extract_metrics S))
    (fun _ => mret None).

(** The symbol [fetch_us_index] asks the provider for. *)
Definition us_symbol (code : string) : string :=
  let symbol := Py.replace code "gb." "" in
  if decide (symbol = "INX") then ".INX"
  else if decide (symbol = "NDX") then ".NDX"
  else symbol.

(** [fetch_us_index(code)]. *)
Definition fetch_us_index (code : string) : M (option Metrics) :=
  try_except
    (let symbol := us_symbol code in
     df ← request (ak_index_us_stock_sina symbol) (index_us_stock_sina w symbol);
     S ← lift (_clean_dataframe (now w) df);
     lift (_extract_metrics S))
    (fun _ => mret None).

(** [fetch_a_share_index(code)]. *)
Definition fetch_a_share_index (code : string) : M (option Metrics) :=
  try_except
    (df ← request (ak_stock_zh_index_daily_em code) (stock_zh_index_daily_em w code);
     S ← lift (_clean_dataframe (now w) df);
     lift (_extract_metrics S))
    (fun _ => mret None).

End DataFetcher.
End DataFetcher.

(** ** The entry point *)

Section fetch_index_data.
Context `{!Py.PyStr} {cell : Type} `{!Pandas cell} (w : World cell).

(** [fetch_index_data(name, symbol)], without its cache. *)
Definition fetch_index_data (name symbol : string) : M (option Metrics) :=
  try_except
    (if decide (name = "中概互联") then
       pro ← TushareClient.get_instance w;
       result ←
         match pro with
         | Some p => DataFetcher.fetch_zhonggai_tushare w p
         | None => mret None
         end;
       match result with
       | Some m => mret (Some m)
       | None => DataFetcher.fetch_zhonggai_etf w
       end
     else if Py.startswith symbol "hk" then
       DataFetcher.fetch_hongkong_index w symbol
     else if Py.startswith symbol "gb" then
       DataFetcher.fetch_us_index w symbol
     else
       DataFetcher.fetch_a_share_index w symbol)
    (fun _ => mret None).

End fetch_index_data.

(** ** The persisted document *)

(** A JSON number as Python reads it. *)
Inductive number : Type :=
| PyInt (n : Z)
| PyFloat (x : float).

(** A journal entry [{"date": ..., "content": ...}]. *)
Module Note.
Record t : Type := mk { date : string; content : string }.
End Note.

(** The dictionary [st.session_state.db]: three maps keyed by index name. *)
Record Doc : Type := mkDoc {
  supports : gmap string number;
  atmospheres : gmap string number;
  notes : gmap string (list Note.t)
}.

(** A document read back by [json.load]: of the schema that [save] writes,
    where each of the three maps may be missing and may hold any names. *)
Record Saved : Type := mkSaved {
  saved_supports : option (gmap string number);
  saved_atmospheres : option (gmap string number);
  saved_notes : option (gmap string (list Note.t))
}.

(** The state of [Config.DATA_FILE]: no such file; a file that cannot be
    opened or read; a file whose content is not JSON; a file holding a
    document. *)
Inductive file_state : Type :=
| Absent
| Unreadable
| Malformed
| Content (saved : Saved).

(** What happens when [save] writes: the document is written; [open] fails
    and the file is left as it was; or the write fails after [open] has
    truncated the file. *)
Inductive write_outcome : Type :=
| Written
| OpenFails
| DumpFails.

Module DataManager.

(** [get_all_index_names()]. *)
Definition get_all_index_names : list string :=
  mjoin ((fun group => group.2.*1) <$> Config.INDEX_GROUPS).

Definition default_data : Doc :=
  let all_names := get_all_index_names in
  {| supports := list_to_map ((fun name => (name, PyInt 3000)) <$> all_names);
     atmospheres := list_to_map ((fun name => (name, PyInt 4000)) <$> all_names);
     notes := list_to_map ((fun name => (name, [])) <$> all_names) |}.

(** [os.path.exists(Config.DATA_FILE)]. *)
Definition exists_ (f : file_state) : bool :=
  match f with
  | Absent => false
  | _ => true
  end.

(** [json.load(open(Config.DATA_FILE))]. *)
Definition json_load (f : file_state) : result Saved :=
  match f with
  | Absent => Raise (IOError "FileNotFoundError")
  | Unreadable => Raise (IOError "open")
  | Malformed => Raise (ValueError "JSONDecodeError")
  | Content saved => Ok saved
  end.

(** [if key in saved: d.update(saved[key])]: the saved entries replace or
    add to those of [d]. *)
Definition update {V : Type} (d : gmap string V) (saved : option (gmap string V))
  : gmap string V :=
  match saved with
  | Some m => m ∪ d
  | None => d
  end.

(** [DataManager.load()]. *)
Definition load (f : file_state) : result Doc :=
  let d := default_data in
  if exists_ f then
    match json_load f with
    | Ok saved =>
        Ok {| supports := update (supports d) (saved_supports saved);
              atmospheres := update (atmospheres d) (saved_atmospheres saved);
              notes := update (notes d) (saved_notes saved) |}
    | Raise e => Ok d  (* except Exception: st.warning(...) *)
    end
  else Ok d.

(** [json.dump(data, f)] read back. *)
Definition dumped (data : Doc) : Saved :=
  {| saved_supports := Some (supports data);
     saved_atmospheres := Some (atmospheres data);
     saved_notes := Some (notes data) |}.

(** [DataManager.save(data)]: the file afterwards; a failure is reported,
    not raised. *)
Definition save (o : write_outcome) (data : Doc) (f : file_state) : file_state :=
  match o with
  | Written => Content (dumped data)
  | OpenFails => f
  | DumpFails => Malformed
  end.

End DataManager.

(** ** The journal and the thresholds in the UI *)

Module UIComponents.
Section UIComponents.
Context `{!Py.PyStr}.

(** [str(d)] for a [datetime.date] (years 1 to 9999). *)
Record pydate : Type := mk_pydate { dyear : Z; dmonth : Z; dday : Z }.

Definition str_date (d : pydate) : string :=
  Py.zfill 4 (dyear d) +:+ "-" +:+ Py.zfill 2 (dmonth d) +:+ "-" +:+ Py.zfill 2 (dday d).

(** [l.sort(key=lambda x: x['date'], reverse=True)]: Python's sort is
    stable, also when reversed, so an entry stays before the entries of the
    same date that followed it. *)
Fixpoint insert_desc (x : Note.t) (l : list Note.t) : list Note.t :=
  match l with
  | [] => [x]
  | y :: l' =>
      if String.ltb (Note.date x) (Note.date y) then y :: insert_desc x l'
      else x :: l
  end.

Definition sort_desc (l : list Note.t) : list Note.t := foldr insert_desc [] l.

(** The session: the document in memory and the file on disk. *)
Record Session : Type := mkSession {
  db : Doc;
  disk : file_state
}.

(** The submit branch of [_render_notes_section(name)]: with a content that
    is not blank, the entry is appended, the list re-sorted and the
    document saved. *)
Definition add_note (o : write_outcome) (name : string) (date_input : pydate)
    (content_input : string) (s : Session) : Session :=
  if decide (Py.strip content_input = "") then s
  else
    let old := default [] (notes (db s) !! name) in
    let entry := Note.mk (str_date date_input) (Py.strip content_input) in
    let appended := old ++ [entry] in
    let db' :=
      {| supports := supports (db s);
         atmospheres := atmospheres (db s);
         notes := <[name := sort_desc appended]> (notes (db s)) |} in
    {| db := db'; disk := DataManager.save o db' (disk s) |}.

(** The thresholds read by [_render_parameters(name)], before [float()];
    [times_1_3 x] stands for the binary64 product [x * 1.3]. *)
Definition read_thresholds (times_1_3 : number -> number) (d : Doc) (name : string)
  : number * number :=
  let cur_sup := default (PyInt 3000) (supports d !! name) in
  let cur_atm := default (times_1_3 cur_sup) (atmospheres d !! name) in
  (cur_sup, cur_atm).

End UIComponents.
End UIComponents.

(** ** The other widgets of the UI *)

(** The journal list, the threshold inputs and the label layout of
    [UIComponents], as far as they read and change the document.  A run of
    the script handles at most one widget event; each definition below is
    one such run of the function it is named after. *)

Module Widgets.
Section Widgets.
Context `{!Py.PyStr}.

(** An exception that the UI functions let through. *)
Inductive error : Type :=
| ZeroDivisionError
| Uncaught (e : exn).

Definition with_notes (d : Doc) (name : string) (l : list Note.t) : Doc :=
  {| supports := supports d;
     atmospheres := atmospheres d;
     notes := <[name := l]> (notes d) |}.

(** The head of [_render_notes_list(name)]: the journal of the index is
    sorted in place, newest first; nothing is saved. *)
Definition sort_notes (name : string) (d : Doc) : Doc :=
  match notes d !! name with
  | None => d
  | Some l => with_notes d name (UIComponents.sort_desc l)
  end.

(** [_render_notes_list(name)] when the delete button of entry [idx] was
    clicked: [pop(idx)] on the sorted list, then [save].  The button exists
    only for an entry of the list. *)
Definition delete_note (o : write_outcome) (name : string) (idx : nat)
    (s : UIComponents.Session) : UIComponents.Session :=
  match notes (UIComponents.db s) !! name with
  | None => s
  | Some l0 =>
      let l := UIComponents.sort_desc l0 in
      if decide (idx < List.length l)%nat then
        let d := with_notes (UIComponents.db s) name (delete idx l) in
        {| UIComponents.db := d;
           UIComponents.disk := DataManager.save o d (UIComponents.disk s) |}
      else
        {| UIComponents.db := sort_notes name (UIComponents.db s);
           UIComponents.disk := UIComponents.disk s |}
  end.

(** [_render_notes_list(name)] when the save button of the entry [idx]
    under edit was clicked with the text [edited_content]: a text that is
    not blank replaces the content of the entry, and the document is
    saved. *)
Definition update_note (o : write_outcome) (name : string) (idx : nat)
    (edited_content : string) (s : UIComponents.Session) : UIComponents.Session :=
  match notes (UIComponents.db s) !! name with
  | None => s
  | Some l0 =>
      let l := UIComponents.sort_desc l0 in
      match l !! idx with
      | Some note =>
          if decide (Py.strip edited_content = "") then
            {| UIComponents.db := sort_notes name (UIComponents.db s);
               UIComponents.disk := UIComponents.disk s |}
          else
            let note' := Note.mk (Note.date note) (Py.strip edited_content) in
            let d := with_notes (UIComponents.db s) name (<[idx := note']> l) in
            {| UIComponents.db := d;
               UIComponents.disk := DataManager.save o d (UIComponents.disk s) |}
      | None =>
          {| UIComponents.db := sort_notes name (UIComponents.db s);
             UIComponents.disk := UIComponents.disk s |}
      end
  end.

(** [float(v)] for a stored number; [float_of_int] is Python's conversion
    of an integer. *)
Definition to_float (float_of_int : Z -> float) (v : number) : float :=
  match v with
  | PyInt n => float_of_int n
  | PyFloat x => x
  end.

(** The thresholds that [_render_parameters(name)] offers in its inputs;
    [times_1_3 x] stands for the binary64 product [x * 1.3]. *)
Definition current_thresholds (float_of_int : Z -> float) (times_1_3 : float -> float)
    (d : Doc) (name : string) : float * float :=
  let cur_sup := to_float float_of_int (default (PyInt 3000) (supports d !! name)) in
  let cur_atm :=
    match atmospheres d !! name with
    | Some v => to_float float_of_int v
    | None => times_1_3 cur_sup
    end in
  (cur_sup, cur_atm).

(** [_render_parameters(name, data)] when the inputs hold [new_sup] and
    [new_atm] and the current point is [cur] (NaN is [None]): changed
    inputs are stored and saved; then the distance to the support is
    computed, a division by [new_sup]; the result says whether the point
    is shown as at or above the support. *)
Definition _render_parameters (float_of_int : Z -> float) (times_1_3 : float -> float)
    (o : write_outcome) (name : string) (cur : option float) (new_sup new_atm : float)
    (s : UIComponents.Session) : (error + bool) * UIComponents.Session :=
  let '(cur_sup, cur_atm) :=
    current_thresholds float_of_int times_1_3 (UIComponents.db s) name in
  let s' :=
    if negb (bool_decide (new_sup = cur_sup)) || negb (bool_decide (new_atm = cur_atm))
    then
      let d :=
        {| supports := <[name := PyFloat new_sup]> (supports (UIComponents.db s));
           atmospheres := <[name := PyFloat new_atm]> (atmospheres (UIComponents.db s));
           notes := notes (UIComponents.db s) |} in
      {| UIComponents.db := d;
         UIComponents.disk := DataManager.save o d (UIComponents.disk s) |}
    else s in
  (* distance = ((data['cur'] - new_sup) / new_sup) * 100 *)
  if bool_decide (new_sup = 0) then (inl ZeroDivisionError, s')
  else
    let above :=
      match cur with
      | Some c => bool_decide (new_sup <= c)
      | None => false
      end in
    (inr above, s').

(** [supports[name], atmospheres[name]] as [render_index_card] reads them
    for the bar. *)
Definition card_thresholds (d : Doc) (name : string) : error + (number * number) :=
  match supports d !! name with
  | None => inl (Uncaught (KeyError name))
  | Some sup =>
      match atmospheres d !! name with
      | None => inl (Uncaught (KeyError name))
      | Some atm => inr (sup, atm)
      end
  end.

(** The vertical offsets that [render_progress_bar] gives its labels, from
    their positions in list order; [near a b] stands for
    [abs(a - b) < 10]. *)
Fixpoint label_offsets_from {P : Type} (near : P -> P -> bool)
    (prev_pos : P) (prev_offset : Z) (rest : list P) : list Z :=
  match rest with
  | [] => []
  | pos :: rest' =>
      let offset :=
        if near pos prev_pos then (if decide (prev_offset = 0) then 30 else 0)
        else 0 in
      offset :: label_offsets_from near pos offset rest'
  end.

Definition label_offsets {P : Type} (near : P -> P -> bool) (positions : list P)
  : list Z :=
  match positions with
  | [] => []
  | pos :: rest => 0 :: label_offsets_from near pos 0 rest
  end.

(** What one widget does to the session during a run of the script, when
    the writes of the run have the outcome [o]: the threshold inputs, the
    form that adds a note, the list of notes with its delete and save
    buttons, and the backup button of [render_sidebar], which saves the
    document as it is. *)
Inductive step (float_of_int : Z -> float) (times_1_3 : float -> float)
    (o : write_outcome) : UIComponents.Session -> UIComponents.Session -> Prop :=
| step_parameters name cur new_sup new_atm s :
    step float_of_int times_1_3 o s
      (_render_parameters float_of_int times_1_3 o name cur new_sup new_atm s).2
| step_add_note name date_input content_input s :
    step float_of_int times_1_3 o s
      (UIComponents.add_note o name date_input content_input s)
| step_notes_list name s :
    step float_of_int times_1_3 o s
      {| UIComponents.db := sort_notes name (UIComponents.db s);
         UIComponents.disk := UIComponents.disk s |}
| step_delete_note name idx s :
    step float_of_int times_1_3 o s (delete_note o name idx s)
| step_update_note name idx edited_content s :
    step float_of_int times_1_3 o s (update_note o name idx edited_content s)
| step_backup s :
    step float_of_int times_1_3 o s
      {| UIComponents.db := UIComponents.db s;
         UIComponents.disk := DataManager.save o (UIComponents.db s) (UIComponents.disk s) |}.

(** The session in which [main] starts: the document is loaded from the
    file once, when [st.session_state] has no [db] yet. *)
Definition start (f : file_state) : result UIComponents.Session :=
  d ← DataManager.load f;
  Ok {| UIComponents.db := d; UIComponents.disk := f |}.

End Widgets.
End Widgets.

(** * The vocabulary of the specification *)

(** ** Series *)

Definition row_le (r1 r2 : Row) : Prop :=
  match date r1, date r2 with
  | Some a, Some b => ts_le a b
  | _, _ => False
  end.

(** A NormalizedSeries: rows in ascending date order, every row with a date
    and a close, under distinct index labels (pandas numbers the rows of the
    tables it builds). *)
Record NormalizedSeries (S : list Row) : Prop := {
  ns_labels : NoDup (label <$> S);
  ns_dated : Forall (fun r => is_Some (date r)) S;
  ns_closed : Forall (fun r => is_Some (close r)) S;
  ns_sorted : Sorted row_le S
}.

(** [v] is the largest / smallest number in column [f] of [S]. *)
Definition is_max (f : Row -> option float) (S : list Row) (v : float) : Prop :=
  (exists r, r ∈ S /\ f r = Some v) /\
  (forall r x, r ∈ S -> f r = Some x -> x <= v).

Definition is_min (f : Row -> option float) (S : list Row) (v : float) : Prop :=
  (exists r, r ∈ S /\ f r = Some v) /\
  (forall r x, r ∈ S -> f r = Some x -> v <= x).

(** [t] is the earliest date of a row of [S] holding [v] in column [f]. *)
Definition earliest_date (f : Row -> option float) (S : list Row) (v : float)
    (t : Timestamp) : Prop :=
  (exists r, r ∈ S /\ f r = Some v /\ date r = Some t) /\
  (forall r t', r ∈ S -> f r = Some v -> date r = Some t' -> ts_le t t').

(** [t] is the latest date of a row of [S]. *)
Definition latest_date (S : list Row) (t : Timestamp) : Prop :=
  forall r t', r ∈ S -> date r = Some t' -> ts_le t' t.

(** ** Auxiliary notions *)

(** The shape of a list around the row that [arg_first] selects: the rows
    before it are strictly worse, those after it are not better. *)
Definition first_best (better : float -> float -> bool) (f : Row -> option float)
    (S : list Row) (l : Z) (v : float) : Prop :=
  exists S1 r S2,
    S = S1 ++ r :: S2 /\ label r = l /\ f r = Some v /\
    (forall r' x, r' ∈ S1 -> f r' = Some x -> better v x = true) /\
    (forall r' x, r' ∈ S2 -> f r' = Some x -> better x v = false).

(** The rows of the frame with their parsed dates, before any row is
    dropped. *)
Definition dated_rows {cell : Type} (df : DataFrame cell)
    (dates : list (option Timestamp)) : list (Z * option Timestamp) :=
  zip (rows df).*1 dates.

Definition stamp (r : Row) : Z * option Timestamp := (label r, date r).

(** What [try: ... except Exception: return None] returns. *)
Definition settle {A : Type} (r : result (option A)) : option A :=
  match r with
  | Ok x => x
  | Raise _ => None
  end.

(** The index with two providers. *)
Definition special : string := "中概互联".

(** The request that [fetch_zhonggai_etf] sends. *)
Definition etf_call : call :=
  ak_fund_etf_hist_em "513050" "daily" "20190101" "20261231" "qfq".

(** The source label of the specification, which names no vendor: the tag
    that the code writes ["Tushare"] is its [official], the tag that the
    code writes ["ETF"] is its [proxy]. *)
Definition source_label (m : Metrics) : option string :=
  tag ← source m;
  if decide (tag = "Tushare") then Some "official"
  else if decide (tag = "ETF") then Some "proxy"
  else None.

(** The indices that [main] fetches: the names of [Config.INDEX_GROUPS]
    with their codes. *)
Definition configured : list (string * string) :=
  mjoin (snd <$> Config.INDEX_GROUPS).

(** A code carries its market prefix once, at its head: [hk] for Hong
    Kong, [gb.] for the US, none for a domestic code.  The codes of
    [Config.INDEX_GROUPS] are such codes. *)
Definition plain_code (symbol : string) : bool :=
  if Py.startswith symbol "hk" then
    negb (Py.contains "hk" (Py.drop_prefix 2 symbol))
  else if Py.startswith symbol "gb" then
    Py.startswith symbol "gb." && negb (Py.contains "gb." (Py.drop_prefix 3 symbol))
  else true.

Section vocabulary.
Context `{!Py.PyStr} {cell : Type} `{!Pandas cell} (w : World cell).

(** Cleaning then extracting, as the plain fetchers chain them. *)
Definition metrics_of (df : DataFrame cell) : result (option Metrics) :=
  S ← DataFetcher._clean_dataframe (now w) df;
  DataFetcher._extract_metrics S.

(** The request that [fetch_zhonggai_tushare] sends, and its answer. *)
Definition tushare_call : call :=
  pro_index_daily "H30533.CSI"
    (strftime_compact (sub_years (now w) Config.LOOKBACK_YEARS))
    (strftime_compact (now w)).

Definition tushare_answer (p : pro_api) : result (DataFrame cell) :=
  index_daily w p "H30533.CSI"
    (strftime_compact (sub_years (now w) Config.LOOKBACK_YEARS))
    (strftime_compact (now w)).

(** The answer to [etf_call]. *)
Definition etf_answer : result (DataFrame cell) :=
  fund_etf_hist_em w "513050" "daily" "20190101" "20261231" "qfq".

(** The series from which [fetch_zhonggai_tushare] extracts the metrics:
    the rows of the provider's table in the order of their trade dates,
    with the date parsed and the three prices made numeric, the rows
    without a close dropped. *)
Definition official_series (df : DataFrame cell) : result (list Row) :=
  i_sort ← Frame.getitem "trade_date" df;
  let df := Frame.sort_values i_sort df in
  let df :=
    Frame.rename [("trade_date", "date"); ("open", "open"); ("high", "high");
                  ("low", "low"); ("close", "close")] df in
  i_date ← Frame.getitem "date" df;
  dates ← to_datetime_format "%Y%m%d" (Frame.column i_date (rows df));
  i_close ← Frame.getitem "close" df;
  let closes := to_numeric (Frame.column i_close (rows df)) in
  i_high ← Frame.getitem "high" df;
  let highs := to_numeric (Frame.column i_high (rows df)) in
  i_low ← Frame.getitem "low" df;
  let lows := to_numeric (Frame.column i_low (rows df)) in
  let typed :=
    imap (fun k r =>
            {| label := r.1;
               date := mjoin (dates !! k);
               close := mjoin (closes !! k);
               high := mjoin (highs !! k);
               low := mjoin (lows !! k) |}) (rows df) in
  Ok (filter (fun r => is_Some (close r)) typed).

(** The provider raised, or returned a table without rows. *)
Definition failed (answer : result (DataFrame cell)) : Prop :=
  match answer with
  | Raise _ => True
  | Ok df => rows df = []
  end.

(** Cleaning [df] raises or leaves no row. *)
Definition cleans_to_nothing (df : DataFrame cell) : Prop :=
  forall S, DataFetcher._clean_dataframe (now w) df = Ok S -> S = [].

(** The provider raised, returned a table without rows, or returned one
    that cleaning, after the fetcher's own preparation of the labels,
    rejects or empties. *)
Definition unusable (prepare : DataFrame cell -> DataFrame cell)
    (answer : result (DataFrame cell)) : Prop :=
  match answer with
  | Raise _ => True
  | Ok df => rows df = [] \/ cleans_to_nothing (prepare df)
  end.

End vocabulary.

(** The entry of [name] in one of the three maps of the file, when the
    file holds a document with that map and that entry. *)
Definition saved_entry {V : Type} (part : Saved -> option (gmap string V))
    (f : file_state) (name : string) : option V :=
  match f with
  | Content saved => m ← part saved; m !! name
  | _ => None
  end.

(** The saved entry when there is one, the default otherwise. *)
Definition over_default {V : Type} (saved dflt : option V) : option V :=
  match saved with
  | Some v => Some v
  | None => dflt
  end.

(** [a] is listed before [b] when [b] is not newer: the date of [b], as a
    string, is at most that of [a]. *)
Definition newest_first (a b : Note.t) : Prop :=
  String.leb (Note.date b) (Note.date a) = true.

(** The entries of a journal dated [d], in the order of the journal. *)
Definition dated (d : string) (l : list Note.t) : list Note.t :=
  filter (fun n => Note.date n = d) l.

(** The dates [datetime.date] can hold. *)
Definition calendar_range (d : UIComponents.pydate) : Prop :=
  1 <= UIComponents.dyear d <= 9999 /\
  1 <= UIComponents.dmonth d <= 12 /\
  1 <= UIComponents.dday d <= 31.

(** [a] is no later than [b] in the calendar. *)
Definition calendar_le (a b : UIComponents.pydate) : Prop :=
  UIComponents.dyear a < UIComponents.dyear b \/
  (UIComponents.dyear a = UIComponents.dyear b /\
   (UIComponents.dmonth a < UIComponents.dmonth b \/
    (UIComponents.dmonth a = UIComponents.dmonth b /\
     UIComponents.dday a <= UIComponents.dday b))).

(** ** Documents and calls *)

(** The document has an entry for every configured index in each of its
    three maps. *)
Definition complete (d : Doc) : Prop :=
  forall name, name ∈ DataManager.get_all_index_names ->
    is_Some (supports d !! name) /\
    is_Some (atmospheres d !! name) /\
    is_Some (notes d !! name).

(** The document with every journal in the order in which it is shown. *)
Definition in_order (d : Doc) : Doc :=
  {| supports := supports d;
     atmospheres := atmospheres d;
     notes := UIComponents.sort_desc <$> notes d |}.

(** The call builds a client. *)
Definition builds_client (c : call) : Prop :=
  match c with
  | ts_pro_api _ => True
  | _ => False
  end.

(** The call asks the official provider for data. *)
Definition asks_official (c : call) : Prop :=
  match c with
  | pro_index_daily _ _ _ => True
  | _ => False
  end.

(** ** Sample data *)

(** Concrete tables and implementations of the two interfaces, for running
    the definitions.  The cells are the values pandas holds in a typed
    column: timestamps in a date column, floats or NaN in a price column.
    On such columns [pd.to_datetime] and [pd.to_numeric] return the values
    unchanged; the samples use them on no other column.  The labels of the
    samples are ASCII or caseless, and the tables handed to [sort_values]
    are already in order. *)
Module Sample.

Inductive cell : Type :=
| NaN
| Num (x : float)
| Time (t : Timestamp).

#[global] Instance pandas : Pandas cell := {|
  nan := NaN;
  to_datetime := fmap (fun c => match c with Time t => Some t | _ => None end);
  to_datetime_format := fun _ col =>
    Ok ((fun c => match c with Time t => Some t | _ => None end) <$> col);
  to_numeric := fmap (fun c => match c with Num x => Some x | _ => None end);
  argsort := fun col => seq 0 (List.length col)
|}.

Definition lower_ascii (c : ascii) : ascii :=
  let n := nat_of_ascii c in
  if (65 <=? n)%nat && (n <=? 90)%nat then ascii_of_nat (n + 32) else c.

Fixpoint lower (s : string) : string :=
  match s with
  | EmptyString => EmptyString
  | String c s' => String (lower_ascii c) (lower s')
  end.

Definition is_space (c : ascii) : bool :=
  let n := nat_of_ascii c in
  ((9 <=? n)%nat && (n <=? 13)%nat) || ((28 <=? n)%nat && (n <=? 32)%nat).

Fixpoint lstrip (s : string) : string :=
  match s with
  | EmptyString => EmptyString
  | String c s' => if is_space c then lstrip s' else s
  end.

Definition strip (s : string) : string :=
  String.rev (lstrip (String.rev (lstrip s))).

#[global] Instance pystr : Py.PyStr := {| Py.lower := lower; Py.strip := strip |}.

Definition midnight (y m d : Z) : Timestamp := mkTimestamp y m d 0.

(** The clock of the samples. *)
Definition today : Timestamp := midnight 2026 11 4.

(** A daily history as a provider returns it: four years in ascending
    order, and one row older than the lookback window. *)
Definition daily : DataFrame cell :=
  mkDataFrame ["Date"; "Close"; "High"; "Low"]
    [ (0, [Time (midnight 2020 6 1); Num 90; Num 95; Num 85]);
      (1, [Time (midnight 2023 3 1); Num 100; Num 120; Num 80]);
      (2, [Time (midnight 2024 3 1); Num 110; Num 120; Num 105]);
      (3, [Time (midnight 2025 3 1); Num 105; Num 108; Num 80]);
      (4, [Time (midnight 2026 3 1); Num 115; Num 117; Num 101]) ].

(** The cleaned series of [daily]. *)
Definition series : list Row :=
  [ mkRow 1 (Some (midnight 2023 3 1)) (Some 100) (Some 120) (Some 80);
    mkRow 2 (Some (midnight 2024 3 1)) (Some 110) (Some 120) (Some 105);
    mkRow 3 (Some (midnight 2025 3 1)) (Some 105) (Some 108) (Some 80);
    mkRow 4 (Some (midnight 2026 3 1)) (Some 115) (Some 117) (Some 101) ].

(** A table in descending date order, with a repeated date and a row
    dated after the clock. *)
Definition unordered : DataFrame cell :=
  mkDataFrame ["date"; "close"]
    [ (0, [Time (midnight 2030 1 1); Num 130]);
      (1, [Time (midnight 2025 3 1); Num 105]);
      (2, [Time (midnight 2024 3 1); Num 110]);
      (3, [Time (midnight 2024 3 1); Num 111]) ].

(** A table with its header and no row. *)
Definition no_rows : DataFrame cell :=
  mkDataFrame ["date"; "close"; "high"; "low"] [].

(** The official provider's table, in ascending order of trade date. *)
Definition official : DataFrame cell :=
  mkDataFrame ["trade_date"; "close"; "open"; "high"; "low"]
    [ (0, [Time (midnight 2024 3 1); Num 110; Num 108; Num 120; Num 105]);
      (1, [Time (midnight 2025 3 1); Num 105; Num 104; Num 108; Num 80]) ].

(** The fund's history, under the provider's localized labels. *)
Definition fund : DataFrame cell :=
  mkDataFrame ["日期"; "开盘"; "收盘"; "最高"; "最低"]
    [ (0, [Time (midnight 2024 3 1); Num 10; Num 11; Num 12; Num 9]);
      (1, [Time (midnight 2025 3 1); Num 11; Num 13; Num 14; Num 10]) ].

(** A world with the given token, in which the official provider and the
    fund provider answer as given and every index provider answers with
    [daily]. *)
Definition world (tok : string) (official_answer fund_answer : result (DataFrame cell))
  : World cell :=
  {| now := today;
     TUSHARE_TOKEN := tok;
     new_pro_api := fun t => Ok (mk_pro_api t);
     index_daily := fun _ _ _ _ => official_answer;
     fund_etf_hist_em := fun _ _ _ _ _ => fund_answer;
     stock_hk_index_daily_em := fun _ => Ok daily;
     index_us_stock_sina := fun _ => Ok daily;
     stock_zh_index_daily_em := fun _ => Ok daily |}.

(** A fresh process: no client yet, no call made. *)
Definition fresh : State := {| _instance := None; calls := [] |}.

(** A session with two notes on one index. *)
Definition session : UIComponents.Session :=
  {| UIComponents.db :=
       {| supports := supports DataManager.default_data;
          atmospheres := atmospheres DataManager.default_data;
          notes := {[ "上证指数" := [ Note.mk "2024-05-10" "trim";
                                      Note.mk "2024-01-02" "first" ] ]} |};
     UIComponents.disk := Absent |}.

End Sample.

(** A table with a date and a close column only, in ascending order. *)
Definition closes_only : DataFrame Sample.cell :=
  mkDataFrame ["日期"; "Close"]
    [ (0, [Sample.Time (Sample.midnight 2020 6 1); Sample.Num 90]);
      (1, [Sample.Time (Sample.midnight 2023 3 1); Sample.Num 100]);
      (2, [Sample.Time (Sample.midnight 2024 3 1); Sample.NaN]);
      (3, [Sample.Time (Sample.midnight 2025 3 1); Sample.Num 80]);
      (4, [Sample.Time (Sample.midnight 2026 3 1); Sample.Num 95]) ].

Definition closes_only_series : list Row :=
  [ mkRow 1 (Some (Sample.midnight 2023 3 1)) (Some 100) (Some 100) (Some 100);
    mkRow 3 (Some (Sample.midnight 2025 3 1)) (Some 80) (Some 80) (Some 80);
    mkRow 4 (Some (Sample.midnight 2026 3 1)) (Some 95) (Some 95) (Some 95) ].

(** A table whose high column holds no number, and what cleaning makes
    of it. *)
Definition no_highs : DataFrame Sample.cell :=
  mkDataFrame ["date"; "close"; "high"; "low"]
    [ (0, [Sample.Time (Sample.midnight 2024 3 1); Sample.Num 10; Sample.NaN; Sample.Num 9]);
      (1, [Sample.Time (Sample.midnight 2025 3 1); Sample.Num 11; Sample.NaN; Sample.Num 10]) ].

Definition no_highs_series : list Row :=
  [ mkRow 0 (Some (Sample.midnight 2024 3 1)) (Some 10) None (Some 9);
    mkRow 1 (Some (Sample.midnight 2025 3 1)) (Some 11) None (Some 10) ].

(** A table of the official provider that lacks the high column. *)
Definition official_without_high : DataFrame Sample.cell :=
  mkDataFrame ["trade_date"; "close"; "low"]
    [ (0, [Sample.Time (Sample.midnight 2024 3 1); Sample.Num 110; Sample.Num 105]);
      (1, [Sample.Time (Sample.midnight 2025 3 1); Sample.Num 105; Sample.Num 80]) ].

(** * Properties *)

(** ** Timestamps *)

Lemma ts_le_refl (a : Timestamp) : ts_le a a.
Proof.
  unfold ts_le, ts_leb, ts_compare. by rewrite !Z.compare_refl.
Qed.

Lemma ts_le_lex (a b : Timestamp) :
  ts_le a b <->
  year a < year b \/
  (year a = year b /\
   (month a < month b \/
    (month a = month b /\
     (day a < day b \/ (day a = day b /\ nanos a <= nanos b))))).
Proof.
  unfold ts_le, ts_leb, ts_compare.
  destruct (Z.compare_spec (year a) (year b));
    destruct (Z.compare_spec (month a) (month b));
    destruct (Z.compare_spec (day a) (day b));
    destruct (Z.compare_spec (nanos a) (nanos b));
    split; intros; try done; lia.
Qed.

Lemma ts_le_trans (a b c : Timestamp) : ts_le a b -> ts_le b c -> ts_le a c.
Proof. rewrite !ts_le_lex. lia. Qed.

Lemma ts_le_total (a b : Timestamp) : ts_le a b \/ ts_le b a.
Proof. rewrite !ts_le_lex. lia. Qed.

(** ** [idxmax] and [idxmin] *)

Section arg_first.
Context (better : float -> float -> bool) (f : Row -> option float).
Hypothesis better_trans :
  forall a b c, better a b = true -> better b c = true -> better a c = true.
Hypothesis better_mixed :
  forall a b c, better a b = true -> better c b = false -> better a c = true.

Lemma arg_first_Some (S : list Row) (lb : Z) (vb : float) :
  exists l v, DataFetcher.arg_first better f (Some (lb, vb)) S = Some (l, v).
Proof.
  revert lb vb. induction S as [|r S IH]; intros lb vb; simpl; [by eauto|].
  destruct (f r) as [x|]; [|apply IH].
  destruct (better x vb); apply IH.
Qed.

Lemma arg_first_from (S : list Row) (lb : Z) (vb : float) (l : Z) (v : float) :
  DataFetcher.arg_first better f (Some (lb, vb)) S = Some (l, v) ->
  (l = lb /\ v = vb /\
   forall r x, r ∈ S -> f r = Some x -> better x vb = false) \/
  (better v vb = true /\ first_best better f S l v).
Proof.
  revert lb vb. induction S as [|r S IH]; intros lb vb; simpl.
  - intros [= -> ->]. left. repeat split. intros r x Hr. by apply elem_of_nil in Hr.
  - destruct (f r) as [x|] eqn:Hfr.
    + destruct (better x vb) eqn:Hb; intros Hres; apply IH in Hres.
      * right. destruct Hres as [(-> & -> & Hall) | (Hv & S1 & r' & S2 & -> & Hl & Hf & H1 & H2)].
        -- split; [done|]. exists [], r, S. repeat split; try done.
           intros r' x' Hr'. by apply elem_of_nil in Hr'.
        -- split; [by eapply better_trans|].
           exists (r :: S1), r', S2. repeat split; try done.
           intros r'' x' [->|Hin]%elem_of_cons Hx'; [|by eapply H1].
           rewrite Hfr in Hx'. by injection Hx' as <-.
      * destruct Hres as [(-> & -> & Hall) | (Hv & S1 & r' & S2 & -> & Hl & Hf & H1 & H2)].
        -- left. repeat split. intros r' x' [->|Hin]%elem_of_cons Hx'; [|by eapply Hall].
           rewrite Hfr in Hx'. by injection Hx' as <-.
        -- right. split; [done|].
           exists (r :: S1), r', S2. repeat split; try done.
           intros r'' x' [->|Hin]%elem_of_cons Hx'; [|by eapply H1].
           rewrite Hfr in Hx'. injection Hx' as <-. by eapply better_mixed.
    + intros Hres; apply IH in Hres.
      destruct Hres as [(-> & -> & Hall) | (Hv & S1 & r' & S2 & -> & Hl & Hf & H1 & H2)].
      * left. repeat split. intros r' x' [->|Hin]%elem_of_cons Hx'; [congruence|by eapply Hall].
      * right. split; [done|].
        exists (r :: S1), r', S2. repeat split; try done.
        intros r'' x' [->|Hin]%elem_of_cons Hx'; [congruence|by eapply H1].
Qed.

Lemma arg_first_None (S : list Row) (l : Z) (v : float) :
  DataFetcher.arg_first better f None S = Some (l, v) -> first_best better f S l v.
Proof.
  induction S as [|r S IH]; simpl; [done|].
  destruct (f r) as [x|] eqn:Hfr.
  - intros Hres. apply arg_first_from in Hres.
    destruct Hres as [(-> & -> & Hall) | (Hv & S1 & r' & S2 & -> & Hl & Hf & H1 & H2)].
    + exists [], r, S. repeat split; try done.
      intros r' x' Hr'. by apply elem_of_nil in Hr'.
    + exists (r :: S1), r', S2. repeat split; try done.
      intros r'' x' [->|Hin]%elem_of_cons Hx'; [|by eapply H1].
      rewrite Hfr in Hx'. by injection Hx' as <-.
  - intros Hres. destruct (IH Hres) as (S1 & r' & S2 & -> & Hl & Hf & H1 & H2).
    exists (r :: S1), r', S2. repeat split; try done.
    intros r'' x' [->|Hin]%elem_of_cons Hx'; [congruence|by eapply H1].
Qed.

Lemma arg_first_found (S : list Row) :
  (exists r, r ∈ S /\ is_Some (f r)) ->
  exists l v, DataFetcher.arg_first better f None S = Some (l, v).
Proof.
  induction S as [|r S IH]; intros (r0 & Hin & Hsome).
  - by apply elem_of_nil in Hin.
  - simpl. destruct (f r) as [x|] eqn:Hfr; [apply arg_first_Some|].
    apply IH. apply elem_of_cons in Hin as [->|Hin]; [|by eauto].
    rewrite Hfr in Hsome. by destruct Hsome.
Qed.

End arg_first.

Lemma gtb_trans (a b c : Z) : (a >? b) = true -> (b >? c) = true -> (a >? c) = true.
Proof. lia. Qed.

Lemma gtb_mixed (a b c : Z) : (a >? b) = true -> (c >? b) = false -> (a >? c) = true.
Proof. lia. Qed.

Lemma ltb_trans (a b c : Z) : (a <? b) = true -> (b <? c) = true -> (a <? c) = true.
Proof. lia. Qed.

Lemma ltb_mixed (a b c : Z) : (a <? b) = true -> (c <? b) = false -> (a <? c) = true.
Proof. lia. Qed.

(** ** [loc] under distinct labels *)

Lemma filter_label_absent (l : Z) (S : list Row) :
  l ∉ label <$> S -> filter (fun r => label r = l) S = [].
Proof.
  induction S as [|r S IH]; [done|].
  rewrite fmap_cons, not_elem_of_cons. intros [Hne Hnin].
  rewrite filter_cons_False by congruence. by apply IH.
Qed.

Lemma loc_unique (S1 S2 : list Row) (r : Row) :
  NoDup (label <$> (S1 ++ r :: S2)) ->
  DataFetcher.loc (label r) (S1 ++ r :: S2) = Ok r.
Proof.
  rewrite fmap_app, fmap_cons. intros Hnd.
  apply NoDup_app in Hnd as (_ & Hdisj & Hnd2).
  apply NoDup_cons in Hnd2 as [Hr2 _].
  unfold DataFetcher.loc.
  rewrite filter_app, filter_cons_True by done.
  rewrite (filter_label_absent _ S2) by done.
  rewrite filter_label_absent; [done|].
  intros Hin. apply (Hdisj _ Hin). by left.
Qed.

(** ** Ascending series *)

#[local] Instance row_le_trans : Transitive row_le.
Proof.
  intros r1 r2 r3. unfold row_le.
  destruct (date r1), (date r2), (date r3); try done. apply ts_le_trans.
Qed.

Lemma sorted_after (S1 S2 : list Row) (r r' : Row) :
  Sorted row_le (S1 ++ r :: S2) -> r' ∈ r :: S2 ->
  is_Some (date r) -> row_le r r'.
Proof.
  intros Hs Hin [t Ht].
  apply Sorted_StronglySorted in Hs; [|apply _].
  apply StronglySorted_app_1_r in Hs.
  apply StronglySorted_inv in Hs as [_ Hall].
  apply elem_of_cons in Hin as [->|Hin].
  - unfold row_le. rewrite Ht. apply ts_le_refl.
  - rewrite Forall_forall in Hall. by apply Hall.
Qed.

Lemma sorted_before (S1 S2 : list Row) (r r' : Row) :
  Sorted row_le (S1 ++ r :: S2) -> r' ∈ S1 -> row_le r' r.
Proof.
  intros Hs Hin. apply Sorted_StronglySorted in Hs; [|apply _].
  eapply StronglySorted_app_1_elem_of; [done..|]. by left.
Qed.

(** ** [_extract_metrics] *)

(** What [_extract_metrics] returns on a frame with distinct labels, dated
    rows and a number in each of the high and low columns, in terms of the
    rows it selects. *)
Lemma extract_metrics_rows (S : list Row) :
  NoDup (label <$> S) ->
  Forall (fun r => is_Some (date r)) S ->
  (exists r, r ∈ S /\ is_Some (high r)) ->
  (exists r, r ∈ S /\ is_Some (low r)) ->
  exists r_last rh vh th rl vl tl,
    last S = Some r_last /\
    first_best Z.gtb high S (label rh) vh /\ rh ∈ S /\
    high rh = Some vh /\ date rh = Some th /\
    first_best Z.ltb low S (label rl) vl /\ rl ∈ S /\
    low rl = Some vl /\ date rl = Some tl /\
    DataFetcher._extract_metrics S =
      Ok (Some {| cur := close r_last;
                  hv := Some vh; hd := strftime_iso th;
                  lv := Some vl; ld := strftime_iso tl;
                  source := None |}).
Proof.
  intros Hnd Hdated Hhigh Hlow.
  assert (is_Some (last S)) as [r_last Hlast].
  { apply last_is_Some. destruct Hhigh as (r & Hin & _). intros ->. by apply elem_of_nil in Hin. }
  destruct (arg_first_found Z.gtb high S Hhigh) as (lh & vh & Hargh).
  destruct (arg_first_found Z.ltb low S Hlow) as (ll & vl & Hargl).
  pose proof (arg_first_None Z.gtb high gtb_trans gtb_mixed S lh vh Hargh) as Hfh.
  pose proof (arg_first_None Z.ltb low ltb_trans ltb_mixed S ll vl Hargl) as Hfl.
  destruct Hfh as (H1 & rh & H2 & HS & Hlh & Hvh & Hh1 & Hh2).
  destruct Hfl as (L1 & rl & L2 & HS' & Hll & Hvl & Hl1 & Hl2).
  assert (rh ∈ S) as Hrh by (rewrite HS; apply elem_of_app; right; by left).
  assert (rl ∈ S) as Hrl by (rewrite HS'; apply elem_of_app; right; by left).
  rewrite Forall_forall in Hdated.
  destruct (Hdated rh Hrh) as [th Hth]. destruct (Hdated rl Hrl) as [tl Htl].
  exists r_last, rh, vh, th, rl, vl, tl.
  split; [done|].
  split; [subst lh; by exists H1, rh, H2|]. split; [done|]. split; [done|]. split; [done|].
  split; [subst ll; by exists L1, rl, L2|]. split; [done|]. split; [done|]. split; [done|].
  unfold DataFetcher._extract_metrics, DataFetcher.idxmax, DataFetcher.idxmin.
  rewrite Hlast, Hargh, Hargl. simpl.
  assert (DataFetcher.loc lh S = Ok rh) as ->.
  { subst lh. rewrite HS. apply loc_unique. by rewrite <- HS. }
  simpl. rewrite Hth. simpl.
  assert (DataFetcher.loc ll S = Ok rl) as ->.
  { subst ll. rewrite HS'. apply loc_unique. by rewrite <- HS'. }
  simpl. rewrite Htl. simpl. by rewrite Hvh, Hvl.
Qed.

(** In an ascending series the row that [arg_first] selects carries the
    earliest date among the rows holding its value. *)
Lemma first_best_earliest (better : float -> float -> bool)
    (f : Row -> option float) (S : list Row) (r : Row) (v : float) (t : Timestamp) :
  (forall x, better x x = false) ->
  Sorted row_le S -> r ∈ S -> f r = Some v -> date r = Some t ->
  NoDup (label <$> S) ->
  first_best better f S (label r) v ->
  earliest_date f S v t.
Proof.
  intros Hirr Hsorted Hr Hfr Hdate Hnd (S1 & r0 & S2 & HS & Hl & Hf0 & H1 & H2).
  assert (r0 = r) as ->.
  { rewrite HS in Hnd, Hr.
    assert (r0 ∈ S1 ++ r0 :: S2) as Hr0 by (apply elem_of_app; right; by left).
    apply list_elem_of_lookup in Hr as [i Hi]. apply list_elem_of_lookup in Hr0 as [j Hj].
    assert (i = j).
    { eapply NoDup_lookup; [exact Hnd| |].
      - rewrite list_lookup_fmap, Hi. done.
      - rewrite list_lookup_fmap, Hj. simpl. by rewrite Hl. }
    subst j. congruence. }
  split; [by exists r|].
  intros r' t' Hr' Hfr' Hdate'.
  rewrite HS in Hr', Hsorted.
  apply elem_of_app in Hr' as [Hin1|Hin2].
  - specialize (H1 r' v Hin1 Hfr'). by rewrite Hirr in H1.
  - pose proof (sorted_after S1 S2 r r' Hsorted Hin2 (mk_is_Some _ _ Hdate)) as Hle.
    unfold row_le in Hle. by rewrite Hdate, Hdate' in Hle.
Qed.

Lemma first_best_max (f : Row -> option float) (S : list Row) (l : Z) (v : float) :
  first_best Z.gtb f S l v -> is_max f S v.
Proof.
  intros (S1 & r0 & S2 & -> & _ & Hf0 & H1 & H2). split.
  - exists r0. split; [|done]. apply elem_of_app. right. by left.
  - intros r x [Hr|[->|Hr]%elem_of_cons]%elem_of_app Hx.
    + specialize (H1 r x Hr Hx). lia.
    + rewrite Hf0 in Hx. injection Hx as <-. lia.
    + specialize (H2 r x Hr Hx). lia.
Qed.

Lemma first_best_min (f : Row -> option float) (S : list Row) (l : Z) (v : float) :
  first_best Z.ltb f S l v -> is_min f S v.
Proof.
  intros (S1 & r0 & S2 & -> & _ & Hf0 & H1 & H2). split.
  - exists r0. split; [|done]. apply elem_of_app. right. by left.
  - intros r x [Hr|[->|Hr]%elem_of_cons]%elem_of_app Hx.
    + specialize (H1 r x Hr Hx). lia.
    + rewrite Hf0 in Hx. injection Hx as <-. lia.
    + specialize (H2 r x Hr Hx). lia.
Qed.

(** C1. For a series in ascending date order that holds a number in its
    high and in its low column, [_extract_metrics] returns metrics whose
    [hv] is the maximum of the high column, with [hd] the earliest date of
    a row reaching it, and whose [lv] is the minimum of the low column,
    with [ld] the earliest date of a row reaching it. *)
Theorem extract_metrics_high_low (S : list Row) :
  NormalizedSeries S ->
  (exists r, r ∈ S /\ is_Some (high r)) ->
  (exists r, r ∈ S /\ is_Some (low r)) ->
  exists m vh th vl tl,
    DataFetcher._extract_metrics S = Ok (Some m) /\
    hv m = Some vh /\ is_max high S vh /\
    earliest_date high S vh th /\ hd m = strftime_iso th /\
    lv m = Some vl /\ is_min low S vl /\
    earliest_date low S vl tl /\ ld m = strftime_iso tl.
Proof.
  intros [Hnd Hdated _ Hsorted] Hhigh Hlow.
  destruct (extract_metrics_rows S Hnd Hdated Hhigh Hlow)
    as (r_last & rh & vh & th & rl & vl & tl & _ & Hfh & Hrh & Hvh & Hth
        & Hfl & Hrl & Hvl & Htl & Hrun).
  eexists _, vh, th, vl, tl. split; [exact Hrun|]. simpl.
  split; [done|]. split; [by eapply first_best_max|].
  split; [apply (first_best_earliest Z.gtb high S rh vh th); [intros; lia|done..]|].
  split; [done|]. split; [done|]. split; [by eapply first_best_min|].
  split; [apply (first_best_earliest Z.ltb low S rl vl tl); [intros; lia|done..]|].
  done.
Qed.

(** C4. For a series in ascending date order, [cur] is the close of the
    last row, and no row of the series has a later date than that row. *)
Theorem extract_metrics_current (S : list Row) :
  NormalizedSeries S ->
  (exists r, r ∈ S /\ is_Some (high r)) ->
  (exists r, r ∈ S /\ is_Some (low r)) ->
  exists m r_last t c,
    DataFetcher._extract_metrics S = Ok (Some m) /\
    last S = Some r_last /\
    date r_last = Some t /\ latest_date S t /\
    close r_last = Some c /\ cur m = Some c.
Proof.
  intros [Hnd Hdated Hclosed Hsorted] Hhigh Hlow.
  destruct (extract_metrics_rows S Hnd Hdated Hhigh Hlow)
    as (r_last & rh & vh & th & rl & vl & tl & Hlast & _ & _ & _ & _
        & _ & _ & _ & _ & Hrun).
  pose proof (last_Some_elem_of _ _ Hlast) as Hin.
  rewrite Forall_forall in Hdated, Hclosed.
  destruct (Hdated _ Hin) as [t Ht]. destruct (Hclosed _ Hin) as [c Hc].
  eexists _, r_last, t, c. split; [exact Hrun|]. simpl.
  split; [done|]. split; [done|]. split; [|done].
  intros r t' Hr Ht'.
  apply last_Some in Hlast as [S' ->].
  apply elem_of_app in Hr as [Hr|Hr%list_elem_of_singleton].
  - pose proof (sorted_before S' [] r_last r Hsorted Hr) as Hle.
    unfold row_le in Hle. by rewrite Ht, Ht' in Hle.
  - subst r. rewrite Ht in Ht'. injection Ht' as <-. apply ts_le_refl.
Qed.

Lemma extract_metrics_high_low_sample :
  exists m vh th vl tl,
    DataFetcher._extract_metrics Sample.series = Ok (Some m) /\
    hv m = Some vh /\ is_max high Sample.series vh /\
    earliest_date high Sample.series vh th /\ hd m = strftime_iso th /\
    lv m = Some vl /\ is_min low Sample.series vl /\
    earliest_date low Sample.series vl tl /\ ld m = strftime_iso tl.
Proof.
  apply (extract_metrics_high_low Sample.series).
  - split.
    + apply (bool_decide_unpack _). vm_compute. reflexivity.
    + repeat constructor; eexists; reflexivity.
    + repeat constructor; eexists; reflexivity.
    + repeat constructor; vm_compute; reflexivity.
  - eexists. split; [left|]. eexists; reflexivity.
  - eexists. split; [left|]. eexists; reflexivity.
Defined.

Lemma extract_metrics_current_sample :
  exists m r_last t c,
    DataFetcher._extract_metrics Sample.series = Ok (Some m) /\
    last Sample.series = Some r_last /\
    date r_last = Some t /\ latest_date Sample.series t /\
    close r_last = Some c /\ cur m = Some c.
Proof.
  apply (extract_metrics_current Sample.series).
  - split.
    + apply (bool_decide_unpack _). vm_compute. reflexivity.
    + repeat constructor; eexists; reflexivity.
    + repeat constructor; eexists; reflexivity.
    + repeat constructor; vm_compute; reflexivity.
  - eexists. split; [left|]. eexists; reflexivity.
  - eexists. split; [left|]. eexists; reflexivity.
Defined.

Example extract_metrics_sample :
  DataFetcher._extract_metrics Sample.series =
    Ok (Some {| cur := Some 115; hv := Some 120; hd := "2023-03-01";
                lv := Some 80; ld := "2023-03-01"; source := None |}).
Proof. reflexivity. Qed.

Example clean_dataframe_sample :
  DataFetcher._clean_dataframe Sample.today Sample.daily = Ok Sample.series.
Proof. reflexivity. Qed.

(** ** [_clean_dataframe] *)

Lemma StronglySorted_sublist {A : Type} (R : relation A) (l1 l2 : list A) :
  l1 `sublist_of` l2 -> StronglySorted R l2 -> StronglySorted R l1.
Proof.
  induction 1 as [|x l1 l2 Hsub IH|x l1 l2 Hsub IH]; intros Hs.
  - constructor.
  - apply StronglySorted_inv in Hs as [Hs Hall]. constructor; [by apply IH|].
    rewrite Forall_forall in Hall |- *. intros y Hy. apply Hall.
    by eapply elem_of_sublist.
  - apply StronglySorted_inv in Hs as [Hs _]. by apply IH.
Qed.

Lemma dropna_sublist {A : Type} (l : list (A * option Timestamp)) :
  (fun rt : A * Timestamp => (rt.1, Some rt.2))
    <$> omap (fun rd : A * option Timestamp => t ← rd.2; Some (rd.1, t)) l
  `sublist_of` l.
Proof.
  induction l as [|[a [t|]] l IH]; csimpl.
  - constructor.
  - by constructor.
  - by constructor.
Qed.

Lemma omap_sublist {A B : Type} (f : A -> option B) (l1 l2 : list A) :
  l1 `sublist_of` l2 -> omap f l1 `sublist_of` omap f l2.
Proof.
  induction 1 as [|x l1 l2 Hsub IH|x l1 l2 Hsub IH]; csimpl.
  - constructor.
  - destruct (f x); [by constructor|done].
  - destruct (f x); [by constructor|done].
Qed.

Lemma dated_fmap (S : list Row) :
  Forall (fun r => is_Some (date r)) S -> date <$> S = Some <$> omap date S.
Proof.
  induction 1 as [|r S [t Ht] _ IH]; [done|].
  csimpl. rewrite Ht. csimpl. by rewrite IH.
Qed.

Lemma sorted_rows_of_dates (S : list Row) :
  Forall (fun r => is_Some (date r)) S ->
  StronglySorted ts_le (omap date S) -> Sorted row_le S.
Proof.
  intros Hdated Hs. apply StronglySorted_Sorted.
  induction Hdated as [|r S [t Ht] Hdated IH]; [constructor|].
  csimpl in Hs. rewrite Ht in Hs. csimpl in Hs.
  apply StronglySorted_inv in Hs as [Hs Hall].
  constructor; [by apply IH|].
  rewrite Forall_forall in Hall. rewrite Forall_forall in Hdated.
  apply Forall_forall. intros r' Hr'.
  destruct (Hdated r' Hr') as [t' Ht']. unfold row_le. rewrite Ht, Ht'.
  apply Hall. apply list_elem_of_omap. by exists r'.
Qed.

Section clean_dataframe.
Context `{!Py.PyStr} {cell : Type} `{!Pandas cell}.

(** The steps of [_clean_dataframe] on a frame that it accepts. *)
Lemma clean_dataframe_steps (now : Timestamp) (df : DataFrame cell) (S : list Row) :
  DataFetcher._clean_dataframe now df = Ok S ->
  exists dates (recent : list ((Z * list cell) * Timestamp)),
    DataFetcher.date_column (DataFetcher.standardize df) = Ok dates /\
    recent `sublist_of`
      omap (fun rd => t ← rd.2; Some (rd.1, t))
           (zip (rows (DataFetcher.standardize df)) dates) /\
    Forall (fun rt => ts_le (sub_years now Config.LOOKBACK_YEARS) rt.2) recent /\
    stamp <$> S `sublist_of` (fun rt => (rt.1.1, Some rt.2)) <$> recent.
Proof.
  unfold DataFetcher._clean_dataframe.
  destruct (DataFetcher.date_column (DataFetcher.standardize df)) as [dates|e] eqn:Hd;
    simpl; [|done].
  match goal with |- context [filter ?P (omap ?h ?l)] => set (recent := filter P (omap h l)) end.
  destruct (Frame.getitem "close" _) as [i_close|e]; simpl; [|done].
  destruct (DataFetcher.numeric_column "high" _ _) as [highs|e]; simpl; [|done].
  destruct (DataFetcher.numeric_column "low" _ _) as [lows|e]; simpl; [|done].
  intros [= <-]. exists dates, recent. split; [done|]. split; [apply sublist_filter|].
  split.
  { apply Forall_forall. intros rt Hrt. by apply list_elem_of_filter in Hrt as [? _]. }
  etrans; [apply fmap_sublist, sublist_filter|].
  rewrite fmap_imap. unfold stamp, compose. simpl.
  by rewrite (imap_const (fun rt : Z * list cell * Timestamp => (rt.1.1, Some rt.2))).
Qed.

(** [_clean_dataframe] returns a series exactly when, once the labels are
    standardized, the frame has one date column, one close column and at
    most one high and one low column; otherwise it raises. *)
Lemma clean_dataframe_accepts (now : Timestamp) (df : DataFrame cell) :
  let header := columns (DataFetcher.standardize df) in
  (exists S, DataFetcher._clean_dataframe now df = Ok S) <->
  List.length (Frame.positions "date" header) = 1%nat /\
  List.length (Frame.positions "close" header) = 1%nat /\
  (List.length (Frame.positions "high" header) <= 1)%nat /\
  (List.length (Frame.positions "low" header) <= 1)%nat.
Proof.
  cbv zeta.
  unfold DataFetcher._clean_dataframe, DataFetcher.date_column,
    DataFetcher.numeric_column, Frame.getitem.
  cbn [columns rows].
  destruct (Frame.positions "date" _) as [|i_date [|? ?]];
    destruct (Frame.positions "close" _) as [|i_close [|? ?]];
    destruct (Frame.positions "high" _) as [|i_high [|? ?]];
    destruct (Frame.positions "low" _) as [|i_low [|? ?]];
    cbn [mbind result_bind List.length];
    (split; [intros [S HS]; try discriminate; lia | intros; try lia; by eauto]).
Qed.

Lemma standardize_rows (df : DataFrame cell) :
  rows (DataFetcher.standardize df) = rows df.
Proof. unfold DataFetcher.standardize. by destruct (head _). Qed.

Lemma clean_dataframe_stamps (now : Timestamp) (df : DataFrame cell) (S : list Row) :
  DataFetcher._clean_dataframe now df = Ok S ->
  exists dates,
    DataFetcher.date_column (DataFetcher.standardize df) = Ok dates /\
    stamp <$> S `sublist_of` dated_rows df dates /\
    Forall (fun r => exists t, date r = Some t /\
                     ts_le (sub_years now Config.LOOKBACK_YEARS) t) S.
Proof.
  intros Hrun. apply clean_dataframe_steps in Hrun
    as (dates & recent & Hdates & Hrecent & Hwindow & Hsub).
  exists dates. split; [done|]. split.
  - etrans; [exact Hsub|]. unfold dated_rows. rewrite <- standardize_rows.
    set (l := zip (rows (DataFetcher.standardize df)) dates) in *.
    trans ((fun rt : (Z * list cell) * Timestamp => (rt.1.1, Some rt.2))
             <$> omap (fun rd : (Z * list cell) * option Timestamp =>
                         t ← rd.2; Some (rd.1, t)) l).
    { by apply fmap_sublist. }
    replace (zip (rows (DataFetcher.standardize df)).*1 dates)
      with (prod_map fst id <$> l)
      by (unfold l; by rewrite prod_map_zip, list_fmap_id).
    pose proof (dropna_sublist l) as Hdrop.
    apply (fmap_sublist (prod_map fst id)) in Hdrop.
    by rewrite <- list_fmap_compose in Hdrop.
  - apply Forall_forall. intros r Hr.
    assert (stamp r ∈ stamp <$> S) as Hst by (by apply list_elem_of_fmap_2).
    eapply elem_of_sublist in Hst; [|exact Hsub].
    apply list_elem_of_fmap in Hst as (rt & Heq & Hrt).
    rewrite Forall_forall in Hwindow. injection Heq as _ Hdate.
    exists rt.2. split; [done|]. by apply Hwindow.
Qed.

End clean_dataframe.

Section clean_dataframe_claims.
Context `{!Py.PyStr} {cell : Type} `{!Pandas cell}.

(** C2, as amended.  Every row that [_clean_dataframe] retains has a date
    on or after [now - LOOKBACK_YEARS]; no upper bound is enforced. *)
Theorem clean_dataframe_lookback (now : Timestamp) (df : DataFrame cell) (S : list Row) :
  DataFetcher._clean_dataframe now df = Ok S ->
  Forall (fun r => exists t, date r = Some t /\
                   ts_le (sub_years now Config.LOOKBACK_YEARS) t) S.
Proof.
  intros Hrun. by apply clean_dataframe_stamps in Hrun as (dates & _ & _ & Hwindow).
Qed.

(** C3, as amended.  [_clean_dataframe] neither sorts nor reorders: the
    rows of its output, with their dates, are a subsequence of the rows of
    the input with their parsed dates.  Hence the output is in ascending
    date order whenever the input is, and no two of its rows share a date
    whenever no two rows of the input do. *)
Theorem clean_dataframe_keeps_order (now : Timestamp) (df : DataFrame cell) (S : list Row) :
  DataFetcher._clean_dataframe now df = Ok S ->
  exists dates,
    DataFetcher.date_column (DataFetcher.standardize df) = Ok dates /\
    stamp <$> S `sublist_of` dated_rows df dates /\
    (Sorted ts_le (omap snd (dated_rows df dates)) -> Sorted row_le S) /\
    (NoDup (omap snd (dated_rows df dates)) -> NoDup (date <$> S)).
Proof.
  intros Hrun. apply clean_dataframe_stamps in Hrun as (dates & Hdates & Hsub & Hwindow).
  exists dates. split; [done|]. split; [done|].
  assert (Forall (fun r => is_Some (date r)) S) as Hdated.
  { eapply Forall_impl; [exact Hwindow|]. intros r (t & Ht & _). by exists t. }
  assert (omap date S `sublist_of` omap snd (dated_rows df dates)) as Hsub'.
  { apply (omap_sublist snd) in Hsub.
    replace (omap snd (stamp <$> S)) with (omap date S) in Hsub; [done|].
    clear. induction S as [|r S IH]; [done|]. csimpl. by rewrite IH. }
  split.
  - intros Hin. apply sorted_rows_of_dates; [done|].
    eapply StronglySorted_sublist; [exact Hsub'|].
    apply Sorted_StronglySorted; [|done].
    intros a b c. apply ts_le_trans.
  - intros Hin. rewrite dated_fmap by done.
    apply NoDup_fmap; [apply _|]. by eapply sublist_NoDup.
Qed.

End clean_dataframe_claims.

Lemma clean_dataframe_lookback_sample :
  Forall (fun r => exists t, date r = Some t /\
                   ts_le (sub_years Sample.today Config.LOOKBACK_YEARS) t)
         Sample.series.
Proof.
  apply (clean_dataframe_lookback Sample.today Sample.daily Sample.series).
  reflexivity.
Defined.

(** C2 as stated fails: a row dated after the clock is retained. *)
Lemma clean_dataframe_keeps_future_row :
  exists S r t,
    DataFetcher._clean_dataframe Sample.today Sample.unordered = Ok S /\
    r ∈ S /\ date r = Some t /\ ts_leb t Sample.today = false.
Proof.
  eexists _, (mkRow 0 (Some (Sample.midnight 2030 1 1)) (Some 130) (Some 130) (Some 130)), _.
  split; [reflexivity|]. split; [by left|]. split; reflexivity.
Qed.

Lemma clean_dataframe_keeps_order_sample :
  exists dates,
    DataFetcher.date_column (DataFetcher.standardize Sample.daily) = Ok dates /\
    stamp <$> Sample.series `sublist_of` dated_rows Sample.daily dates /\
    (Sorted ts_le (omap snd (dated_rows Sample.daily dates)) ->
     Sorted row_le Sample.series) /\
    (NoDup (omap snd (dated_rows Sample.daily dates)) ->
     NoDup (date <$> Sample.series)).
Proof.
  apply (clean_dataframe_keeps_order Sample.today Sample.daily Sample.series).
  reflexivity.
Defined.

(** C3 as stated fails: a table in descending date order with a repeated
    date comes out in the same order, with both rows of that date. *)
Lemma clean_dataframe_unsorted_duplicates :
  DataFetcher._clean_dataframe Sample.today Sample.unordered =
    Ok [ mkRow 0 (Some (Sample.midnight 2030 1 1)) (Some 130) (Some 130) (Some 130);
         mkRow 1 (Some (Sample.midnight 2025 3 1)) (Some 105) (Some 105) (Some 105);
         mkRow 2 (Some (Sample.midnight 2024 3 1)) (Some 110) (Some 110) (Some 110);
         mkRow 3 (Some (Sample.midnight 2024 3 1)) (Some 111) (Some 111) (Some 111) ] /\
  (exists S, DataFetcher._clean_dataframe Sample.today Sample.unordered = Ok S /\
             ~ Sorted row_le S /\ ~ NoDup (date <$> S)).
Proof.
  split; [reflexivity|]. eexists. split; [reflexivity|]. split.
  - intros Hs. apply Sorted_inv in Hs as [_ Hhd]. by apply HdRel_inv in Hhd.
  - intros Hnd. apply NoDup_cons in Hnd as [_ Hnd]. apply NoDup_cons in Hnd as [_ Hnd].
    apply NoDup_cons in Hnd as [Hnin _]. apply Hnin. by left.
Qed.

(** ** The fetchers *)

Ltac run_monad :=
  unfold try_except, lift, request; unfold mbind, M_bind, mret, M_ret; simpl.

Section fetchers.
Context `{!Py.PyStr} {cell : Type} `{!Pandas cell} (w : World cell).

Lemma fetch_a_share_index_run (code : string) (st : State) :
  DataFetcher.fetch_a_share_index w code st =
    (Ok (settle (df ← stock_zh_index_daily_em w code; metrics_of w df)),
     record_call (ak_stock_zh_index_daily_em code) st).
Proof.
  unfold DataFetcher.fetch_a_share_index, metrics_of. run_monad.
  destruct (stock_zh_index_daily_em w code) as [df|e]; simpl; [|done].
  destruct (DataFetcher._clean_dataframe (now w) df) as [S|e]; simpl; [|done].
  by destruct (DataFetcher._extract_metrics S).
Qed.

Lemma fetch_us_index_run (code : string) (st : State) :
  DataFetcher.fetch_us_index w code st =
    (Ok (settle (df ← index_us_stock_sina w (DataFetcher.us_symbol code); metrics_of w df)),
     record_call (ak_index_us_stock_sina (DataFetcher.us_symbol code)) st).
Proof.
  unfold DataFetcher.fetch_us_index, metrics_of. run_monad.
  destruct (index_us_stock_sina w _) as [df|e]; simpl; [|done].
  destruct (DataFetcher._clean_dataframe (now w) df) as [S|e]; simpl; [|done].
  by destruct (DataFetcher._extract_metrics S).
Qed.

Lemma fetch_hongkong_index_run (code : string) (st : State) :
  DataFetcher.fetch_hongkong_index w code st =
    (Ok (settle (df ← stock_hk_index_daily_em w (Py.replace code "hk" "");
                 if Frame.empty df then Ok None
                 else metrics_of w (DataFetcher.hk_columns df))),
     record_call (ak_stock_hk_index_daily_em (Py.replace code "hk" "")) st).
Proof.
  unfold DataFetcher.fetch_hongkong_index, metrics_of. run_monad.
  destruct (stock_hk_index_daily_em w _) as [df|e]; simpl; [|done].
  destruct (Frame.empty df); simpl; [done|].
  destruct (DataFetcher._clean_dataframe (now w) _) as [S|e]; simpl; [|done].
  by destruct (DataFetcher._extract_metrics S).
Qed.

Lemma fetch_zhonggai_etf_run (st : State) :
  DataFetcher.fetch_zhonggai_etf w st =
    (Ok (settle (df ← fund_etf_hist_em w "513050" "daily" "20190101" "20261231" "qfq";
                 if Frame.empty df then Ok None else
                 S ← DataFetcher._clean_dataframe (now w) (DataFetcher.etf_columns df);
                 if bool_decide (S = []) then Ok None else
                 metrics ← DataFetcher._extract_metrics S;
                 Ok (DataFetcher.tag_source "ETF" metrics))),
     record_call etf_call st).
Proof.
  unfold DataFetcher.fetch_zhonggai_etf. run_monad.
  destruct (fund_etf_hist_em w _ _ _ _ _) as [df|e]; simpl; [|done].
  destruct (Frame.empty df); simpl; [done|].
  destruct (DataFetcher._clean_dataframe (now w) _) as [S|e]; simpl; [|done].
  destruct (bool_decide (S = [])); simpl; [done|].
  by destruct (DataFetcher._extract_metrics S).
Qed.

End fetchers.

Section special_index.
Context `{!Py.PyStr} {cell : Type} `{!Pandas cell} (w : World cell).


Lemma fetch_zhonggai_tushare_run (p : pro_api) (st : State) :
  DataFetcher.fetch_zhonggai_tushare w p st =
    (Ok (settle (df ← tushare_answer w p; DataFetcher.tushare_metrics df)),
     record_call (tushare_call w) st).
Proof.
  unfold DataFetcher.fetch_zhonggai_tushare, tushare_answer, tushare_call. run_monad.
  destruct (index_daily w p _ _ _) as [df|e]; simpl; [|done].
  by destruct (DataFetcher.tushare_metrics df).
Qed.


Lemma tushare_metrics_empty (df : DataFrame cell) :
  Frame.empty df = true -> DataFetcher.tushare_metrics df = Ok None.
Proof. unfold DataFetcher.tushare_metrics. by intros ->. Qed.

(** [get_instance] keeps an existing client, builds none without a token,
    and otherwise asks for one, keeping it when that succeeds. *)
Lemma get_instance_run (st : State) :
  TushareClient.get_instance w st =
    match _instance st with
    | Some p => (Ok (Some p), st)
    | None =>
        if decide (TUSHARE_TOKEN w = "") then (Ok None, st)
        else
          match new_pro_api w (TUSHARE_TOKEN w) with
          | Ok p =>
              (Ok (Some p),
               {| _instance := Some p;
                  calls := calls st ++ [ts_pro_api (TUSHARE_TOKEN w)] |})
          | Raise _ => (Ok None, record_call (ts_pro_api (TUSHARE_TOKEN w)) st)
          end
    end.
Proof.
  unfold TushareClient.get_instance, get_singleton, set_singleton. run_monad.
  destruct st as [[p|] cs]; simpl; [done|].
  destruct (decide (TUSHARE_TOKEN w = "")) as [Htok|Htok].
  - by rewrite bool_decide_eq_true_2.
  - rewrite bool_decide_eq_false_2 by done. simpl.
    by destruct (new_pro_api w (TUSHARE_TOKEN w)).
Qed.

Lemma get_instance_total (st : State) :
  exists pro st1, TushareClient.get_instance w st = (Ok pro, st1).
Proof.
  rewrite get_instance_run. destruct (_instance st); [by eauto|].
  destruct (decide _); [by eauto|]. destruct (new_pro_api w _); by eauto.
Qed.

(** The cross-border index: the client, then the official provider when
    there is a client, then the fund proxy unless the official provider
    gave metrics. *)
Lemma fetch_index_data_special (symbol : string) (st st1 : State) (pro : option pro_api) :
  TushareClient.get_instance w st = (Ok pro, st1) ->
  fetch_index_data w special symbol st =
    match pro with
    | Some p =>
        match settle (df ← tushare_answer w p; DataFetcher.tushare_metrics df) with
        | Some m => (Ok (Some m), record_call (tushare_call w) st1)
        | None => DataFetcher.fetch_zhonggai_etf w (record_call (tushare_call w) st1)
        end
    | None => DataFetcher.fetch_zhonggai_etf w st1
    end.
Proof.
  intros Hget. unfold fetch_index_data, special.
  rewrite decide_True by done. run_monad. rewrite Hget.
  destruct pro as [p|].
  - rewrite fetch_zhonggai_tushare_run.
    destruct (settle _) as [m|]; [done|].
    by rewrite fetch_zhonggai_etf_run.
  - simpl. by rewrite fetch_zhonggai_etf_run.
Qed.

(** Every other index: the prefix of the code selects the fetcher. *)
Lemma fetch_index_data_plain (name symbol : string) (st : State) :
  name <> special ->
  fetch_index_data w name symbol st =
    if Py.startswith symbol "hk" then DataFetcher.fetch_hongkong_index w symbol st
    else if Py.startswith symbol "gb" then DataFetcher.fetch_us_index w symbol st
    else DataFetcher.fetch_a_share_index w symbol st.
Proof.
  intros Hname. unfold fetch_index_data.
  rewrite decide_False by done. unfold try_except.
  destruct (Py.startswith symbol "hk").
  - by rewrite fetch_hongkong_index_run.
  - destruct (Py.startswith symbol "gb").
    + by rewrite fetch_us_index_run.
    + by rewrite fetch_a_share_index_run.
Qed.

End special_index.

(** ** [str.replace] on a code with a single prefix *)

Lemma prefix_append (p rest : string) : String.prefix p (p +:+ rest) = true.
Proof.
  induction p as [|a p IH]; simpl; [by destruct rest|].
  by destruct (ascii_dec a a).
Qed.

Lemma replace_from_skip (old new p rest : string) :
  Py.replace_from old new (String.length p) (p +:+ rest) =
  Py.replace_from old new 0 rest.
Proof. induction p as [|a p IH]; simpl; [by destruct rest|done]. Qed.

Lemma replace_from_absent (old new s : string) :
  Py.contains old s = false -> Py.replace_from old new 0 s = s.
Proof.
  induction s as [|c s IH]; [done|].
  cbn [Py.contains Py.replace_from]. intros [Hp Hc]%orb_false_elim.
  rewrite Hp. f_equal. by apply IH.
Qed.

(** Removing every occurrence of a prefix that occurs nowhere else strips
    the prefix. *)
Lemma replace_prefix_only (old rest : string) :
  old <> "" -> ~ Py.occurs old rest -> Py.replace (old +:+ rest) old "" = rest.
Proof.
  intros Hold Hocc. unfold Py.occurs in Hocc. apply not_true_is_false in Hocc.
  destruct old as [|a old]; [done|]. unfold Py.replace.
  change (String a old +:+ rest) with (String a (old +:+ rest)).
  cbn [Py.replace_from].
  change (String a (old +:+ rest)) with (String a old +:+ rest).
  rewrite prefix_append. cbn [String.length Nat.pred].
  rewrite replace_from_skip. simpl. by apply replace_from_absent.
Qed.

(** A string that starts with [p] is [p] followed by the string without
    its first bytes. *)
Lemma startswith_split (s p : string) :
  Py.startswith s p = true -> s = p +:+ Py.drop_prefix (String.length p) s.
Proof.
  unfold Py.startswith. revert s. induction p as [|a p IH]; intros s; [done|].
  destruct s as [|b s]; [done|]. cbn [String.prefix].
  destruct (ascii_dec a b) as [->|]; [|done].
  intros Hp. cbn [String.length Py.drop_prefix].
  change (String b s = String b (p +:+ Py.drop_prefix (String.length p) s)).
  f_equal. by apply IH.
Qed.

(** Every index that [main] fetches has a code that carries its market
    prefix once, at its head. *)
Lemma configured_codes_plain (name symbol : string) :
  (name, symbol) ∈ configured -> plain_code symbol = true.
Proof.
  intros Hin.
  assert (forallb (fun nc => plain_code nc.2) configured = true) as Hall
    by (vm_compute; reflexivity).
  rewrite forallb_forall in Hall. apply (Hall (name, symbol)).
  by apply list_elem_of_In.
Qed.

Section routing.
Context `{!Py.PyStr} {cell : Type} `{!Pandas cell} (w : World cell).

(** C7.  For an index other than the cross-border one, with a code that
    carries its market prefix once, at its head, as the code of every
    configured index does, the fetch makes exactly one provider call,
    chosen by the prefix of the code: a code that starts with [hk] goes to
    the Hong Kong provider with the prefix stripped; a code that starts
    with [gb.] goes to the US provider with the prefix stripped and then
    INX turned into .INX and NDX into .NDX; every other code goes to the
    domestic provider unchanged. *)
Theorem fetch_index_data_routes (name symbol : string) (st : State) :
  name <> special ->
  (name, symbol) ∈ configured \/ plain_code symbol = true ->
  exists r c,
    fetch_index_data w name symbol st = (Ok r, record_call c st) /\
    (Py.startswith symbol "hk" = true ->
       c = ak_stock_hk_index_daily_em (Py.drop_prefix 2 symbol)) /\
    (Py.startswith symbol "gb." = true ->
       exists s, c = ak_index_us_stock_sina s /\
         (Py.drop_prefix 3 symbol = "INX" -> s = ".INX") /\
         (Py.drop_prefix 3 symbol = "NDX" -> s = ".NDX") /\
         (Py.drop_prefix 3 symbol <> "INX" -> Py.drop_prefix 3 symbol <> "NDX" ->
          s = Py.drop_prefix 3 symbol)) /\
    (Py.startswith symbol "hk" = false -> Py.startswith symbol "gb." = false ->
       c = ak_stock_zh_index_daily_em symbol).
Proof.
  intros Hname Hcode.
  assert (plain_code symbol = true) as Hplain.
  { destruct Hcode as [Hin|Hplain]; [by eapply configured_codes_plain|done]. }
  clear Hcode. unfold plain_code in Hplain.
  rewrite fetch_index_data_plain by done.
  destruct (Py.startswith symbol "hk") eqn:Hhk.
  - (* Hong Kong *)
    rewrite fetch_hongkong_index_run. eexists _, _. split; [reflexivity|].
    apply negb_true_iff in Hplain.
    pose proof (startswith_split symbol "hk" Hhk) as Hsplit.
    cbn [String.length] in Hsplit.
    assert (Py.replace symbol "hk" "" = Py.drop_prefix 2 symbol) as ->.
    { rewrite Hsplit at 1. apply replace_prefix_only; [done|].
      unfold Py.occurs. by rewrite Hplain. }
    split; [done|]. split; [|done].
    intros Hgb. rewrite Hsplit in Hgb. done.
  - destruct (Py.startswith symbol "gb") eqn:Hgb.
    + (* US *)
      apply andb_true_iff in Hplain as [Hdot Hplain]. apply negb_true_iff in Hplain.
      rewrite fetch_us_index_run. eexists _, _. split; [reflexivity|].
      pose proof (startswith_split symbol "gb." Hdot) as Hsplit.
      cbn [String.length] in Hsplit.
      assert (Py.replace symbol "gb." "" = Py.drop_prefix 3 symbol) as Hstrip.
      { rewrite Hsplit at 1. apply replace_prefix_only; [done|].
        unfold Py.occurs. by rewrite Hplain. }
      split; [done|]. split; [|by rewrite Hdot].
      intros _. eexists. split; [reflexivity|].
      unfold DataFetcher.us_symbol. rewrite Hstrip.
      split; [intros ->; by rewrite decide_True|].
      split; [intros ->; rewrite decide_False by done; by rewrite decide_True|].
      intros H1 H2. by rewrite !decide_False.
    + (* domestic *)
      rewrite fetch_a_share_index_run. eexists _, _. split; [reflexivity|].
      split; [done|]. split; [|done].
      intros Hdot. apply startswith_split in Hdot. cbn [String.length] in Hdot.
      rewrite Hdot in Hgb. done.
Qed.

End routing.

Lemma fetch_index_data_routes_sample :
  exists r c,
    fetch_index_data (Sample.world "" (Ok Sample.official) (Ok Sample.fund))
      "标普500" "gb.INX" Sample.fresh = (Ok r, record_call c Sample.fresh) /\
    (Py.startswith "gb.INX" "hk" = true ->
       c = ak_stock_hk_index_daily_em (Py.drop_prefix 2 "gb.INX")) /\
    (Py.startswith "gb.INX" "gb." = true ->
       exists s, c = ak_index_us_stock_sina s /\
         (Py.drop_prefix 3 "gb.INX" = "INX" -> s = ".INX") /\
         (Py.drop_prefix 3 "gb.INX" = "NDX" -> s = ".NDX") /\
         (Py.drop_prefix 3 "gb.INX" <> "INX" -> Py.drop_prefix 3 "gb.INX" <> "NDX" ->
          s = Py.drop_prefix 3 "gb.INX")) /\
    (Py.startswith "gb.INX" "hk" = false -> Py.startswith "gb.INX" "gb." = false ->
       c = ak_stock_zh_index_daily_em "gb.INX").
Proof.
  apply (fetch_index_data_routes
           (Sample.world "" (Ok Sample.official) (Ok Sample.fund))
           "标普500" "gb.INX" Sample.fresh).
  - unfold special. discriminate.
  - right. vm_compute. reflexivity.
Defined.

(** The rule is that of the configured codes.  On a code that starts with
    [gb] without the dot, or that holds its prefix a second time, the code
    does otherwise: the first goes to the US provider, the second loses
    every occurrence of the prefix. *)
Example fetch_index_data_other_codes :
  plain_code "gbX" = false /\
  snd (fetch_index_data (Sample.world "" (Ok Sample.official) (Ok Sample.fund))
         "X" "gbX" Sample.fresh)
    = record_call (ak_index_us_stock_sina "gbX") Sample.fresh /\
  plain_code "hkAhk" = false /\
  snd (fetch_index_data (Sample.world "" (Ok Sample.official) (Ok Sample.fund))
         "X" "hkAhk" Sample.fresh)
    = record_call (ak_stock_hk_index_daily_em "A") Sample.fresh.
Proof. repeat split; reflexivity. Qed.

Example fetch_index_data_configured_codes :
  let w := Sample.world "" (Ok Sample.official) (Ok Sample.fund) in
  calls (snd (fetch_index_data w "恒生科技" "hkHSTECH" Sample.fresh))
    = [ak_stock_hk_index_daily_em "HSTECH"] /\
  calls (snd (fetch_index_data w "标普500" "gb.INX" Sample.fresh))
    = [ak_index_us_stock_sina ".INX"] /\
  calls (snd (fetch_index_data w "纳指100" "gb.NDX" Sample.fresh))
    = [ak_index_us_stock_sina ".NDX"] /\
  calls (snd (fetch_index_data w "上证指数" "sh000001" Sample.fresh))
    = [ak_stock_zh_index_daily_em "sh000001"].
Proof. repeat split; reflexivity. Qed.

Section fallback.
Context `{!Py.PyStr} {cell : Type} `{!Pandas cell} (w : World cell).





End fallback.

Example fallback_official :
  fetch_index_data (Sample.world "token" (Ok Sample.official) (Ok Sample.fund))
    "中概互联" "H30533" Sample.fresh =
  (Ok (Some {| cur := Some 105; hv := Some 120; hd := "2024-03-01";
               lv := Some 80; ld := "2025-03-01"; source := Some "Tushare" |}),
   {| _instance := Some (mk_pro_api "token");
      calls := [ts_pro_api "token";
                pro_index_daily "H30533.CSI" "20211104" "20261104"] |}).
Proof. reflexivity. Qed.

Example fallback_no_credential :
  fetch_index_data (Sample.world "" (Ok Sample.official) (Ok Sample.fund))
    "中概互联" "H30533" Sample.fresh =
  (Ok (Some {| cur := Some 13; hv := Some 14; hd := "2025-03-01";
               lv := Some 9; ld := "2024-03-01"; source := Some "ETF" |}),
   {| _instance := None;
      calls := [ak_fund_etf_hist_em "513050" "daily" "20190101" "20261231" "qfq"] |}).
Proof. reflexivity. Qed.

Example fallback_official_raises :
  fetch_index_data
    (Sample.world "token" (Raise (IOError "timeout")) (Ok Sample.fund))
    "中概互联" "H30533" Sample.fresh =
  (Ok (Some {| cur := Some 13; hv := Some 14; hd := "2025-03-01";
               lv := Some 9; ld := "2024-03-01"; source := Some "ETF" |}),
   {| _instance := Some (mk_pro_api "token");
      calls := [ts_pro_api "token";
                pro_index_daily "H30533.CSI" "20211104" "20261104";
                ak_fund_etf_hist_em "513050" "daily" "20190101" "20261231" "qfq"] |}).
Proof. reflexivity. Qed.

Example fallback_both_fail :
  fst (fetch_index_data
         (Sample.world "token" (Ok (mkDataFrame [] [])) (Raise (IOError "timeout")))
         "中概互联" "H30533" Sample.fresh) = Ok None.
Proof. reflexivity. Qed.

Example official_series_sample :
  official_series Sample.official =
    Ok [ mkRow 0 (Some (Sample.midnight 2024 3 1)) (Some 110) (Some 120) (Some 105);
         mkRow 1 (Some (Sample.midnight 2025 3 1)) (Some 105) (Some 108) (Some 80) ].
Proof. reflexivity. Qed.

Example fallback_source_labels :
  (exists m,
     fst (fetch_index_data (Sample.world "token" (Ok Sample.official) (Ok Sample.fund))
            "中概互联" "H30533" Sample.fresh) = Ok (Some m) /\
     source_label m = Some "official") /\
  (exists m,
     fst (fetch_index_data (Sample.world "" (Ok Sample.official) (Ok Sample.fund))
            "中概互联" "H30533" Sample.fresh) = Ok (Some m) /\
     source_label m = Some "proxy").
Proof. split; eexists; split; reflexivity. Qed.

(** ** Fetches that yield nothing *)

Section no_data.
Context `{!Py.PyStr} {cell : Type} `{!Pandas cell} (w : World cell).

Lemma empty_no_rows (df : DataFrame cell) : rows df = [] -> Frame.empty df = true.
Proof. unfold Frame.empty. intros ->. by destruct (columns df). Qed.

Lemma clean_no_rows (df : DataFrame cell) : rows df = [] -> cleans_to_nothing w df.
Proof.
  intros Hrows S Hrun.
  apply clean_dataframe_stamps in Hrun as (dates & _ & Hsub & _).
  unfold dated_rows in Hsub. rewrite Hrows in Hsub. simpl in Hsub.
  apply sublist_nil_r in Hsub. by apply fmap_nil_inv in Hsub.
Qed.

Lemma metrics_of_nothing (df : DataFrame cell) :
  cleans_to_nothing w df -> settle (metrics_of w df) = None.
Proof.
  intros Hnone. unfold metrics_of.
  destruct (DataFetcher._clean_dataframe (now w) df) as [S|] eqn:Hc; simpl; [|done].
  by rewrite (Hnone S).
Qed.

Lemma plain_unusable (answer : result (DataFrame cell)) :
  unusable w id answer -> settle (df ← answer; metrics_of w df) = None.
Proof.
  destruct answer as [df|]; simpl; [|done].
  intros [Hrows|Hnone]; apply metrics_of_nothing; [by apply clean_no_rows|done].
Qed.

Lemma hk_unusable (answer : result (DataFrame cell)) :
  unusable w DataFetcher.hk_columns answer ->
  settle (df ← answer;
          if Frame.empty df then Ok None
          else metrics_of w (DataFetcher.hk_columns df)) = None.
Proof.
  destruct answer as [df|]; simpl; [|done].
  intros [Hrows|Hnone].
  - by rewrite empty_no_rows.
  - destruct (Frame.empty df); [done|]. by apply metrics_of_nothing.
Qed.

Lemma etf_unusable (st : State) :
  unusable w DataFetcher.etf_columns (etf_answer w) ->
  DataFetcher.fetch_zhonggai_etf w st = (Ok None, record_call etf_call st).
Proof.
  rewrite fetch_zhonggai_etf_run. unfold etf_answer. intros Hun. do 2 f_equal.
  destruct (fund_etf_hist_em w _ _ _ _ _) as [df|]; simpl; [|done].
  destruct Hun as [Hrows|Hnone].
  - by rewrite empty_no_rows.
  - destruct (Frame.empty df); simpl; [done|].
    destruct (DataFetcher._clean_dataframe _ _) as [S|] eqn:Hc; simpl; [|done].
    by rewrite (Hnone S).
Qed.

Lemma tushare_failed (p : pro_api) :
  failed (tushare_answer w p) ->
  settle (df ← tushare_answer w p; DataFetcher.tushare_metrics df) = None.
Proof.
  destruct (tushare_answer w p) as [df|]; simpl; [|done].
  intros Hrows. by rewrite tushare_metrics_empty by by apply empty_no_rows.
Qed.

(** C6.  [fetch_index_data] never raises: whatever the providers answer it
    returns a value.  It returns [None] whenever the provider it asks
    raises, returns a table without rows, or returns a table that cleaning
    rejects or empties; on the cross-border index, whenever the official
    provider raises or returns no row and the fund provider is unusable in
    one of these ways. *)
Theorem fetch_index_data_never_raises (name symbol : string) (st : State) :
  (exists r st', fetch_index_data w name symbol st = (Ok r, st')) /\
  (name <> special -> Py.startswith symbol "hk" = true ->
   unusable w DataFetcher.hk_columns
            (stock_hk_index_daily_em w (Py.replace symbol "hk" "")) ->
   fst (fetch_index_data w name symbol st) = Ok None) /\
  (name <> special -> Py.startswith symbol "hk" = false ->
   Py.startswith symbol "gb" = true ->
   unusable w id (index_us_stock_sina w (DataFetcher.us_symbol symbol)) ->
   fst (fetch_index_data w name symbol st) = Ok None) /\
  (name <> special -> Py.startswith symbol "hk" = false ->
   Py.startswith symbol "gb" = false ->
   unusable w id (stock_zh_index_daily_em w symbol) ->
   fst (fetch_index_data w name symbol st) = Ok None) /\
  (name = special ->
   (forall p, failed (tushare_answer w p)) ->
   unusable w DataFetcher.etf_columns (etf_answer w) ->
   fst (fetch_index_data w name symbol st) = Ok None).
Proof.
  split; [|split; [|split; [|split]]].
  - destruct (decide (name = special)) as [->|Hname].
    + destruct (get_instance_total w st) as (pro & st1 & Hget).
      rewrite (fetch_index_data_special w symbol st st1 pro Hget).
      destruct pro as [p|].
      * destruct (settle _); [by eauto|].
        rewrite fetch_zhonggai_etf_run. by eauto.
      * rewrite fetch_zhonggai_etf_run. by eauto.
    + rewrite fetch_index_data_plain by done.
      destruct (Py.startswith symbol "hk");
        [rewrite fetch_hongkong_index_run; by eauto|].
      destruct (Py.startswith symbol "gb");
        [rewrite fetch_us_index_run; by eauto|].
      rewrite fetch_a_share_index_run; by eauto.
  - intros Hname Hhk Hun. rewrite fetch_index_data_plain, Hhk by done.
    rewrite fetch_hongkong_index_run. simpl. f_equal. by apply hk_unusable.
  - intros Hname Hhk Hgb Hun. rewrite fetch_index_data_plain, Hhk, Hgb by done.
    rewrite fetch_us_index_run. simpl. f_equal. by apply plain_unusable.
  - intros Hname Hhk Hgb Hun. rewrite fetch_index_data_plain, Hhk, Hgb by done.
    rewrite fetch_a_share_index_run. simpl. f_equal. by apply plain_unusable.
  - intros -> Hofficial Hfund.
    destruct (get_instance_total w st) as (pro & st1 & Hget).
    rewrite (fetch_index_data_special w symbol st st1 pro Hget).
    destruct pro as [p|].
    + rewrite tushare_failed by done. by rewrite etf_unusable.
    + by rewrite etf_unusable.
Qed.

End no_data.

Example no_rows_no_data :
  let w := Sample.world "" (Ok Sample.official) (Ok Sample.fund) in
  DataFetcher._clean_dataframe Sample.today Sample.no_rows = Ok [] /\
  DataFetcher._extract_metrics [] = Ok None /\
  DataFetcher._clean_dataframe Sample.today (mkDataFrame [] [])
    = Raise (KeyError "date").
Proof. repeat split; reflexivity. Qed.

(** ** Loading the persisted document *)

Lemma lookup_constant_map {V : Type} (v : V) (names : list string) (name : string) :
  name ∈ names ->
  (list_to_map ((fun n => (n, v)) <$> names) : gmap string V) !! name = Some v.
Proof.
  induction names as [|n names IH]; [by intros ?%elem_of_nil|].
  csimpl. intros Hin.
  destruct (decide (n = name)) as [->|Hne]; [by rewrite lookup_insert_eq|].
  rewrite lookup_insert_ne by done. apply IH.
  apply elem_of_cons in Hin as [->|Hin]; done.
Qed.

(** The default document holds 3000, 4000 and an empty journal for every
    configured index. *)
Lemma default_data_complete (name : string) :
  name ∈ DataManager.get_all_index_names ->
  supports DataManager.default_data !! name = Some (PyInt 3000) /\
  atmospheres DataManager.default_data !! name = Some (PyInt 4000) /\
  notes DataManager.default_data !! name = Some [].
Proof.
  intros Hin. unfold DataManager.default_data. cbn [supports atmospheres notes].
  repeat split; by apply lookup_constant_map.
Qed.

Lemma update_lookup {V : Type} (d : gmap string V) (part : option (gmap string V))
    (name : string) :
  DataManager.update d part !! name = over_default (m ← part; m !! name) (d !! name).
Proof.
  destruct part as [m|]; simpl; [|done].
  rewrite lookup_union. by destruct (m !! name), (d !! name).
Qed.

(** [load] returns a document for every state of the file, and each of its
    entries is the saved one when the file holds it, the default one
    otherwise. *)
Lemma load_merges (f : file_state) :
  exists d,
    DataManager.load f = Ok d /\
    forall name,
      supports d !! name
        = over_default (saved_entry saved_supports f name)
                       (supports DataManager.default_data !! name) /\
      atmospheres d !! name
        = over_default (saved_entry saved_atmospheres f name)
                       (atmospheres DataManager.default_data !! name) /\
      notes d !! name
        = over_default (saved_entry saved_notes f name)
                       (notes DataManager.default_data !! name).
Proof.
  destruct f as [| | |saved]; (eexists; split; [reflexivity|]); intros name;
    cbn [supports atmospheres notes saved_entry over_default]; try done.
  by rewrite !update_lookup.
Qed.

(** C8.  For every configured index, the thresholds read from the loaded
    document are 3000 and 4000 when the file holds no value for the index;
    and whatever document the file holds, each entry of the loaded document
    is the saved entry when there is one and the default otherwise, map by
    map and name by name. *)
Theorem load_defaults_and_merge (times_1_3 : number -> number) (f : file_state) :
  exists d,
    DataManager.load f = Ok d /\
    (forall name,
       supports d !! name
         = over_default (saved_entry saved_supports f name)
                        (supports DataManager.default_data !! name) /\
       atmospheres d !! name
         = over_default (saved_entry saved_atmospheres f name)
                        (atmospheres DataManager.default_data !! name) /\
       notes d !! name
         = over_default (saved_entry saved_notes f name)
                        (notes DataManager.default_data !! name)) /\
    (forall name,
       name ∈ DataManager.get_all_index_names ->
       saved_entry saved_supports f name = None ->
       saved_entry saved_atmospheres f name = None ->
       UIComponents.read_thresholds times_1_3 d name = (PyInt 3000, PyInt 4000)) /\
    (forall name,
       name ∈ DataManager.get_all_index_names ->
       saved_entry saved_notes f name = None ->
       notes d !! name = Some []).
Proof.
  destruct (load_merges f) as (d & Hload & Hmerge).
  exists d. split; [done|]. split; [done|]. split.
  - intros name Hin Hs Ha.
    destruct (Hmerge name) as (Hsup & Hatm & _).
    destruct (default_data_complete name Hin) as (Hds & Hda & _).
    unfold UIComponents.read_thresholds.
    rewrite Hsup, Hatm, Hs, Ha. cbn [over_default]. rewrite Hds, Hda. reflexivity.
  - intros name Hin Hn.
    destruct (Hmerge name) as (_ & _ & Hnotes).
    destruct (default_data_complete name Hin) as (_ & _ & Hdn).
    rewrite Hnotes, Hn. cbn [over_default]. exact Hdn.
Qed.

(** C10.  When the file is absent, cannot be read, or does not hold JSON,
    [load] raises nothing and returns the default document, which has an
    entry in each of its three maps for every configured index. *)
Theorem load_total (f : file_state) :
  (exists d, DataManager.load f = Ok d) /\
  DataManager.load Absent = Ok DataManager.default_data /\
  DataManager.load Unreadable = Ok DataManager.default_data /\
  DataManager.load Malformed = Ok DataManager.default_data /\
  (forall name,
     name ∈ DataManager.get_all_index_names ->
     supports DataManager.default_data !! name = Some (PyInt 3000) /\
     atmospheres DataManager.default_data !! name = Some (PyInt 4000) /\
     notes DataManager.default_data !! name = Some []).
Proof.
  split.
  { destruct (load_merges f) as (d & Hload & _). by exists d. }
  repeat split; try reflexivity; by apply default_data_complete.
Qed.

Example all_index_names :
  DataManager.get_all_index_names =
    [ "上证指数"; "创业板指"; "沪深300"; "中证500"; "上证50"; "中证1000";
      "中证红利"; "中证医疗"; "全指医药"; "全指消费"; "中证消费"; "全指信息";
      "中证传媒"; "食品饮料"; "中证军工"; "中概互联";
      "恒生指数"; "恒生科技"; "恒生医疗"; "标普500"; "纳指100" ].
Proof. reflexivity. Qed.

(** An older document: one support saved, no ceilings, no journal. *)
Example load_partial_document :
  let older :=
    Content {| saved_supports := Some {[ "沪深300" := PyFloat 3500 ]};
               saved_atmospheres := None;
               saved_notes := None |} in
  exists d,
    DataManager.load older = Ok d /\
    supports d !! "沪深300" = Some (PyFloat 3500) /\
    atmospheres d !! "沪深300" = Some (PyInt 4000) /\
    supports d !! "上证指数" = Some (PyInt 3000) /\
    notes d !! "沪深300" = Some [].
Proof.
  eexists. split; [reflexivity|].
  split; [vm_compute; reflexivity|]. split; [vm_compute; reflexivity|].
  split; vm_compute; reflexivity.
Qed.

(** ** Reading back what was saved *)

Lemma lookup_constant_map_absent {V : Type} (v : V) (names : list string) (name : string) :
  name ∉ names ->
  (list_to_map ((fun n => (n, v)) <$> names) : gmap string V) !! name = None.
Proof.
  intros Hnin. apply not_elem_of_list_to_map_1.
  rewrite <- list_fmap_compose. by rewrite list_fmap_id.
Qed.

Lemma union_default_absorbed {V : Type} (m : gmap string V) (v : V) (names : list string) :
  (forall name, name ∈ names -> is_Some (m !! name)) ->
  m ∪ list_to_map ((fun n => (n, v)) <$> names) = m.
Proof.
  intros Hall. apply map_eq. intros name.
  destruct (m !! name) as [x|] eqn:Hm.
  - by apply lookup_union_Some_l.
  - rewrite lookup_union_r by done.
    apply lookup_constant_map_absent.
    intros Hin. destruct (Hall name Hin) as [x Hx]. congruence.
Qed.

Lemma load_dumped (d : Doc) :
  complete d -> DataManager.load (Content (DataManager.dumped d)) = Ok d.
Proof.
  intros Hc. unfold DataManager.load, DataManager.dumped.
  cbn [DataManager.exists_ DataManager.json_load saved_supports saved_atmospheres
       saved_notes DataManager.update].
  unfold DataManager.default_data. cbn [supports atmospheres notes].
  rewrite !union_default_absorbed;
    [by destruct d|intros name Hin; destruct (Hc name Hin) as (? & ? & ?); done..].
Qed.

Lemma complete_journals (d : Doc) (m : gmap string (list Note.t)) :
  complete d ->
  (forall name, is_Some (notes d !! name) -> is_Some (m !! name)) ->
  complete {| supports := supports d; atmospheres := atmospheres d; notes := m |}.
Proof.
  intros Hc Hm name Hin. destruct (Hc name Hin) as (Hs & Ha & Hn).
  cbn [supports atmospheres notes]. auto.
Qed.

(** ** The journal *)

Lemma ltb_not_eq (a b : string) : String.ltb a b = true -> a <> b.
Proof.
  unfold String.ltb. intros Hlt ->.
  assert (String.compare b b = Eq) as Heq.
  { pose proof (String.compare_antisym b b) as Ha.
    destruct (String.compare b b); simpl in Ha; congruence. }
  by rewrite Heq in Hlt.
Qed.

Lemma ltb_leb_flip (a b : string) : String.ltb a b = true -> String.leb a b = true.
Proof. unfold String.ltb, String.leb. by destruct (String.compare a b). Qed.

Lemma not_ltb_leb (a b : string) : String.ltb a b = false -> String.leb b a = true.
Proof.
  unfold String.ltb, String.leb. rewrite (String.compare_antisym a b).
  by destruct (String.compare b a).
Qed.

Section journal.
Context `{!Py.PyStr}.

Lemma insert_desc_perm (x : Note.t) (l : list Note.t) :
  UIComponents.insert_desc x l ≡ₚ x :: l.
Proof.
  induction l as [|y l IH]; simpl; [done|].
  destruct (String.ltb _ _); [|done]. rewrite IH. apply Permutation_swap.
Qed.

Lemma sort_desc_perm (l : list Note.t) : UIComponents.sort_desc l ≡ₚ l.
Proof.
  induction l as [|x l IH]; simpl; [done|].
  rewrite insert_desc_perm. by rewrite IH.
Qed.

Lemma insert_desc_hd (x a : Note.t) (l : list Note.t) :
  newest_first a x -> HdRel newest_first a l ->
  HdRel newest_first a (UIComponents.insert_desc x l).
Proof.
  intros Hax Hal. destruct l as [|y l]; simpl; [by constructor|].
  destruct (String.ltb _ _); constructor; [|done]. by apply HdRel_inv in Hal.
Qed.

Lemma insert_desc_sorted (x : Note.t) (l : list Note.t) :
  Sorted newest_first l -> Sorted newest_first (UIComponents.insert_desc x l).
Proof.
  induction l as [|y l IH]; simpl; intros Hs; [by repeat constructor|].
  apply Sorted_inv in Hs as [Hs Hhd].
  destruct (String.ltb (Note.date x) (Note.date y)) eqn:Hlt.
  - constructor; [by apply IH|]. apply insert_desc_hd; [|done].
    unfold newest_first. by apply ltb_leb_flip.
  - constructor; [by constructor|]. constructor.
    unfold newest_first. by apply not_ltb_leb.
Qed.

Lemma sort_desc_sorted (l : list Note.t) : Sorted newest_first (UIComponents.sort_desc l).
Proof.
  induction l as [|x l IH]; simpl; [constructor|]. by apply insert_desc_sorted.
Qed.

(** Stability: the entries of any one date keep their order. *)
Lemma insert_desc_stable (d : string) (x : Note.t) (l : list Note.t) :
  dated d (UIComponents.insert_desc x l) = dated d (x :: l).
Proof.
  unfold dated. induction l as [|y l IH]; simpl; [done|].
  destruct (String.ltb (Note.date x) (Note.date y)) eqn:Hlt; [|done].
  apply ltb_not_eq in Hlt.
  rewrite (filter_cons _ y), IH, !filter_cons.
  destruct (decide (Note.date y = d)) as [Hy|Hy];
    destruct (decide (Note.date x = d)) as [Hx|Hx]; try done.
  congruence.
Qed.

Lemma sort_desc_stable (d : string) (l : list Note.t) :
  dated d (UIComponents.sort_desc l) = dated d l.
Proof.
  induction l as [|x l IH]; simpl; [done|].
  rewrite insert_desc_stable. unfold dated in *. by rewrite !filter_cons, IH.
Qed.

End journal.

(** ** Dates as strings *)

(** [str(d)] orders calendar dates as the calendar does. *)

Lemma compare_refl_string (s : string) : String.compare s s = Eq.
Proof.
  pose proof (String.compare_antisym s s) as Ha.
  destruct (String.compare s s); simpl in Ha; congruence.
Qed.

Lemma compare_append (a b c d : string) :
  String.length a = String.length b ->
  String.compare (a +:+ c) (b +:+ d) =
    match String.compare a b with
    | Eq => String.compare c d
    | r => r
    end.
Proof.
  revert b. induction a as [|x a IH]; intros [|y b]; simpl; try done.
  intros [= Hlen]. destruct (Ascii.compare x y); try done. by apply IH.
Qed.

Lemma length_append (a b : string) :
  String.length (a +:+ b) = (String.length a + String.length b)%nat.
Proof. induction a as [|x a IH]; simpl; [done|]. by rewrite IH. Qed.

Lemma zfill_length (w : nat) (n : Z) : String.length (Py.zfill w n) = w.
Proof.
  revert n. induction w as [|w IH]; intros n; simpl; [done|].
  rewrite length_append, IH. simpl. lia.
Qed.

Lemma digit_compare (a b : Z) :
  0 <= a < 10 -> 0 <= b < 10 ->
  Ascii.compare (Py.digit a) (Py.digit b) = (a ?= b).
Proof.
  intros Ha Hb.
  assert (a = 0 \/ a = 1 \/ a = 2 \/ a = 3 \/ a = 4 \/ a = 5 \/ a = 6 \/ a = 7 \/
          a = 8 \/ a = 9) as Hcase_a by lia.
  assert (b = 0 \/ b = 1 \/ b = 2 \/ b = 3 \/ b = 4 \/ b = 5 \/ b = 6 \/ b = 7 \/
          b = 8 \/ b = 9) as Hcase_b by lia.
  repeat (destruct Hcase_a as [->|Hcase_a]);
    repeat (destruct Hcase_b as [->|Hcase_b]); subst; reflexivity.
Qed.

Lemma digit_mod (n : Z) : Py.digit n = Py.digit (n mod 10).
Proof. unfold Py.digit. by rewrite Z.mod_mod. Qed.

Lemma zfill_compare (w : nat) (a b : Z) :
  0 <= a < 10 ^ Z.of_nat w -> 0 <= b < 10 ^ Z.of_nat w ->
  String.compare (Py.zfill w a) (Py.zfill w b) = (a ?= b).
Proof.
  revert a b. induction w as [|w IH]; intros a b Ha Hb.
  - simpl in *. assert (a = 0) as -> by lia. by assert (b = 0) as -> by lia.
  - rewrite Nat2Z.inj_succ, Z.pow_succ_r in Ha, Hb by lia.
    cbn [Py.zfill]. rewrite compare_append by (by rewrite !zfill_length).
    rewrite IH by (split; [apply Z.div_pos|apply Z.div_lt_upper_bound]; lia).
    cbn [String.compare]. rewrite (digit_mod a), (digit_mod b).
    rewrite digit_compare by (apply Z.mod_pos_bound; lia).
    pose proof (Z.div_mod a 10). pose proof (Z.div_mod b 10).
    pose proof (Z.mod_pos_bound a 10). pose proof (Z.mod_pos_bound b 10).
    destruct (Z.compare_spec (a / 10) (b / 10));
      destruct (Z.compare_spec (a mod 10) (b mod 10));
      destruct (Z.compare_spec a b); try done; lia.
Qed.

Lemma str_date_leb (a b : UIComponents.pydate) :
  calendar_range a -> calendar_range b ->
  String.leb (UIComponents.str_date a) (UIComponents.str_date b) = true <->
  calendar_le a b.
Proof.
  intros (Hya & Hma & Hda) (Hyb & Hmb & Hdb).
  unfold String.leb, UIComponents.str_date, calendar_le.
  rewrite (compare_append (Py.zfill 4 _) (Py.zfill 4 _)) by (by rewrite !zfill_length).
  rewrite zfill_compare by (change (10 ^ Z.of_nat 4) with 10000; lia).
  rewrite (compare_append "-" "-") by done.
  change (String.compare "-" "-") with Eq. cbv iota.
  rewrite (compare_append (Py.zfill 2 _) (Py.zfill 2 _)) by (by rewrite !zfill_length).
  rewrite zfill_compare by (change (10 ^ Z.of_nat 2) with 100; lia).
  rewrite (compare_append "-" "-") by done.
  change (String.compare "-" "-") with Eq. cbv iota.
  rewrite zfill_compare by (change (10 ^ Z.of_nat 2) with 100; lia).
  destruct (Z.compare_spec (UIComponents.dyear a) (UIComponents.dyear b));
    destruct (Z.compare_spec (UIComponents.dmonth a) (UIComponents.dmonth b));
    destruct (Z.compare_spec (UIComponents.dday a) (UIComponents.dday b));
    split; intros; try done; lia.
Qed.

Section add_note.
Context `{!Py.PyStr}.

(** C9.  After a note is added (the form was submitted with a content
    that is not blank, so that an entry is appended), the journal of the
    index holds the old entries and the new one, newest first by date: the
    order of the sort is that of the date strings, which on the strings
    that [str] gives calendar dates is the order of the calendar.  The
    other journals and the thresholds are unchanged.  The updated document
    is handed to [save]; when the write succeeds the file holds it, and a
    fresh [load] returns it.  The specification leaves the order among the
    entries of one date open, and nothing is stated about it here. *)
Theorem add_note_sorted_persisted (o : write_outcome) (name : string)
    (date_input : UIComponents.pydate) (content_input : string)
    (s : UIComponents.Session) :
  Py.strip content_input <> "" ->
  let entry := Note.mk (UIComponents.str_date date_input) (Py.strip content_input) in
  let old := default [] (notes (UIComponents.db s) !! name) in
  let s' := UIComponents.add_note o name date_input content_input s in
  exists new,
    notes (UIComponents.db s') !! name = Some new /\
    new ≡ₚ old ++ [entry] /\
    Sorted newest_first new /\
    (forall a b ca cb, calendar_range a -> calendar_range b ->
       newest_first (Note.mk (UIComponents.str_date a) ca)
                    (Note.mk (UIComponents.str_date b) cb) <->
       calendar_le b a) /\
    (forall other, other <> name ->
       notes (UIComponents.db s') !! other = notes (UIComponents.db s) !! other) /\
    supports (UIComponents.db s') = supports (UIComponents.db s) /\
    atmospheres (UIComponents.db s') = atmospheres (UIComponents.db s) /\
    UIComponents.disk s'
      = DataManager.save o (UIComponents.db s') (UIComponents.disk s) /\
    (o = Written ->
     UIComponents.disk s' = Content (DataManager.dumped (UIComponents.db s')) /\
     (complete (UIComponents.db s) ->
      DataManager.load (UIComponents.disk s') = Ok (UIComponents.db s'))).
Proof.
  intros Hcontent entry old s'. subst s'. unfold UIComponents.add_note.
  rewrite decide_False by done. cbn [UIComponents.db UIComponents.disk notes supports atmospheres].
  fold entry. fold old.
  exists (UIComponents.sort_desc (old ++ [entry])).
  split; [by rewrite lookup_insert_eq|].
  split; [apply sort_desc_perm|].
  split; [apply sort_desc_sorted|].
  split.
  { intros a b ca cb Ha Hb. unfold newest_first. simpl. by apply str_date_leb. }
  split; [intros other Hne; by rewrite lookup_insert_ne|].
  split; [done|]. split; [done|]. split; [done|].
  intros ->. split; [done|].
  intros Hc. cbn [DataManager.save]. apply load_dumped.
  apply complete_journals; [done|].
  intros other Hother. apply lookup_insert_is_Some'. by right.
Qed.

(** X16.  The sort that follows the append is stable: after a note is
    added, the entries of any one date are those the journal held on that
    date, in the order they had, followed by the new entry when it is of
    that date.  Notes added on one date are therefore listed in the order
    in which they were added. *)
Theorem add_note_same_date (o : write_outcome) (name : string)
    (date_input : UIComponents.pydate) (content_input : string)
    (s : UIComponents.Session) (d : string) :
  Py.strip content_input <> "" ->
  let entry := Note.mk (UIComponents.str_date date_input) (Py.strip content_input) in
  let old := default [] (notes (UIComponents.db s) !! name) in
  let s' := UIComponents.add_note o name date_input content_input s in
  dated d (default [] (notes (UIComponents.db s') !! name)) = dated d (old ++ [entry]).
Proof.
  intros Hcontent entry old s'. subst s'. unfold UIComponents.add_note.
  rewrite decide_False by done. cbn [UIComponents.db notes].
  rewrite lookup_insert_eq. cbn [default]. apply sort_desc_stable.
Qed.

End add_note.

Lemma add_note_sorted_persisted_sample :
  let name := "上证指数" in
  let date_input := UIComponents.mk_pydate 2024 1 2 in
  let entry := Note.mk (UIComponents.str_date date_input) (Py.strip " second ") in
  let old := default [] (notes (UIComponents.db Sample.session) !! name) in
  let s' := UIComponents.add_note Written name date_input " second " Sample.session in
  exists new,
    notes (UIComponents.db s') !! name = Some new /\
    new ≡ₚ old ++ [entry] /\
    Sorted newest_first new /\
    (forall a b ca cb, calendar_range a -> calendar_range b ->
       newest_first (Note.mk (UIComponents.str_date a) ca)
                    (Note.mk (UIComponents.str_date b) cb) <->
       calendar_le b a) /\
    (forall other, other <> name ->
       notes (UIComponents.db s') !! other
         = notes (UIComponents.db Sample.session) !! other) /\
    supports (UIComponents.db s') = supports (UIComponents.db Sample.session) /\
    atmospheres (UIComponents.db s') = atmospheres (UIComponents.db Sample.session) /\
    UIComponents.disk s'
      = DataManager.save Written (UIComponents.db s') (UIComponents.disk Sample.session) /\
    (Written = Written ->
     UIComponents.disk s' = Content (DataManager.dumped (UIComponents.db s')) /\
     (complete (UIComponents.db Sample.session) ->
      DataManager.load (UIComponents.disk s') = Ok (UIComponents.db s'))).
Proof.
  apply (add_note_sorted_persisted Written "上证指数" (UIComponents.mk_pydate 2024 1 2)
           " second " Sample.session).
  vm_compute. discriminate.
Defined.

Lemma add_note_same_date_sample :
  let entry := Note.mk (UIComponents.str_date (UIComponents.mk_pydate 2024 1 2))
                 (Py.strip " second ") in
  let old := default [] (notes (UIComponents.db Sample.session) !! "上证指数") in
  let s' := UIComponents.add_note Written "上证指数" (UIComponents.mk_pydate 2024 1 2)
              " second " Sample.session in
  dated "2024-01-02" (default [] (notes (UIComponents.db s') !! "上证指数"))
    = dated "2024-01-02" (old ++ [entry]).
Proof.
  apply (add_note_same_date Written "上证指数" (UIComponents.mk_pydate 2024 1 2)
           " second " Sample.session "2024-01-02").
  vm_compute. discriminate.
Defined.

(** A run of the form: three notes, two of them on one date. *)
Example add_note_run :
  let s1 := UIComponents.add_note Written "上证指数" (UIComponents.mk_pydate 2024 1 2)
              "second" Sample.session in
  let s2 := UIComponents.add_note Written "上证指数" (UIComponents.mk_pydate 2024 6 1)
              "third" s1 in
  notes (UIComponents.db s2) !! "上证指数" =
    Some [ Note.mk "2024-06-01" "third";
           Note.mk "2024-05-10" "trim";
           Note.mk "2024-01-02" "first";
           Note.mk "2024-01-02" "second" ] /\
  UIComponents.disk s2 = Content (DataManager.dumped (UIComponents.db s2)).
Proof. split; vm_compute; reflexivity. Qed.

(** ** The string and date primitives on examples *)

Example replace_examples :
  Py.replace "hkHSI" "hk" "" = "HSI" /\
  Py.replace "gb.INX" "gb." "" = "INX" /\
  Py.replace "sh000001" "hk" "" = "sh000001" /\
  Py.replace "aaa" "aa" "b" = "ba" /\
  Py.replace "ab" "" "-" = "-a-b-".
Proof. repeat split; reflexivity. Qed.

Example strftime_examples :
  strftime_iso (mkTimestamp 2024 3 7 0) = "2024-03-07" /\
  strftime_compact (mkTimestamp 2024 3 7 0) = "20240307" /\
  UIComponents.str_date (UIComponents.mk_pydate 987 12 1) = "0987-12-01".
Proof. repeat split; reflexivity. Qed.

Example sub_years_examples :
  sub_years (mkTimestamp 2026 11 4 0) Config.LOOKBACK_YEARS = mkTimestamp 2021 11 4 0 /\
  sub_years (mkTimestamp 2024 2 29 5) Config.LOOKBACK_YEARS = mkTimestamp 2019 2 28 5.
Proof. repeat split; reflexivity. Qed.

(** * Further properties of the data layer *)

(** ** What [_clean_dataframe] returns *)

Lemma positions_from_absent (i : nat) (c : string) (cols : list string) :
  c ∉ cols -> Frame.positions_from i c cols = [].
Proof.
  revert i. induction cols as [|c' cols IH]; intros i Hnin; [done|].
  apply not_elem_of_cons in Hnin as [Hne Hnin]. simpl.
  rewrite decide_False by done. by apply IH.
Qed.

Lemma fst_zip_sublist {A B : Type} (l : list A) (k : list B) :
  (zip l k).*1 `sublist_of` l.
Proof.
  revert k. induction l as [|a l IH]; intros [|b k]; simpl;
    try done; try apply sublist_nil_l.
  constructor. apply IH.
Qed.

Section cleaned_series.
Context `{!Py.PyStr} {cell : Type} `{!Pandas cell}.

(** The columns of the rows that [_clean_dataframe] returns. *)
Lemma clean_dataframe_columns (now : Timestamp) (df : DataFrame cell) (S : list Row) :
  DataFetcher._clean_dataframe now df = Ok S ->
  Forall (fun r => is_Some (close r)) S /\
  ("high" ∉ columns (DataFetcher.standardize df) ->
   Forall (fun r => high r = close r) S) /\
  ("low" ∉ columns (DataFetcher.standardize df) ->
   Forall (fun r => low r = close r) S).
Proof.
  unfold DataFetcher._clean_dataframe.
  destruct (DataFetcher.date_column (DataFetcher.standardize df)) as [dates|e];
    simpl; [|done].
  match goal with |- context [filter ?P (omap ?h ?l)] => set (recent := filter P (omap h l)) end.
  destruct (Frame.getitem "close" _) as [i_close|e]; simpl; [|done].
  set (closes := to_numeric _).
  unfold DataFetcher.numeric_column. cbn [columns rows].
  destruct (Frame.positions "high" _) as [|i_high [|? ?]] eqn:Hhigh; simpl; try done;
    destruct (Frame.positions "low" _) as [|i_low [|? ?]] eqn:Hlow; simpl; try done;
    intros [= <-];
    (split; [apply Forall_forall; intros r Hr; by apply list_elem_of_filter in Hr as [? _]|]);
    split; intros Hnin;
    try (unfold Frame.positions in *;
         rewrite positions_from_absent in Hhigh by done; discriminate);
    try (unfold Frame.positions in *;
         rewrite positions_from_absent in Hlow by done; discriminate);
    apply Forall_forall; intros r Hr;
    apply list_elem_of_filter in Hr as [_ Hr];
    apply elem_of_lookup_imap_1 in Hr as (k & rt & -> & _); done.
Qed.

(** The labels of the output are among those of the input, in order. *)
Lemma clean_dataframe_labels (now : Timestamp) (df : DataFrame cell) (S : list Row) :
  DataFetcher._clean_dataframe now df = Ok S ->
  label <$> S `sublist_of` (rows df).*1.
Proof.
  intros Hrun. apply clean_dataframe_stamps in Hrun as (dates & _ & Hsub & _).
  apply (fmap_sublist fst) in Hsub.
  rewrite <- list_fmap_compose in Hsub.
  etrans; [exact Hsub|]. apply fst_zip_sublist.
Qed.

Lemma cleaned_is_normalized (now : Timestamp) (df : DataFrame cell)
    (dates : list (option Timestamp)) (S : list Row) :
  DataFetcher._clean_dataframe now df = Ok S ->
  DataFetcher.date_column (DataFetcher.standardize df) = Ok dates ->
  NoDup (rows df).*1 ->
  Sorted ts_le (omap snd (dated_rows df dates)) ->
  NormalizedSeries S.
Proof.
  intros Hrun Hdates Hnd Hsorted.
  pose proof (clean_dataframe_labels now df S Hrun) as Hlabels.
  pose proof (clean_dataframe_columns now df S Hrun) as (Hclose & _ & _).
  apply clean_dataframe_stamps in Hrun as (dates' & Hdates' & Hsub & Hwindow).
  rewrite Hdates in Hdates'. injection Hdates' as <-.
  assert (Forall (fun r => is_Some (date r)) S) as Hdated.
  { eapply Forall_impl; [exact Hwindow|]. intros r (t & Ht & _). by exists t. }
  split; [by eapply sublist_NoDup|done|done|].
  apply sorted_rows_of_dates; [done|].
  eapply StronglySorted_sublist;
    [|apply Sorted_StronglySorted; [intros a b c; apply ts_le_trans|exact Hsorted]].
  apply (omap_sublist snd) in Hsub.
  replace (omap snd (stamp <$> S)) with (omap date S) in Hsub; [done|].
  clear. induction S as [|r S IH]; [done|]. csimpl. by rewrite IH.
Qed.

(** X1.  When the rows of a table carry distinct index labels and its
    parsed dates are in ascending order, what [_clean_dataframe] returns is
    a NormalizedSeries: distinct labels, a date and a numeric close in
    every row, ascending dates. *)
Theorem clean_dataframe_normalized (now : Timestamp) (df : DataFrame cell)
    (dates : list (option Timestamp)) (S : list Row) :
  DataFetcher._clean_dataframe now df = Ok S ->
  DataFetcher.date_column (DataFetcher.standardize df) = Ok dates ->
  NoDup (rows df).*1 ->
  Sorted ts_le (omap snd (dated_rows df dates)) ->
  NormalizedSeries S.
Proof. apply cleaned_is_normalized. Qed.

(** X2.  A table without a high (resp. low) column is given one equal to
    its close column: in every returned row, high (resp. low) is the
    close, and the close is a number. *)
Theorem clean_dataframe_synthesizes (now : Timestamp) (df : DataFrame cell) (S : list Row) :
  DataFetcher._clean_dataframe now df = Ok S ->
  ("high" ∉ columns (DataFetcher.standardize df) ->
   Forall (fun r => exists c, close r = Some c /\ high r = Some c) S) /\
  ("low" ∉ columns (DataFetcher.standardize df) ->
   Forall (fun r => exists c, close r = Some c /\ low r = Some c) S).
Proof.
  intros Hrun. apply clean_dataframe_columns in Hrun as (Hclose & Hhigh & Hlow).
  rewrite Forall_forall in Hclose.
  split; intros Hnin; apply Forall_forall; intros r Hr;
    destruct (Hclose r Hr) as [c Hc]; exists c; (split; [done|]).
  - specialize (Hhigh Hnin). rewrite Forall_forall in Hhigh. by rewrite (Hhigh r Hr).
  - specialize (Hlow Hnin). rewrite Forall_forall in Hlow. by rewrite (Hlow r Hr).
Qed.

End cleaned_series.

Lemma clean_dataframe_normalized_sample :
  NormalizedSeries Sample.series.
Proof.
  apply (clean_dataframe_normalized Sample.today Sample.daily
           [Some (Sample.midnight 2020 6 1); Some (Sample.midnight 2023 3 1);
            Some (Sample.midnight 2024 3 1); Some (Sample.midnight 2025 3 1);
            Some (Sample.midnight 2026 3 1)] Sample.series).
  - reflexivity.
  - reflexivity.
  - apply (bool_decide_unpack _). vm_compute. reflexivity.
  - repeat constructor; vm_compute; reflexivity.
Defined.

Lemma clean_dataframe_synthesizes_sample :
  ("high" ∉ columns (DataFetcher.standardize closes_only) ->
   Forall (fun r => exists c, close r = Some c /\ high r = Some c) closes_only_series) /\
  ("low" ∉ columns (DataFetcher.standardize closes_only) ->
   Forall (fun r => exists c, close r = Some c /\ low r = Some c) closes_only_series).
Proof.
  apply (clean_dataframe_synthesizes Sample.today closes_only closes_only_series).
  reflexivity.
Defined.

(** ** From the provider's table to the metrics *)

Lemma is_max_ext (f g : Row -> option float) (S : list Row) (v : float) :
  Forall (fun r => f r = g r) S -> is_max f S v -> is_max g S v.
Proof.
  rewrite Forall_forall. intros Heq [(r & Hr & Hv) Hall]. split.
  - exists r. split; [done|]. by rewrite <- Heq.
  - intros r' x Hr' Hx. apply (Hall r' x Hr'). by rewrite Heq.
Qed.

Lemma is_min_ext (f g : Row -> option float) (S : list Row) (v : float) :
  Forall (fun r => f r = g r) S -> is_min f S v -> is_min g S v.
Proof.
  rewrite Forall_forall. intros Heq [(r & Hr & Hv) Hall]. split.
  - exists r. split; [done|]. by rewrite <- Heq.
  - intros r' x Hr' Hx. apply (Hall r' x Hr'). by rewrite Heq.
Qed.

Lemma earliest_date_ext (f g : Row -> option float) (S : list Row) (v : float)
    (t : Timestamp) :
  Forall (fun r => f r = g r) S -> earliest_date f S v t -> earliest_date g S v t.
Proof.
  rewrite Forall_forall. intros Heq [(r & Hr & Hv & Ht) Hall]. split.
  - exists r. split; [done|]. split; [by rewrite <- Heq|done].
  - intros r' t' Hr' Hx. apply (Hall r' t' Hr'). by rewrite Heq.
Qed.

Lemma earliest_date_in_window (f : Row -> option float) (S : list Row) (v : float)
    (t cutoff : Timestamp) :
  Forall (fun r => exists t', date r = Some t' /\ ts_le cutoff t') S ->
  earliest_date f S v t -> ts_le cutoff t.
Proof.
  rewrite Forall_forall. intros Hwin [(r & Hr & _ & Ht) _].
  destruct (Hwin r Hr) as (t' & Ht' & Hle). congruence.
Qed.

Section close_only.
Context `{!Py.PyStr} {cell : Type} `{!Pandas cell} (w : World cell).

(** X3.  The domestic fetch, end to end, on a table that has no high and
    no low column, distinct index labels and ascending dates, and of which
    cleaning retains some row: it returns metrics without a source tag,
    whose [cur] is the close of the last retained row, whose [hv] and [lv]
    are the largest and the smallest retained close, with [lv <= cur <= hv],
    and whose [hd] and [ld] are the earliest dates of these closes; both
    dates lie in the lookback window. *)
Theorem fetch_a_share_index_close_only (code : string) (st : State)
    (df : DataFrame cell) (dates : list (option Timestamp)) (S : list Row) :
  stock_zh_index_daily_em w code = Ok df ->
  DataFetcher._clean_dataframe (now w) df = Ok S ->
  DataFetcher.date_column (DataFetcher.standardize df) = Ok dates ->
  NoDup (rows df).*1 ->
  Sorted ts_le (omap snd (dated_rows df dates)) ->
  "high" ∉ columns (DataFetcher.standardize df) ->
  "low" ∉ columns (DataFetcher.standardize df) ->
  S <> [] ->
  exists m r_last c vh th vl tl,
    DataFetcher.fetch_a_share_index w code st
      = (Ok (Some m), record_call (ak_stock_zh_index_daily_em code) st) /\
    source m = None /\
    last S = Some r_last /\ close r_last = Some c /\ cur m = Some c /\
    hv m = Some vh /\ is_max close S vh /\
    earliest_date close S vh th /\ hd m = strftime_iso th /\
    lv m = Some vl /\ is_min close S vl /\
    earliest_date close S vl tl /\ ld m = strftime_iso tl /\
    vl <= c <= vh /\
    ts_le (sub_years (now w) Config.LOOKBACK_YEARS) th /\
    ts_le (sub_years (now w) Config.LOOKBACK_YEARS) tl.
Proof.
  intros Hanswer Hrun Hdates Hnd Hsorted Hnohigh Hnolow Hne.
  pose proof (cleaned_is_normalized (now w) df dates S Hrun Hdates Hnd Hsorted)
    as [Hlabels Hdated Hclosed Hasc].
  pose proof (clean_dataframe_columns (now w) df S Hrun) as (_ & Hhigh & Hlow).
  specialize (Hhigh Hnohigh). specialize (Hlow Hnolow).
  pose proof (clean_dataframe_stamps (now w) df S Hrun) as (_ & _ & _ & Hwindow).
  destruct S as [|r0 S0] eqn:HS; [done|]. rewrite <- HS in *. clear Hne.
  assert (r0 ∈ S) as Hr0 by (rewrite HS; by left).
  assert (exists r, r ∈ S /\ is_Some (high r)) as Hhas_high.
  { exists r0. split; [done|]. rewrite Forall_forall in Hhigh, Hclosed.
    rewrite (Hhigh r0 Hr0). by apply Hclosed. }
  assert (exists r, r ∈ S /\ is_Some (low r)) as Hhas_low.
  { exists r0. split; [done|]. rewrite Forall_forall in Hlow, Hclosed.
    rewrite (Hlow r0 Hr0). by apply Hclosed. }
  destruct (extract_metrics_rows S Hlabels Hdated Hhas_high Hhas_low)
    as (r_last & rh & vh & th & rl & vl & tl & Hlast & Hfh & Hrh & Hvh & Hth
        & Hfl & Hrl & Hvl & Htl & Hextract).
  pose proof (last_Some_elem_of _ _ Hlast) as Hin_last.
  assert (is_Some (close r_last)) as [c Hc].
  { rewrite Forall_forall in Hclosed. by apply Hclosed. }
  pose proof (first_best_max high S _ vh Hfh) as Hmax.
  pose proof (first_best_min low S _ vl Hfl) as Hmin.
  pose proof (first_best_earliest Z.gtb high S rh vh th
                ltac:(intros; lia) Hasc Hrh Hvh Hth Hlabels Hfh) as Hearly_h.
  pose proof (first_best_earliest Z.ltb low S rl vl tl
                ltac:(intros; lia) Hasc Hrl Hvl Htl Hlabels Hfl) as Hearly_l.
  eexists _, r_last, c, vh, th, vl, tl.
  split.
  { rewrite fetch_a_share_index_run, Hanswer. unfold metrics_of. simpl.
    rewrite Hrun. simpl. rewrite Hextract. reflexivity. }
  cbn [source cur hv hd lv ld].
  split; [done|]. split; [done|]. split; [done|]. split; [done|]. split; [done|].
  split; [by apply (is_max_ext high close)|].
  split; [by apply (earliest_date_ext high close)|].
  split; [done|]. split; [done|].
  split; [by apply (is_min_ext low close)|].
  split; [by apply (earliest_date_ext low close)|].
  split; [done|]. split.
  { rewrite Forall_forall in Hhigh, Hlow.
    destruct Hmax as [_ Hmax]. destruct Hmin as [_ Hmin]. split.
    - apply (Hmin r_last c Hin_last). by rewrite Hlow.
    - apply (Hmax r_last c Hin_last). by rewrite Hhigh. }
  split; by eapply earliest_date_in_window.
Qed.

End close_only.

Lemma fetch_a_share_index_close_only_sample :
  let w := {| now := Sample.today;
              TUSHARE_TOKEN := "";
              new_pro_api := fun t => Ok (mk_pro_api t);
              index_daily := fun _ _ _ _ => Raise (IOError "offline");
              fund_etf_hist_em := fun _ _ _ _ _ => Raise (IOError "offline");
              stock_hk_index_daily_em := fun _ => Raise (IOError "offline");
              index_us_stock_sina := fun _ => Raise (IOError "offline");
              stock_zh_index_daily_em := fun _ => Ok closes_only |} in
  exists m r_last c vh th vl tl,
    DataFetcher.fetch_a_share_index w "sh000001" Sample.fresh
      = (Ok (Some m), record_call (ak_stock_zh_index_daily_em "sh000001") Sample.fresh) /\
    source m = None /\
    last closes_only_series = Some r_last /\ close r_last = Some c /\ cur m = Some c /\
    hv m = Some vh /\ is_max close closes_only_series vh /\
    earliest_date close closes_only_series vh th /\ hd m = strftime_iso th /\
    lv m = Some vl /\ is_min close closes_only_series vl /\
    earliest_date close closes_only_series vl tl /\ ld m = strftime_iso tl /\
    vl <= c <= vh /\
    ts_le (sub_years (now w) Config.LOOKBACK_YEARS) th /\
    ts_le (sub_years (now w) Config.LOOKBACK_YEARS) tl.
Proof.
  intros w.
  apply (fetch_a_share_index_close_only w "sh000001" Sample.fresh closes_only
           [Some (Sample.midnight 2020 6 1); Some (Sample.midnight 2023 3 1);
            Some (Sample.midnight 2024 3 1); Some (Sample.midnight 2025 3 1);
            Some (Sample.midnight 2026 3 1)] closes_only_series).
  - reflexivity.
  - reflexivity.
  - reflexivity.
  - apply (bool_decide_unpack _). vm_compute. reflexivity.
  - repeat constructor; vm_compute; reflexivity.
  - apply (bool_decide_unpack _). vm_compute. reflexivity.
  - apply (bool_decide_unpack _). vm_compute. reflexivity.
  - discriminate.
Defined.

(** ** When [_extract_metrics] raises *)

Lemma arg_first_all_nan (better : float -> float -> bool) (f : Row -> option float)
    (S : list Row) :
  Forall (fun r => f r = None) S -> DataFetcher.arg_first better f None S = None.
Proof. induction 1 as [|r S Hr _ IH]; simpl; [done|]. by rewrite Hr. Qed.

Lemma loc_repeated (l : Z) (S : list Row) :
  (2 <= List.length (filter (fun r => label r = l) S))%nat ->
  exists e, DataFetcher.loc l S = Raise e.
Proof.
  unfold DataFetcher.loc.
  destruct (filter _ S) as [|r1 [|r2 rest]]; simpl; intros Hlen; try lia.
  by eexists.
Qed.

Lemma extract_metrics_raises_cases (S : list Row) :
  S <> [] ->
  Forall (fun r => high r = None) S \/
  Forall (fun r => low r = None) S \/
  Forall (fun r => 2 <= List.length (filter (fun r' => label r' = label r) S))%nat S ->
  exists e, DataFetcher._extract_metrics S = Raise e.
Proof.
  intros Hne Hcases. unfold DataFetcher._extract_metrics.
  destruct (last S) as [r_last|] eqn:Hlast; [|by apply last_None in Hlast].
  unfold DataFetcher.idxmax, DataFetcher.idxmin.
  destruct Hcases as [Hhigh|[Hlow|Hdup]].
  - rewrite (arg_first_all_nan Z.gtb high) by done. simpl. by eexists.
  - rewrite (arg_first_all_nan Z.ltb low) by done.
    destruct (DataFetcher.arg_first Z.gtb high None S) as [[l v]|]; simpl; by eexists.
  - destruct (DataFetcher.arg_first Z.gtb high None S) as [[lh vh]|] eqn:Hh; simpl;
      [|by eexists].
    destruct (DataFetcher.arg_first Z.ltb low None S) as [[ll vl]|] eqn:Hl; simpl;
      [|by eexists].
    apply (arg_first_None Z.gtb high gtb_trans gtb_mixed) in Hh
      as (S1 & r & S2 & HS & Hlabel & _).
    assert (r ∈ S) as Hr by (rewrite HS; apply elem_of_app; right; by left).
    rewrite Forall_forall in Hdup. specialize (Hdup r Hr). rewrite Hlabel in Hdup.
    destruct (loc_repeated lh S Hdup) as [e ->]. simpl. by eexists.
Qed.

Section extract_raises.
Context `{!Py.PyStr} {cell : Type} `{!Pandas cell} (w : World cell).

Lemma metrics_of_raises (df : DataFrame cell) (S : list Row) :
  DataFetcher._clean_dataframe (now w) df = Ok S ->
  (exists e, DataFetcher._extract_metrics S = Raise e) ->
  settle (metrics_of w df) = None.
Proof. intros Hclean [e He]. unfold metrics_of. by rewrite Hclean; simpl; rewrite He. Qed.

(** X4.  On a series with rows, [_extract_metrics] raises when the high
    column or the low column holds no number, and when every index label
    of the series is carried by two rows or more.  A fetcher whose cleaned
    table is such a series returns [None], although the series has rows
    with closes: the domestic, the US and the Hong Kong fetch, through
    [fetch_index_data] too, and the fund fetch. *)
Theorem extract_metrics_raises (S : list Row) :
  S <> [] ->
  Forall (fun r => high r = None) S \/
  Forall (fun r => low r = None) S \/
  Forall (fun r => 2 <= List.length (filter (fun r' => label r' = label r) S))%nat S ->
  (exists e, DataFetcher._extract_metrics S = Raise e) /\
  (forall code st df,
     stock_zh_index_daily_em w code = Ok df ->
     DataFetcher._clean_dataframe (now w) df = Ok S ->
     DataFetcher.fetch_a_share_index w code st
       = (Ok None, record_call (ak_stock_zh_index_daily_em code) st)) /\
  (forall code st df,
     index_us_stock_sina w (DataFetcher.us_symbol code) = Ok df ->
     DataFetcher._clean_dataframe (now w) df = Ok S ->
     DataFetcher.fetch_us_index w code st
       = (Ok None, record_call (ak_index_us_stock_sina (DataFetcher.us_symbol code)) st)) /\
  (forall code st df,
     stock_hk_index_daily_em w (Py.replace code "hk" "") = Ok df ->
     Frame.empty df = false ->
     DataFetcher._clean_dataframe (now w) (DataFetcher.hk_columns df) = Ok S ->
     DataFetcher.fetch_hongkong_index w code st
       = (Ok None, record_call (ak_stock_hk_index_daily_em (Py.replace code "hk" "")) st)) /\
  (forall st df,
     etf_answer w = Ok df ->
     Frame.empty df = false ->
     DataFetcher._clean_dataframe (now w) (DataFetcher.etf_columns df) = Ok S ->
     DataFetcher.fetch_zhonggai_etf w st = (Ok None, record_call etf_call st)) /\
  (forall name code st df,
     name <> special ->
     Py.startswith code "hk" = false -> Py.startswith code "gb" = false ->
     stock_zh_index_daily_em w code = Ok df ->
     DataFetcher._clean_dataframe (now w) df = Ok S ->
     fetch_index_data w name code st
       = (Ok None, record_call (ak_stock_zh_index_daily_em code) st)).
Proof.
  intros Hne Hcases.
  pose proof (extract_metrics_raises_cases S Hne Hcases) as Hraise.
  split; [done|].
  assert (forall code st df,
            stock_zh_index_daily_em w code = Ok df ->
            DataFetcher._clean_dataframe (now w) df = Ok S ->
            DataFetcher.fetch_a_share_index w code st
              = (Ok None, record_call (ak_stock_zh_index_daily_em code) st)) as Hzh.
  { intros code st df Hanswer Hclean. rewrite fetch_a_share_index_run, Hanswer.
    cbn [mbind result_bind]. by rewrite (metrics_of_raises df S). }
  split; [done|].
  split.
  { intros code st df Hanswer Hclean. rewrite fetch_us_index_run, Hanswer.
    cbn [mbind result_bind]. by rewrite (metrics_of_raises df S). }
  split.
  { intros code st df Hanswer Hempty Hclean. rewrite fetch_hongkong_index_run, Hanswer.
    cbn [mbind result_bind]. rewrite Hempty.
    by rewrite (metrics_of_raises (DataFetcher.hk_columns df) S). }
  split.
  { intros st df Hanswer Hempty Hclean. rewrite fetch_zhonggai_etf_run.
    unfold etf_answer in Hanswer. rewrite Hanswer. cbn [mbind result_bind].
    rewrite Hempty, Hclean. cbn [mbind result_bind].
    rewrite bool_decide_eq_false_2 by done.
    destruct Hraise as [e ->]. done. }
  intros name code st df Hname Hhk Hgb Hanswer Hclean.
  rewrite fetch_index_data_plain, Hhk, Hgb by done. by eapply Hzh.
Qed.

End extract_raises.

Lemma extract_metrics_raises_sample :
  let w := Sample.world "" (Ok Sample.official) (Ok Sample.fund) in
  let S := no_highs_series in
  (exists e, DataFetcher._extract_metrics S = Raise e) /\
  (forall code st df,
     stock_zh_index_daily_em w code = Ok df ->
     DataFetcher._clean_dataframe (now w) df = Ok S ->
     DataFetcher.fetch_a_share_index w code st
       = (Ok None, record_call (ak_stock_zh_index_daily_em code) st)) /\
  (forall code st df,
     index_us_stock_sina w (DataFetcher.us_symbol code) = Ok df ->
     DataFetcher._clean_dataframe (now w) df = Ok S ->
     DataFetcher.fetch_us_index w code st
       = (Ok None, record_call (ak_index_us_stock_sina (DataFetcher.us_symbol code)) st)) /\
  (forall code st df,
     stock_hk_index_daily_em w (Py.replace code "hk" "") = Ok df ->
     Frame.empty df = false ->
     DataFetcher._clean_dataframe (now w) (DataFetcher.hk_columns df) = Ok S ->
     DataFetcher.fetch_hongkong_index w code st
       = (Ok None, record_call (ak_stock_hk_index_daily_em (Py.replace code "hk" "")) st)) /\
  (forall st df,
     etf_answer w = Ok df ->
     Frame.empty df = false ->
     DataFetcher._clean_dataframe (now w) (DataFetcher.etf_columns df) = Ok S ->
     DataFetcher.fetch_zhonggai_etf w st = (Ok None, record_call etf_call st)) /\
  (forall name code st df,
     name <> special ->
     Py.startswith code "hk" = false -> Py.startswith code "gb" = false ->
     stock_zh_index_daily_em w code = Ok df ->
     DataFetcher._clean_dataframe (now w) df = Ok S ->
     fetch_index_data w name code st
       = (Ok None, record_call (ak_stock_zh_index_daily_em code) st)).
Proof.
  apply (extract_metrics_raises
           (Sample.world "" (Ok Sample.official) (Ok Sample.fund)) no_highs_series).
  - discriminate.
  - left. repeat constructor.
Defined.

(** The domestic fetch on a table whose high column holds no number: the
    cleaned series has two rows with closes, and the fetch returns [None]. *)
Example fetch_index_data_no_highs :
  let w := {| now := Sample.today;
              TUSHARE_TOKEN := "";
              new_pro_api := fun t => Ok (mk_pro_api t);
              index_daily := fun _ _ _ _ => Ok no_highs;
              fund_etf_hist_em := fun _ _ _ _ _ => Ok no_highs;
              stock_hk_index_daily_em := fun _ => Ok no_highs;
              index_us_stock_sina := fun _ => Ok no_highs;
              stock_zh_index_daily_em := fun _ => Ok no_highs |} in
  DataFetcher._clean_dataframe (now w) no_highs = Ok no_highs_series /\
  fetch_index_data w "上证指数" "sh000001" Sample.fresh
    = (Ok None, record_call (ak_stock_zh_index_daily_em "sh000001") Sample.fresh).
Proof. split; reflexivity. Qed.

Example extract_metrics_repeated_label :
  DataFetcher._extract_metrics
    [ mkRow 0 (Some (Sample.midnight 2024 3 1)) (Some 10) (Some 12) (Some 9);
      mkRow 0 (Some (Sample.midnight 2025 3 1)) (Some 11) (Some 12) (Some 10) ]
  = Raise (TypeError "loc").
Proof. reflexivity. Qed.

(** ** The official fetch needs its four columns *)

Lemma renamed_absent (m : list (string * string)) (c : string) (cols : list string) :
  c ∉ cols -> Forall (fun kv => kv.2 = c -> kv.1 = c) m ->
  c ∉ Frame.renamed m <$> cols.
Proof.
  intros Hnin Hm (c' & Heq & Hc')%list_elem_of_fmap.
  assert (c' = c) as ->; [|done].
  clear Hnin Hc'. revert Heq.
  induction Hm as [|[k v] m Hkv _ IH]; simpl; intros Heq; [done|].
  destruct (decide (c' = k)) as [Hck|Hne]; [|by apply IH].
  rewrite Hck. apply Hkv. by symmetry.
Qed.

Lemma getitem_absent {cell : Type} (c : string) (df : DataFrame cell) :
  c ∉ columns df -> Frame.getitem c df = Raise (KeyError c).
Proof.
  intros Hnin. unfold Frame.getitem, Frame.positions.
  by rewrite positions_from_absent.
Qed.

Section official_columns.
Context `{!Py.PyStr} {cell : Type} `{!Pandas cell} (w : World cell).

(** X5.  Unlike the shared cleaning, the official fetch gives a table no
    column it lacks: when the provider's table has rows but no column
    labelled [trade_date], [close], [high] or [low], the body of
    [fetch_zhonggai_tushare] raises, the fetch returns [None], and
    [fetch_index_data] returns what the fund proxy gives. *)
Theorem fetch_zhonggai_tushare_missing_column (p : pro_api) (df : DataFrame cell)
    (c : string) (symbol : string) (st : State) :
  tushare_answer w p = Ok df ->
  Frame.empty df = false ->
  c ∈ ["trade_date"; "close"; "high"; "low"] ->
  c ∉ columns df ->
  (exists e, DataFetcher.tushare_metrics df = Raise e) /\
  DataFetcher.fetch_zhonggai_tushare w p st = (Ok None, record_call (tushare_call w) st) /\
  (_instance st = Some p ->
   fetch_index_data w special symbol st
     = DataFetcher.fetch_zhonggai_etf w (record_call (tushare_call w) st)).
Proof.
  intros Hanswer Hempty Hc Hnin.
  assert (exists e, DataFetcher.tushare_metrics df = Raise e) as [e He].
  { unfold DataFetcher.tushare_metrics. rewrite Hempty.
    destruct (decide (c = "trade_date")) as [->|Hne].
    { rewrite getitem_absent by done. cbn [mbind result_bind]. by eexists. }
    destruct (Frame.getitem "trade_date" df) as [i_sort|]; cbn [mbind result_bind]; [|by eexists].
    set (m := [("trade_date", "date"); ("open", "open"); ("high", "high");
               ("low", "low"); ("close", "close")]).
    set (df' := Frame.rename m (Frame.sort_values i_sort df)).
    assert (c ∉ columns df') as Hnin'.
    { apply renamed_absent; [done|].
      repeat constructor; simpl; intros <-; try done.
      repeat (apply elem_of_cons in Hc as [Hc|Hc]; [discriminate Hc|]).
      by apply elem_of_nil in Hc. }
    destruct (Frame.getitem "date" df') as [i_date|]; cbn [mbind result_bind]; [|by eexists].
    destruct (to_datetime_format _ _) as [ds|]; cbn [mbind result_bind]; [|by eexists].
    repeat (apply elem_of_cons in Hc as [->|Hc]); try done.
    - rewrite (getitem_absent "close" df') by done. cbn [mbind result_bind]. by eexists.
    - destruct (Frame.getitem "close" df') as [i_close|]; cbn [mbind result_bind]; [|by eexists].
      rewrite (getitem_absent "high" df') by done. cbn [mbind result_bind]. by eexists.
    - destruct (Frame.getitem "close" df') as [i_close|]; cbn [mbind result_bind]; [|by eexists].
      destruct (Frame.getitem "high" df') as [i_high|]; cbn [mbind result_bind]; [|by eexists].
      rewrite (getitem_absent "low" df') by done. cbn [mbind result_bind]. by eexists.
    - by apply elem_of_nil in Hc. }
  split; [by eexists|].
  assert (DataFetcher.fetch_zhonggai_tushare w p st
          = (Ok None, record_call (tushare_call w) st)) as Hfetch.
  { rewrite fetch_zhonggai_tushare_run, Hanswer. simpl. by rewrite He. }
  split; [done|].
  intros Hinst.
  rewrite (fetch_index_data_special w symbol st st (Some p)).
  - rewrite Hanswer. simpl. by rewrite He.
  - rewrite get_instance_run. by rewrite Hinst.
Qed.

End official_columns.

Lemma fetch_zhonggai_tushare_missing_column_sample :
  let w := Sample.world "token" (Ok official_without_high) (Ok Sample.fund) in
  let p := mk_pro_api "token" in
  let st := {| _instance := Some p; calls := [] |} in
  (exists e, DataFetcher.tushare_metrics official_without_high = Raise e) /\
  DataFetcher.fetch_zhonggai_tushare w p st = (Ok None, record_call (tushare_call w) st) /\
  (_instance st = Some p ->
   fetch_index_data w special "H30533" st
     = DataFetcher.fetch_zhonggai_etf w (record_call (tushare_call w) st)).
Proof.
  intros w p st.
  apply (fetch_zhonggai_tushare_missing_column w p official_without_high "high"
           "H30533" st).
  - reflexivity.
  - reflexivity.
  - apply (bool_decide_unpack _). vm_compute. reflexivity.
  - apply (bool_decide_unpack _). vm_compute. reflexivity.
Defined.

(** ** The client singleton *)

Ltac calls_ok :=
  unfold tushare_call, etf_call;
  repeat first
    [ apply Forall_nil_2
    | apply Forall_cons_2
    | split
    | assumption
    | intros [] ].

Section client_singleton.
Context `{!Py.PyStr} {cell : Type} `{!Pandas cell} (w : World cell).

Lemma fetch_index_data_plain_state (name symbol : string) (st : State) :
  name <> special ->
  exists r c,
    fetch_index_data w name symbol st = (Ok r, record_call c st) /\
    ~ builds_client c /\ ~ asks_official c.
Proof.
  intros Hname. rewrite fetch_index_data_plain by done.
  destruct (Py.startswith symbol "hk");
    [rewrite fetch_hongkong_index_run; eexists _, _;
     split; [reflexivity|]; split; intros []|].
  destruct (Py.startswith symbol "gb");
    [rewrite fetch_us_index_run; eexists _, _;
     split; [reflexivity|]; split; intros []|].
  rewrite fetch_a_share_index_run; eexists _, _;
    split; [reflexivity|]; split; intros [].
Qed.

(** X6.  The client is a singleton.  With a token and no client yet,
    [get_instance] builds the client and stores it, and a fetch of the
    cross-border index leaves it stored after asking the official provider
    with it.  Once a client is stored, [get_instance] returns it without a
    call, every fetch keeps it and builds no other, and a fetch of the
    cross-border index asks the official provider with it.  With no token
    configured and no client, no fetch builds a client or asks the
    official provider.  With a token whose client cannot be built, a fetch
    of the cross-border index tries to build it, leaves the singleton unset
    (so the next fetch tries again) and asks the fund provider.  A fetch
    of any other index makes one provider call, which neither builds a
    client nor asks the official provider. *)
Theorem client_is_singleton (name symbol : string) (st : State) :
  (forall p, TUSHARE_TOKEN w <> "" -> _instance st = None ->
     new_pro_api w (TUSHARE_TOKEN w) = Ok p ->
     TushareClient.get_instance w st
       = (Ok (Some p),
          {| _instance := Some p;
             calls := calls st ++ [ts_pro_api (TUSHARE_TOKEN w)] |}) /\
     (name = special ->
      exists r tail,
        fetch_index_data w name symbol st
          = (Ok r,
             {| _instance := Some p;
                calls := calls st ++
                         ts_pro_api (TUSHARE_TOKEN w) :: tushare_call w :: tail |}) /\
        Forall (fun c => ~ builds_client c) tail)) /\
  (forall p, _instance st = Some p ->
     TushareClient.get_instance w st = (Ok (Some p), st) /\
     exists r tail,
       fetch_index_data w name symbol st
         = (Ok r, {| _instance := Some p; calls := calls st ++ tail |}) /\
       Forall (fun c => ~ builds_client c) tail /\
       (name = special -> head tail = Some (tushare_call w))) /\
  (TUSHARE_TOKEN w = "" -> _instance st = None ->
     exists r tail,
       fetch_index_data w name symbol st
         = (Ok r, {| _instance := None; calls := calls st ++ tail |}) /\
       Forall (fun c => ~ builds_client c /\ ~ asks_official c) tail) /\
  (forall e, TUSHARE_TOKEN w <> "" -> _instance st = None ->
     new_pro_api w (TUSHARE_TOKEN w) = Raise e ->
     name = special ->
     exists r,
       fetch_index_data w name symbol st
         = (Ok r, {| _instance := None;
                     calls := calls st ++ [ts_pro_api (TUSHARE_TOKEN w); etf_call] |})) /\
  (name <> special ->
     exists r c,
       fetch_index_data w name symbol st = (Ok r, record_call c st) /\
       ~ builds_client c /\ ~ asks_official c).
Proof.
  split; [|split; [|split; [|split]]].
  - intros p Htok Hinst Hnew.
    assert (TushareClient.get_instance w st
            = (Ok (Some p),
               {| _instance := Some p;
                  calls := calls st ++ [ts_pro_api (TUSHARE_TOKEN w)] |})) as Hget.
    { rewrite get_instance_run, Hinst, decide_False, Hnew by done. done. }
    split; [done|]. intros ->.
    rewrite (fetch_index_data_special w symbol st _ (Some p) Hget).
    destruct (settle _) as [m|].
    + exists (Some m), []. unfold record_call. cbn [_instance calls].
      rewrite <- app_assoc. split; [done|]. calls_ok.
    + rewrite fetch_zhonggai_etf_run. eexists _, [etf_call].
      unfold record_call. cbn [_instance calls]. rewrite <- !app_assoc.
      split; [reflexivity|]. calls_ok.
  - intros p Hinst. split; [by rewrite get_instance_run, Hinst|].
    destruct (decide (name = special)) as [->|Hname].
    + rewrite (fetch_index_data_special w symbol st st (Some p))
        by (by rewrite get_instance_run, Hinst).
      destruct (settle _) as [m|].
      * exists (Some m), [tushare_call w]. unfold record_call. rewrite Hinst.
        split; [done|]. split; [|done]. calls_ok.
      * rewrite fetch_zhonggai_etf_run. eexists _, [tushare_call w; etf_call].
        unfold record_call. cbn [_instance calls]. rewrite Hinst, <- app_assoc.
        split; [reflexivity|]. split; [|done]. calls_ok.
    + destruct (fetch_index_data_plain_state name symbol st Hname)
        as (r & c & -> & Hc & _).
      exists r, [c]. unfold record_call. rewrite Hinst.
      split; [done|]. split; [|done]. calls_ok.
  - intros Htok Hinst. destruct (decide (name = special)) as [->|Hname].
    + rewrite (fetch_index_data_special w symbol st st None)
        by (rewrite get_instance_run, Hinst; by rewrite decide_True).
      rewrite fetch_zhonggai_etf_run. eexists _, [etf_call].
      unfold record_call. rewrite Hinst. split; [reflexivity|].
      calls_ok.
    + destruct (fetch_index_data_plain_state name symbol st Hname)
        as (r & c & -> & Hc & Hc').
      exists r, [c]. unfold record_call. rewrite Hinst.
      split; [done|]. calls_ok.
  - intros e Htok Hinst Hnew ->.
    rewrite (fetch_index_data_special w symbol st
               (record_call (ts_pro_api (TUSHARE_TOKEN w)) st) None)
      by (rewrite get_instance_run, Hinst, decide_False, Hnew by done; done).
    rewrite fetch_zhonggai_etf_run. eexists.
    unfold record_call. cbn [_instance calls]. rewrite Hinst, <- app_assoc.
    reflexivity.
  - apply fetch_index_data_plain_state.
Qed.

End client_singleton.

Example client_built_once :
  let w := Sample.world "token" (Ok Sample.official) (Ok Sample.fund) in
  let st1 := snd (fetch_index_data w "中概互联" "H30533" Sample.fresh) in
  let st2 := snd (fetch_index_data w "中概互联" "H30533" st1) in
  calls st2 =
    [ ts_pro_api "token";
      pro_index_daily "H30533.CSI" "20211104" "20261104";
      pro_index_daily "H30533.CSI" "20211104" "20261104" ].
Proof. reflexivity. Qed.

(** ** The current point between the extremes *)

(** X7.  On a series with distinct labels and dated rows whose last row
    has its close between its low and its high, [_extract_metrics] returns
    metrics with [lv <= cur <= hv], whatever the order of the rows and
    whatever the other rows hold: the bar drawn from [lv] to [hv] contains
    the current point. *)
Theorem extract_metrics_bracket (S : list Row) (r_last : Row) (l c h : float) :
  NoDup (label <$> S) ->
  Forall (fun r => is_Some (date r)) S ->
  last S = Some r_last ->
  low r_last = Some l -> close r_last = Some c -> high r_last = Some h ->
  l <= c <= h ->
  exists m vl vh,
    DataFetcher._extract_metrics S = Ok (Some m) /\
    cur m = Some c /\ lv m = Some vl /\ hv m = Some vh /\
    vl <= c <= vh.
Proof.
  intros Hnd Hdated Hlast Hl Hc Hh Hlch.
  pose proof (last_Some_elem_of _ _ Hlast) as Hin.
  destruct (extract_metrics_rows S Hnd Hdated) as
    (r_last' & rh & vh & th & rl & vl & tl & Hlast' & Hfh & _ & _ & _
     & Hfl & _ & _ & _ & Hrun).
  { exists r_last. by rewrite Hh. }
  { exists r_last. by rewrite Hl. }
  rewrite Hlast in Hlast'. injection Hlast' as <-.
  apply first_best_max in Hfh as [_ Hmax]. apply first_best_min in Hfl as [_ Hmin].
  specialize (Hmax r_last h Hin Hh). specialize (Hmin r_last l Hin Hl).
  eexists _, vl, vh. split; [exact Hrun|]. cbn [cur lv hv].
  split; [done|]. split; [done|]. split; [done|]. lia.
Qed.

Lemma extract_metrics_bracket_sample :
  exists m vl vh,
    DataFetcher._extract_metrics Sample.series = Ok (Some m) /\
    cur m = Some 115 /\ lv m = Some vl /\ hv m = Some vh /\
    vl <= 115 <= vh.
Proof.
  apply (extract_metrics_bracket Sample.series
           (mkRow 4 (Some (Sample.midnight 2026 3 1)) (Some 115) (Some 117) (Some 101))
           101 115 117).
  - apply (bool_decide_unpack _). vm_compute. reflexivity.
  - repeat constructor; eexists; reflexivity.
  - reflexivity.
  - reflexivity.
  - reflexivity.
  - reflexivity.
  - lia.
Defined.

(** A last row whose close lies above every high gives a current point
    above [hv]. *)
Example extract_metrics_outside :
  DataFetcher._extract_metrics
    [ mkRow 0 (Some (Sample.midnight 2025 3 1)) (Some 100) (Some 105) (Some 95);
      mkRow 1 (Some (Sample.midnight 2025 3 2)) (Some 120) (Some 110) (Some 98) ]
  = Ok (Some {| cur := Some 120; hv := Some 110; hd := "2025-03-02";
                lv := Some 95; ld := "2025-03-01"; source := None |}).
Proof. reflexivity. Qed.

(** * Properties of the widgets *)

(** ** Saving and loading *)



Lemma over_default_is_Some {V : Type} (saved : option V) (v : V) :
  is_Some (over_default saved (Some v)).
Proof. destruct saved; by eexists. Qed.

Lemma load_complete (f : file_state) (d : Doc) :
  DataManager.load f = Ok d -> complete d.
Proof.
  intros Hload name Hin.
  destruct (load_merges f) as (d' & Hload' & Hmerge).
  rewrite Hload in Hload'. injection Hload' as <-.
  destruct (Hmerge name) as (Hs & Ha & Hn).
  destruct (default_data_complete name Hin) as (Hds & Hda & Hdn).
  rewrite Hs, Ha, Hn, Hds, Hda, Hdn.
  split; [|split]; apply over_default_is_Some.
Qed.

(** X8.  What the next [load] returns after a [save], by the outcome of
    the write.  A document that has an entry for every configured index
    (as every document returned by [load] has) is read back unchanged when
    the write succeeds.  When [open] fails the file is as before.  When
    the write fails after [open] has truncated the file, the next [load]
    returns the defaults, whatever had been saved before. *)
Theorem save_then_load (d : Doc) (f : file_state) :
  (complete d -> DataManager.load (DataManager.save Written d f) = Ok d) /\
  (forall f0 d0, DataManager.load f0 = Ok d0 ->
     DataManager.load (DataManager.save Written d0 f) = Ok d0) /\
  DataManager.load (DataManager.save OpenFails d f) = DataManager.load f /\
  DataManager.load (DataManager.save DumpFails d f) = Ok DataManager.default_data.
Proof.
  assert (forall d', complete d' ->
            DataManager.load (DataManager.save Written d' f) = Ok d') as Hround.
  { intros d' Hc. unfold DataManager.save, DataManager.load, DataManager.dumped.
    cbn [DataManager.exists_ DataManager.json_load saved_supports saved_atmospheres
         saved_notes DataManager.update].
    unfold DataManager.default_data. cbn [supports atmospheres notes].
    rewrite !union_default_absorbed;
      [by destruct d'|intros name Hin; destruct (Hc name Hin) as (? & ? & ?); done..]. }
  split; [apply Hround|]. split; [|done].
  intros f0 d0 Hload. apply Hround. by eapply load_complete.
Qed.

Example save_then_load_needs_complete :
  let d := {| supports := ∅; atmospheres := ∅; notes := ∅ |} in
  DataManager.load (DataManager.save Written d Absent) = Ok DataManager.default_data.
Proof. vm_compute. reflexivity. Qed.

(** ** The order of the journal *)

Lemma leb_trans (a b c : string) :
  String.leb a b = true -> String.leb b c = true -> String.leb a c = true.
Proof.
  unfold String.leb. revert b c.
  induction a as [|x a IH]; intros [|y b] [|z c]; simpl; try done.
  unfold Ascii.compare.
  destruct (N.compare_spec (N_of_ascii x) (N_of_ascii y)),
           (N.compare_spec (N_of_ascii y) (N_of_ascii z)),
           (N.compare_spec (N_of_ascii x) (N_of_ascii z)); try done; try lia.
  apply IH.
Qed.

#[local] Instance newest_first_trans : Transitive newest_first.
Proof. intros a b c Hab Hbc. unfold newest_first in *. by eapply leb_trans. Qed.

Lemma leb_not_ltb (a b : string) : String.leb b a = true -> String.ltb a b = false.
Proof.
  unfold String.ltb, String.leb. rewrite (String.compare_antisym a b).
  by destruct (String.compare b a).
Qed.

Lemma insert_desc_newest (x : Note.t) (l : list Note.t) :
  HdRel newest_first x l -> UIComponents.insert_desc x l = x :: l.
Proof.
  destruct l as [|y l]; simpl; [done|].
  intros Hhd. apply HdRel_inv in Hhd. by rewrite leb_not_ltb.
Qed.

(** A journal that is newest first is left as it is by the sort. *)
Lemma sort_desc_sorted_id (l : list Note.t) :
  Sorted newest_first l -> UIComponents.sort_desc l = l.
Proof.
  induction l as [|x l IH]; simpl; [done|].
  intros Hs. apply Sorted_inv in Hs as [Hs Hhd].
  rewrite IH by done. by apply insert_desc_newest.
Qed.

Lemma sort_desc_idemp (l : list Note.t) :
  UIComponents.sort_desc (UIComponents.sort_desc l) = UIComponents.sort_desc l.
Proof. apply sort_desc_sorted_id, sort_desc_sorted. Qed.

Lemma sorted_delete (idx : nat) (l : list Note.t) :
  Sorted newest_first l -> Sorted newest_first (delete idx l).
Proof.
  intros Hs. apply StronglySorted_Sorted.
  eapply StronglySorted_sublist; [apply sublist_delete|].
  by apply Sorted_StronglySorted; [apply _|].
Qed.

Lemma sorted_same_dates (l1 l2 : list Note.t) :
  Note.date <$> l1 = Note.date <$> l2 ->
  Sorted newest_first l1 -> Sorted newest_first l2.
Proof.
  revert l2. induction l1 as [|x l1 IH]; intros [|y l2]; csimpl; try done.
  intros [= Hxy Hrest] Hs. apply Sorted_inv in Hs as [Hs Hhd].
  constructor; [by apply IH|].
  destruct l1 as [|x' l1], l2 as [|y' l2]; csimpl in *; try done.
  injection Hrest as Hxy' _. apply HdRel_inv in Hhd. constructor.
  unfold newest_first in *. congruence.
Qed.

Lemma with_notes_lookup (d : Doc) (name : string) (l : list Note.t) :
  notes (Widgets.with_notes d name l) !! name = Some l.
Proof. unfold Widgets.with_notes. cbn [notes]. by rewrite lookup_insert_eq. Qed.

Lemma with_notes_other (d : Doc) (name other : string) (l : list Note.t) :
  other <> name ->
  notes (Widgets.with_notes d name l) !! other = notes d !! other.
Proof. intros Hne. unfold Widgets.with_notes. cbn [notes]. by rewrite lookup_insert_ne. Qed.

Lemma with_notes_sorted (d : Doc) (name : string) (l : list Note.t) :
  Sorted newest_first l ->
  Widgets.sort_notes name (Widgets.with_notes d name l) = Widgets.with_notes d name l.
Proof.
  intros Hs. unfold Widgets.sort_notes. rewrite with_notes_lookup.
  rewrite sort_desc_sorted_id by done.
  unfold Widgets.with_notes. cbn [notes supports atmospheres].
  by rewrite insert_insert_eq.
Qed.

Lemma sort_notes_sorted (name : string) (d : Doc) (l : list Note.t) :
  notes d !! name = Some l -> Sorted newest_first l -> Widgets.sort_notes name d = d.
Proof.
  intros Hl Hs. unfold Widgets.sort_notes. rewrite Hl.
  rewrite sort_desc_sorted_id by done.
  unfold Widgets.with_notes. rewrite insert_id by done. by destruct d.
Qed.

Lemma sort_notes_other (name other : string) (d : Doc) :
  other <> name ->
  notes (Widgets.sort_notes name d) !! other = notes d !! other.
Proof.
  intros Hne. unfold Widgets.sort_notes.
  destruct (notes d !! name); [by apply with_notes_other|done].
Qed.

Lemma sort_notes_thresholds (name : string) (d : Doc) :
  supports (Widgets.sort_notes name d) = supports d /\
  atmospheres (Widgets.sort_notes name d) = atmospheres d.
Proof. unfold Widgets.sort_notes. by destruct (notes d !! name). Qed.

(** X9.  The sort at the head of [_render_notes_list] only reorders the
    journal of the index: the journal keeps its entries, comes out newest
    first, and the entries of one date keep their order; nothing else of
    the document changes.  On a journal that is already newest first, and
    on an index without a journal, the document is left as it is, and
    sorting twice is sorting once. *)
Theorem sort_notes_only_reorders (name : string) (d : Doc) :
  (forall l, notes d !! name = Some l ->
     exists l',
       notes (Widgets.sort_notes name d) !! name = Some l' /\
       l' ≡ₚ l /\
       Sorted newest_first l' /\
       (forall dt, dated dt l' = dated dt l)) /\
  (forall l, notes d !! name = Some l -> Sorted newest_first l ->
     Widgets.sort_notes name d = d) /\
  (notes d !! name = None -> Widgets.sort_notes name d = d) /\
  Widgets.sort_notes name (Widgets.sort_notes name d) = Widgets.sort_notes name d /\
  (forall other, other <> name ->
     notes (Widgets.sort_notes name d) !! other = notes d !! other) /\
  supports (Widgets.sort_notes name d) = supports d /\
  atmospheres (Widgets.sort_notes name d) = atmospheres d.
Proof.
  split.
  { intros l Hl. exists (UIComponents.sort_desc l).
    split; [unfold Widgets.sort_notes; rewrite Hl; apply with_notes_lookup|].
    split; [apply sort_desc_perm|].
    split; [apply sort_desc_sorted|].
    intros dt. apply sort_desc_stable. }
  split; [apply sort_notes_sorted|].
  split; [intros Hl; unfold Widgets.sort_notes; by rewrite Hl|].
  split.
  { unfold Widgets.sort_notes at 2 3. destruct (notes d !! name) as [l|] eqn:Hl.
    - apply with_notes_sorted, sort_desc_sorted.
    - unfold Widgets.sort_notes. by rewrite Hl. }
  split; [intros other; apply sort_notes_other|].
  apply sort_notes_thresholds.
Qed.

(** A journal read from a file need not be in order; the sort that shows
    it changes the document in memory and not the file. *)
Example sort_notes_not_saved :
  let shuffled := [ Note.mk "2024-01-02" "first"; Note.mk "2024-05-10" "later" ] in
  let f := Content {| saved_supports := None; saved_atmospheres := None;
                      saved_notes := Some {[ "上证指数" := shuffled ]} |} in
  exists d,
    DataManager.load f = Ok d /\
    notes d !! "上证指数" = Some shuffled /\
    notes (Widgets.sort_notes "上证指数" d) !! "上证指数"
      = Some [ Note.mk "2024-05-10" "later"; Note.mk "2024-01-02" "first" ].
Proof. eexists. split; [reflexivity|]. split; vm_compute; reflexivity. Qed.

Section journal_edits.
Context `{!Py.PyStr}.

(** X10.  Deleting the entry shown at position [idx] of the journal removes
    that entry and no other: the journal afterwards, together with the
    entry that was shown there, holds the entries the journal held; it is
    still newest first, with the remaining entries in the order in which
    they were shown, so the next rendering does not move them; the other
    journals and the thresholds are unchanged; and the document is handed
    to [save]. *)
Theorem delete_note_removes_shown (o : write_outcome) (name : string) (idx : nat)
    (s : UIComponents.Session) (l : list Note.t) (shown : Note.t) :
  notes (UIComponents.db s) !! name = Some l ->
  UIComponents.sort_desc l !! idx = Some shown ->
  let s' := Widgets.delete_note o name idx s in
  exists new,
    notes (UIComponents.db s') !! name = Some new /\
    shown :: new ≡ₚ l /\
    List.length new = (List.length l - 1)%nat /\
    new `sublist_of` UIComponents.sort_desc l /\
    Sorted newest_first new /\
    Widgets.sort_notes name (UIComponents.db s') = UIComponents.db s' /\
    (forall other, other <> name ->
       notes (UIComponents.db s') !! other = notes (UIComponents.db s) !! other) /\
    supports (UIComponents.db s') = supports (UIComponents.db s) /\
    atmospheres (UIComponents.db s') = atmospheres (UIComponents.db s) /\
    UIComponents.disk s'
      = DataManager.save o (UIComponents.db s') (UIComponents.disk s).
Proof.
  intros Hl Hshown s'. subst s'. unfold Widgets.delete_note. rewrite Hl. cbn zeta.
  pose proof (lookup_lt_Some _ _ _ Hshown) as Hlt.
  rewrite decide_True by done. cbn [UIComponents.db UIComponents.disk].
  assert (Sorted newest_first (delete idx (UIComponents.sort_desc l))) as Hs
    by apply sorted_delete, sort_desc_sorted.
  exists (delete idx (UIComponents.sort_desc l)).
  split; [apply with_notes_lookup|].
  split; [rewrite <- (delete_Permutation _ _ _ Hshown); apply sort_desc_perm|].
  split.
  { rewrite length_delete by (by eexists). by rewrite (Permutation_length (sort_desc_perm l)). }
  split; [apply sublist_delete|].
  split; [done|].
  split; [by apply with_notes_sorted|].
  split; [intros other Hne; by apply with_notes_other|].
  done.
Qed.

(** X11.  Saving an edited entry with a text that is not blank replaces
    the content of the entry shown at position [idx] by the stripped text
    and keeps its date; every other entry stays where it is, so the
    journal is still newest first and the next rendering does not move the
    edited entry; the document is handed to [save].  With a blank text
    nothing is saved and the journal is only sorted.  The other journals
    and the thresholds are unchanged in both cases. *)
Theorem update_note_in_place (o : write_outcome) (name : string) (idx : nat)
    (edited_content : string) (s : UIComponents.Session) (l : list Note.t)
    (shown : Note.t) :
  notes (UIComponents.db s) !! name = Some l ->
  UIComponents.sort_desc l !! idx = Some shown ->
  let s' := Widgets.update_note o name idx edited_content s in
  (Py.strip edited_content <> "" ->
     exists new,
       notes (UIComponents.db s') !! name = Some new /\
       new !! idx = Some (Note.mk (Note.date shown) (Py.strip edited_content)) /\
       (forall j, j <> idx -> new !! j = UIComponents.sort_desc l !! j) /\
       List.length new = List.length l /\
       Sorted newest_first new /\
       Widgets.sort_notes name (UIComponents.db s') = UIComponents.db s' /\
       UIComponents.disk s'
         = DataManager.save o (UIComponents.db s') (UIComponents.disk s)) /\
  (Py.strip edited_content = "" ->
     UIComponents.db s' = Widgets.sort_notes name (UIComponents.db s) /\
     UIComponents.disk s' = UIComponents.disk s) /\
  (forall other, other <> name ->
     notes (UIComponents.db s') !! other = notes (UIComponents.db s) !! other) /\
  supports (UIComponents.db s') = supports (UIComponents.db s) /\
  atmospheres (UIComponents.db s') = atmospheres (UIComponents.db s).
Proof.
  intros Hl Hshown s'. subst s'. unfold Widgets.update_note. rewrite Hl. cbn zeta.
  rewrite Hshown. pose proof (lookup_lt_Some _ _ _ Hshown) as Hlt.
  split.
  { intros Hne. rewrite decide_False by done. cbn [UIComponents.db UIComponents.disk].
    set (note' := Note.mk (Note.date shown) (Py.strip edited_content)).
    assert (Sorted newest_first (<[idx := note']> (UIComponents.sort_desc l))) as Hs.
    { eapply sorted_same_dates; [|apply (sort_desc_sorted l)].
      rewrite list_fmap_insert. symmetry. apply list_insert_id.
      by rewrite list_lookup_fmap, Hshown. }
    exists (<[idx := note']> (UIComponents.sort_desc l)).
    split; [apply with_notes_lookup|].
    split; [by apply list_lookup_insert_eq|].
    split; [intros j Hj; by apply list_lookup_insert_ne|].
    split.
    { by rewrite length_insert, (Permutation_length (sort_desc_perm l)). }
    split; [done|].
    split; [by apply with_notes_sorted|done]. }
  split.
  { intros He. by rewrite decide_True. }
  destruct (decide (Py.strip edited_content = "")); cbn [UIComponents.db].
  - split; [intros other; apply sort_notes_other|apply sort_notes_thresholds].
  - split; [intros other Hne; by apply with_notes_other|done].
Qed.

End journal_edits.

Lemma delete_note_removes_shown_sample :
  let l := [ Note.mk "2024-05-10" "trim"; Note.mk "2024-01-02" "first" ] in
  let shown := Note.mk "2024-05-10" "trim" in
  let s' := Widgets.delete_note Written "上证指数" 0 Sample.session in
  exists new,
    notes (UIComponents.db s') !! "上证指数" = Some new /\
    shown :: new ≡ₚ l /\
    List.length new = (List.length l - 1)%nat /\
    new `sublist_of` UIComponents.sort_desc l /\
    Sorted newest_first new /\
    Widgets.sort_notes "上证指数" (UIComponents.db s') = UIComponents.db s' /\
    (forall other, other <> "上证指数" ->
       notes (UIComponents.db s') !! other
         = notes (UIComponents.db Sample.session) !! other) /\
    supports (UIComponents.db s') = supports (UIComponents.db Sample.session) /\
    atmospheres (UIComponents.db s') = atmospheres (UIComponents.db Sample.session) /\
    UIComponents.disk s'
      = DataManager.save Written (UIComponents.db s') (UIComponents.disk Sample.session).
Proof.
  apply (delete_note_removes_shown Written "上证指数" 0 Sample.session
           [ Note.mk "2024-05-10" "trim"; Note.mk "2024-01-02" "first" ]
           (Note.mk "2024-05-10" "trim")).
  - vm_compute. reflexivity.
  - vm_compute. reflexivity.
Defined.

Example delete_note_on_sample :
  notes (UIComponents.db (Widgets.delete_note Written "上证指数" 0 Sample.session))
    !! "上证指数" = Some [ Note.mk "2024-01-02" "first" ].
Proof. vm_compute. reflexivity. Qed.

Lemma update_note_in_place_sample :
  let l := [ Note.mk "2024-05-10" "trim"; Note.mk "2024-01-02" "first" ] in
  let shown := Note.mk "2024-01-02" "first" in
  let s' := Widgets.update_note Written "上证指数" 1 " hold " Sample.session in
  (Py.strip " hold " <> "" ->
     exists new,
       notes (UIComponents.db s') !! "上证指数" = Some new /\
       new !! 1%nat = Some (Note.mk (Note.date shown) (Py.strip " hold ")) /\
       (forall j, j <> 1%nat -> new !! j = UIComponents.sort_desc l !! j) /\
       List.length new = List.length l /\
       Sorted newest_first new /\
       Widgets.sort_notes "上证指数" (UIComponents.db s') = UIComponents.db s' /\
       UIComponents.disk s'
         = DataManager.save Written (UIComponents.db s') (UIComponents.disk Sample.session)) /\
  (Py.strip " hold " = "" ->
     UIComponents.db s' = Widgets.sort_notes "上证指数" (UIComponents.db Sample.session) /\
     UIComponents.disk s' = UIComponents.disk Sample.session) /\
  (forall other, other <> "上证指数" ->
     notes (UIComponents.db s') !! other
       = notes (UIComponents.db Sample.session) !! other) /\
  supports (UIComponents.db s') = supports (UIComponents.db Sample.session) /\
  atmospheres (UIComponents.db s') = atmospheres (UIComponents.db Sample.session).
Proof.
  apply (update_note_in_place Written "上证指数" 1 " hold " Sample.session
           [ Note.mk "2024-05-10" "trim"; Note.mk "2024-01-02" "first" ]
           (Note.mk "2024-01-02" "first")).
  - vm_compute. reflexivity.
  - vm_compute. reflexivity.
Defined.

Example update_note_on_sample :
  notes (UIComponents.db (Widgets.update_note Written "上证指数" 1 " hold " Sample.session))
    !! "上证指数"
  = Some [ Note.mk "2024-05-10" "trim"; Note.mk "2024-01-02" "hold" ].
Proof. vm_compute. reflexivity. Qed.

(** ** The threshold inputs *)

Section thresholds.
Context (float_of_int : Z -> float) (times_1_3 : float -> float).

(** The session after [_render_parameters]: as before when the inputs hold
    the values that were offered, with both inputs stored and saved
    otherwise. *)
Lemma render_parameters_session (o : write_outcome) (name : string) (cur : option float)
    (new_sup new_atm : float) (s : UIComponents.Session) :
  (Widgets._render_parameters float_of_int times_1_3 o name cur new_sup new_atm s).2 =
    if decide (Widgets.current_thresholds float_of_int times_1_3 (UIComponents.db s) name
               = (new_sup, new_atm))
    then s
    else
      let d :=
        {| supports := <[name := PyFloat new_sup]> (supports (UIComponents.db s));
           atmospheres := <[name := PyFloat new_atm]> (atmospheres (UIComponents.db s));
           notes := notes (UIComponents.db s) |} in
      {| UIComponents.db := d;
         UIComponents.disk := DataManager.save o d (UIComponents.disk s) |}.
Proof.
  unfold Widgets._render_parameters.
  destruct (Widgets.current_thresholds _ _ _ _) as [cs ca].
  destruct (bool_decide (new_sup = 0)); cbn [snd];
    repeat case_bool_decide; cbn [negb orb]; case_decide; simplify_eq; done.
Qed.

Lemma current_thresholds_stored (d : Doc) (name : string) (sup atm : float) :
  supports d !! name = Some (PyFloat sup) ->
  atmospheres d !! name = Some (PyFloat atm) ->
  Widgets.current_thresholds float_of_int times_1_3 d name = (sup, atm).
Proof. intros Hs Ha. unfold Widgets.current_thresholds. by rewrite Hs, Ha. Qed.

(** X12.  [_render_parameters] stores the two inputs together, as floats,
    and saves, exactly when one of them differs from the value that was
    offered; the thresholds of the other indices and the journals are
    never touched.  Afterwards the stored thresholds of the index are the
    inputs, so that a further run with the same inputs changes and saves
    nothing.  The function raises [ZeroDivisionError] exactly when the
    support input is zero, and it does so after the zero has been stored
    and saved. *)
Theorem render_parameters_stores (o : write_outcome) (name : string) (cur : option float)
    (new_sup new_atm : float) (s : UIComponents.Session) :
  let offered :=
    Widgets.current_thresholds float_of_int times_1_3 (UIComponents.db s) name in
  let out :=
    Widgets._render_parameters float_of_int times_1_3 o name cur new_sup new_atm s in
  let s' := out.2 in
  (out.1 = inl Widgets.ZeroDivisionError <-> new_sup = 0) /\
  (offered = (new_sup, new_atm) -> s' = s) /\
  (offered <> (new_sup, new_atm) ->
     supports (UIComponents.db s') !! name = Some (PyFloat new_sup) /\
     atmospheres (UIComponents.db s') !! name = Some (PyFloat new_atm) /\
     UIComponents.disk s'
       = DataManager.save o (UIComponents.db s') (UIComponents.disk s)) /\
  Widgets.current_thresholds float_of_int times_1_3 (UIComponents.db s') name
    = (new_sup, new_atm) /\
  (forall o' cur',
     (Widgets._render_parameters float_of_int times_1_3 o' name cur' new_sup new_atm s').2
       = s') /\
  (forall other, other <> name ->
     supports (UIComponents.db s') !! other = supports (UIComponents.db s) !! other /\
     atmospheres (UIComponents.db s') !! other
       = atmospheres (UIComponents.db s) !! other) /\
  notes (UIComponents.db s') = notes (UIComponents.db s).
Proof.
  intros offered out s'.
  assert (Widgets.current_thresholds float_of_int times_1_3 (UIComponents.db s') name
          = (new_sup, new_atm)) as Hread.
  { subst s' out. rewrite render_parameters_session. fold offered.
    destruct (decide (offered = _)) as [He|Hne]; [done|].
    cbn zeta. cbn [UIComponents.db].
    apply current_thresholds_stored; cbn [supports atmospheres];
      by rewrite lookup_insert_eq. }
  split.
  { subst out. unfold Widgets._render_parameters.
    destruct (Widgets.current_thresholds _ _ _ _) as [cs ca].
    case_bool_decide; cbn [fst]; split; done. }
  split.
  { intros He. subst s' out. rewrite render_parameters_session. fold offered.
    by rewrite decide_True. }
  split.
  { intros Hne. subst s' out. rewrite render_parameters_session. fold offered.
    rewrite decide_False by done. cbn zeta. cbn [UIComponents.db UIComponents.disk].
    cbn [supports atmospheres]. by rewrite !lookup_insert_eq. }
  split; [done|].
  split.
  { intros o' cur'. rewrite render_parameters_session. by rewrite decide_True. }
  subst s' out. rewrite render_parameters_session. fold offered.
  destruct (decide (offered = _)) as [He|Hne]; [done|].
  cbn zeta. cbn [UIComponents.db supports atmospheres notes].
  split; [|done]. intros other Hother. by rewrite !lookup_insert_ne.
Qed.

End thresholds.

(** ** The offsets of the labels *)

Section label_layout.
Context {P : Type} (near : P -> P -> bool).

Lemma label_offsets_from_alternate (prev_pos : P) (prev_offset : Z) (rest : list P) :
  let offsets := Widgets.label_offsets_from near prev_pos prev_offset rest in
  List.length offsets = List.length rest /\
  Forall (fun o => o = 0 \/ o = 30) offsets /\
  (forall i p q a b,
     (prev_pos :: rest) !! i = Some p -> rest !! i = Some q ->
     (prev_offset :: offsets) !! i = Some a -> offsets !! i = Some b ->
     if near q p then a <> b else b = 0).
Proof.
  revert prev_pos prev_offset.
  induction rest as [|pos rest IH]; intros prev_pos prev_offset; cbn zeta.
  { split; [done|]. split; [constructor|]. by intros i p q a b _ ?. }
  cbn [Widgets.label_offsets_from].
  set (offset := if near pos prev_pos then (if decide (prev_offset = 0) then 30 else 0)
                 else 0).
  destruct (IH pos offset) as (Hlen & Hall & Hadj).
  split; [cbn [List.length]; by rewrite Hlen|].
  split.
  { constructor; [|done]. subst offset.
    destruct (near pos prev_pos); [destruct (decide _)|]; auto. }
  intros [|i] p q a b Hp Hq Ha Hb.
  - cbn in Hp, Hq, Ha, Hb. simplify_eq.
    destruct (near q p); [|done]. destruct (decide (a = 0)); lia.
  - by apply (Hadj i p q a b).
Qed.

(** X13.  The layout of [render_progress_bar] gives every label the offset
    0 or 30 and the first label the offset 0.  A label that is near the
    label before it in the list never shares its offset; a label that is
    not near the label before it gets the offset 0, whatever the other
    labels are. *)
Theorem label_offsets_alternate (positions : list P) :
  let offsets := Widgets.label_offsets near positions in
  List.length offsets = List.length positions /\
  Forall (fun o => o = 0 \/ o = 30) offsets /\
  (forall p, head positions = Some p -> head offsets = Some 0) /\
  (forall i p q a b,
     positions !! i = Some p -> positions !! S i = Some q ->
     offsets !! i = Some a -> offsets !! S i = Some b ->
     if near q p then a <> b else b = 0).
Proof.
  destruct positions as [|pos rest]; cbn zeta.
  { split; [done|]. split; [constructor|]. split; [done|]. by intros i p q a b ?. }
  cbn [Widgets.label_offsets].
  destruct (label_offsets_from_alternate pos 0 rest) as (Hlen & Hall & Hadj).
  split; [cbn [List.length]; by rewrite Hlen|].
  split; [constructor; [by left|done]|].
  split; [done|].
  intros i p q a b Hp Hq Ha Hb. by apply (Hadj i p q a b).
Qed.

End label_layout.

(** Only neighbours in the list are compared: with the support above the
    atmosphere, the atmosphere label can lie on the label of the low and
    share its offset. *)
Example label_offsets_not_neighbours :
  let near a b := bool_decide (Z.abs (a - b) < 10) in
  Widgets.label_offsets near [0; 50; 5; 100] = [0; 0; 0; 0] /\
  Widgets.label_offsets near [0; 5; 8; 100] = [0; 30; 0; 0].
Proof. split; vm_compute; reflexivity. Qed.

(** ** A session, from its start *)



Lemma complete_with_notes (d : Doc) (name : string) (l : list Note.t) :
  complete d -> complete (Widgets.with_notes d name l).
Proof.
  intros Hc. apply complete_journals; [done|].
  intros other Hother. apply lookup_insert_is_Some'. by right.
Qed.

Lemma complete_sort_notes (d : Doc) (name : string) :
  complete d -> complete (Widgets.sort_notes name d).
Proof.
  intros Hc. unfold Widgets.sort_notes.
  destruct (notes d !! name); [by apply complete_with_notes|done].
Qed.

Lemma in_order_sort_notes (d : Doc) (name : string) :
  in_order (Widgets.sort_notes name d) = in_order d.
Proof.
  unfold Widgets.sort_notes. destruct (notes d !! name) as [l|] eqn:Hl; [|done].
  unfold in_order, Widgets.with_notes. cbn [supports atmospheres notes]. f_equal.
  rewrite fmap_insert, sort_desc_idemp. apply insert_id.
  by rewrite lookup_fmap, Hl.
Qed.

Section session.
Context `{!Py.PyStr} (float_of_int : Z -> float) (times_1_3 : float -> float).

Lemma step_complete (o : write_outcome) (s s' : UIComponents.Session) :
  Widgets.step float_of_int times_1_3 o s s' ->
  complete (UIComponents.db s) -> complete (UIComponents.db s').
Proof.
  intros Hstep Hc. destruct Hstep as [name cur new_sup new_atm s|name date_input content_input s
    |name s|name idx s|name idx edited_content s|s].
  - rewrite render_parameters_session. case_decide; [done|].
    cbn zeta. cbn [UIComponents.db]. intros other Hin.
    destruct (Hc other Hin) as (Hs & Ha & Hn). cbn [supports atmospheres notes].
    split; [apply lookup_insert_is_Some'; by right|].
    split; [apply lookup_insert_is_Some'; by right|done].
  - unfold UIComponents.add_note. case_decide; [done|].
    cbn zeta. cbn [UIComponents.db]. apply (complete_with_notes _ name _ Hc).
  - cbn [UIComponents.db]. by apply complete_sort_notes.
  - unfold Widgets.delete_note. destruct (notes (UIComponents.db s) !! name); [|done].
    cbn zeta. case_decide; cbn [UIComponents.db];
      [by apply complete_with_notes|by apply complete_sort_notes].
  - unfold Widgets.update_note. destruct (notes (UIComponents.db s) !! name); [|done].
    cbn zeta. destruct (_ !! idx); [case_decide|]; cbn [UIComponents.db];
      try by apply complete_sort_notes.
    by apply complete_with_notes.
  - done.
Qed.

(** Whatever a widget changes in the document beyond the order in which a
    journal is shown, it hands the document to [save]. *)
Lemma step_saves (o : write_outcome) (s s' : UIComponents.Session) :
  Widgets.step float_of_int times_1_3 o s s' ->
  (UIComponents.disk s' = UIComponents.disk s /\
   in_order (UIComponents.db s') = in_order (UIComponents.db s)) \/
  UIComponents.disk s' = DataManager.save o (UIComponents.db s') (UIComponents.disk s).
Proof.
  intros Hstep. destruct Hstep as [name cur new_sup new_atm s|name date_input content_input s
    |name s|name idx s|name idx edited_content s|s].
  - rewrite render_parameters_session. case_decide; [by left|by right].
  - unfold UIComponents.add_note. case_decide; [by left|by right].
  - left. cbn [UIComponents.db UIComponents.disk]. split; [done|apply in_order_sort_notes].
  - unfold Widgets.delete_note. destruct (notes (UIComponents.db s) !! name); [|by left].
    cbn zeta. case_decide; [by right|left].
    cbn [UIComponents.db UIComponents.disk]. split; [done|apply in_order_sort_notes].
  - unfold Widgets.update_note. destruct (notes (UIComponents.db s) !! name); [|by left].
    cbn zeta. destruct (_ !! idx); [case_decide|]; try by right.
    all: left; cbn [UIComponents.db UIComponents.disk];
      split; [done|apply in_order_sort_notes].
  - by right.
Qed.

Lemma start_complete (f : file_state) (s0 : UIComponents.Session) :
  Widgets.start f = Ok s0 ->
  complete (UIComponents.db s0) /\
  DataManager.load (UIComponents.disk s0) = Ok (UIComponents.db s0).
Proof.
  unfold Widgets.start. destruct (DataManager.load f) as [d|e] eqn:Hload; [|done].
  cbn [mbind result_bind]. intros [= <-]. cbn [UIComponents.db UIComponents.disk].
  split; [by eapply load_complete|done].
Qed.

Lemma run_complete (f : file_state) (s0 s : UIComponents.Session) :
  Widgets.start f = Ok s0 ->
  rtc (fun a b => exists o, Widgets.step float_of_int times_1_3 o a b) s0 s ->
  complete (UIComponents.db s).
Proof.
  intros Hstart Hrun.
  revert s Hrun. apply (rtc_ind_r (fun s => complete (UIComponents.db s)) s0).
  - by apply start_complete in Hstart as [Hc _].
  - intros s1 s2 _ [o Hstep] IH. by eapply step_complete.
Qed.

(** X14.  In a session that [main] started by loading the file, whatever
    the widgets did since and whatever became of their writes, the document
    holds a support, an atmosphere and a journal for every configured
    index: [render_index_card] finds [supports[name]] and
    [atmospheres[name]] without a [KeyError], and [_render_notes_list]
    finds the journal. *)
Theorem index_card_finds_thresholds (f : file_state) (s0 s : UIComponents.Session)
    (name : string) :
  Widgets.start f = Ok s0 ->
  rtc (fun a b => exists o, Widgets.step float_of_int times_1_3 o a b) s0 s ->
  name ∈ DataManager.get_all_index_names ->
  (exists sup atm,
     Widgets.card_thresholds (UIComponents.db s) name = inr (sup, atm) /\
     supports (UIComponents.db s) !! name = Some sup /\
     atmospheres (UIComponents.db s) !! name = Some atm) /\
  is_Some (notes (UIComponents.db s) !! name).
Proof.
  intros Hstart Hrun Hin.
  destruct (run_complete f s0 s Hstart Hrun name Hin) as ([sup Hs] & [atm Ha] & Hn).
  split; [|done]. exists sup, atm. unfold Widgets.card_thresholds. by rewrite Hs, Ha.
Qed.

(** X15.  As long as every write succeeds, the file follows the session:
    at any moment a fresh [load] returns the document of the session up to
    the order in which the journals list their entries (the sort that
    shows a journal is not saved by itself). *)
Theorem file_follows_session (f : file_state) (s0 s : UIComponents.Session) :
  Widgets.start f = Ok s0 ->
  rtc (Widgets.step float_of_int times_1_3 Written) s0 s ->
  exists d,
    DataManager.load (UIComponents.disk s) = Ok d /\
    in_order d = in_order (UIComponents.db s).
Proof.
  intros Hstart Hrun.
  assert (complete (UIComponents.db s) /\
          exists d, DataManager.load (UIComponents.disk s) = Ok d /\
                    in_order d = in_order (UIComponents.db s)) as [_ Hfile]; [|done].
  revert s Hrun.
  apply (rtc_ind_r (fun s => complete (UIComponents.db s) /\
           exists d, DataManager.load (UIComponents.disk s) = Ok d /\
                     in_order d = in_order (UIComponents.db s)) s0).
  - apply start_complete in Hstart as [Hc Hload]. split; [done|by eexists].
  - intros s1 s2 _ Hstep [Hc IH].
    pose proof (step_complete _ _ _ Hstep Hc) as Hc'. split; [done|].
    destruct (step_saves _ _ _ Hstep) as [[Hdisk Horder]|Hdisk].
    + rewrite Hdisk, Horder. done.
    + rewrite Hdisk. exists (UIComponents.db s2). split; [|done].
      by apply load_dumped.
Qed.

End session.

Lemma index_card_finds_thresholds_sample :
  let s0 := {| UIComponents.db := DataManager.default_data; UIComponents.disk := Absent |} in
  let s := Widgets.delete_note DumpFails "沪深300" 0
             (UIComponents.add_note OpenFails "沪深300" (UIComponents.mk_pydate 2026 11 4)
                " watch " s0) in
  (exists sup atm,
     Widgets.card_thresholds (UIComponents.db s) "沪深300" = inr (sup, atm) /\
     supports (UIComponents.db s) !! "沪深300" = Some sup /\
     atmospheres (UIComponents.db s) !! "沪深300" = Some atm) /\
  is_Some (notes (UIComponents.db s) !! "沪深300").
Proof.
  cbn zeta.
  apply (index_card_finds_thresholds (fun n => n * 2 ^ 1074) (fun x => x) Absent
           {| UIComponents.db := DataManager.default_data; UIComponents.disk := Absent |}).
  - reflexivity.
  - eapply rtc_l; [exists OpenFails; apply Widgets.step_add_note|].
    apply rtc_once. exists DumpFails. apply Widgets.step_delete_note.
  - vm_compute. do 2 right. left.
Defined.

Lemma file_follows_session_sample :
  let s0 := {| UIComponents.db := DataManager.default_data; UIComponents.disk := Absent |} in
  let s := {| UIComponents.db :=
                Widgets.sort_notes "沪深300"
                  (UIComponents.db
                     (UIComponents.add_note Written "沪深300"
                        (UIComponents.mk_pydate 2026 11 4) " watch " s0));
              UIComponents.disk :=
                UIComponents.disk
                  (UIComponents.add_note Written "沪深300"
                     (UIComponents.mk_pydate 2026 11 4) " watch " s0) |} in
  exists d,
    DataManager.load (UIComponents.disk s) = Ok d /\
    in_order d = in_order (UIComponents.db s).
Proof.
  cbn zeta.
  apply (file_follows_session (fun n => n * 2 ^ 1074) (fun x => x) Absent
           {| UIComponents.db := DataManager.default_data; UIComponents.disk := Absent |}).
  - reflexivity.
  - eapply rtc_l; [apply Widgets.step_add_note|].
    apply rtc_once. apply Widgets.step_notes_list.
Defined.

(** When a write fails after the file was opened, the file no longer holds
    the session: the next [load] returns the defaults. *)
Example file_lost_on_failed_write :
  let s0 := {| UIComponents.db := DataManager.default_data; UIComponents.disk := Absent |} in
  let s := UIComponents.add_note DumpFails "沪深300" (UIComponents.mk_pydate 2026 11 4)
             " watch " s0 in
  notes (UIComponents.db s) !! "沪深300" = Some [ Note.mk "2026-11-04" "watch" ] /\
  DataManager.load (UIComponents.disk s) = Ok DataManager.default_data.
Proof. split; vm_compute; reflexivity. Qed.
